(** * Key resolution for a CA with classical and CP-ABE keys

    A shallow embedding of two Go sources of fabric-ca:

    - [bccsp/sw] CP-ABE key wrappers ([cpabePrivateKey], [cpabeMasterKey],
      [cpabeParams]) with their [Bytes], [SKI], [Symmetric], [Private] and
      [PublicKey] methods;
    - [internal/pkg/util/csp.go]: signer resolution with the key-file
      fallback, the CP-ABE key lookups driven by certificate extensions,
      the key-option table, PEM key import and key-pair loading.

    Go values are modelled as follows.  A [[]byte] is a list of integers
    in [0, 256); a Go [error] is a tree of messages rendered by [Error];
    a call that may panic yields an [outcome]; a function that talks to
    the key store, the file system or the logger runs in the monad [M],
    which threads the list of such calls in program order. *)

From Stdlib Require Import ZArith String Ascii List Lia DecimalString.
From stdpp Require Import base list strings sorting.
Import ListNotations.

Open Scope Z_scope.
Open Scope string_scope.
Open Scope list_scope.

(** ** Go runtime notions *)

Abbreviation bytes := (list Z).

(** Errors of [errors], [fmt] and [github.com/pkg/errors].  [errors.New],
    [errors.Errorf] and [fmt.Errorf] (without a wrapping verb) all yield a
    leaf carrying the formatted message. *)
Inductive error : Type :=
| errors_New (msg : string)
| errors_WithMessage (cause : error) (msg : string)
| errors_Wrap (cause : error) (msg : string).

(** The [Error()] method: annotations are prefixed to the cause. *)
Fixpoint Error (e : error) : string :=
  match e with
  | errors_New msg => msg
  | errors_WithMessage cause msg => msg +:+ ": " +:+ Error cause
  | errors_Wrap cause msg => msg +:+ ": " +:+ Error cause
  end.

(** A Go pair [(v, err)] whose producer returns either a value or an
    error. *)
Inductive result (A : Type) : Type :=
| Ok (a : A)
| Err (e : error).
Arguments Ok {A} a.
Arguments Err {A} e.

(** A call either returns or panics; [panic(err)] carries the interface
    value it was given, which is [None] for a nil [error]. *)
Inductive outcome (A : Type) : Type :=
| Returns (a : A)
| Panics (v : option error).
Arguments Returns {A} a.
Arguments Panics {A} v.

(** The value carried by the runtime panic of a nil dereference. *)
Definition nil_dereference : option error :=
  Some (errors_New "runtime error: invalid memory address or nil pointer dereference").

(** ** Standard-library collaborators *)

(** [proto.Message]: what [proto.Marshal] does on a (possibly nil) pointer
    to a generated message type is supplied per message type. *)
Class proto_Message (M : Type) : Type :=
  { proto_Marshal : option M -> result bytes }.

(** [crypto/sha256]: the digest function. *)
Class crypto_sha256 : Type :=
  { Sum256 : bytes -> bytes }.

(** A [hash.Hash] accumulates what was written; [Sum(b)] appends the
    digest of the accumulated input to [b]. *)
Record hash_Hash : Type := { written : bytes }.

Definition sha256_New : hash_Hash := {| written := [] |}.

Definition hash_Write (h : hash_Hash) (p : bytes) : hash_Hash :=
  {| written := written h ++ p |}.

Definition hash_Sum `{crypto_sha256} (h : hash_Hash) (b : bytes) : bytes :=
  b ++ Sum256 (written h).

(** ** Package [sw]: the CP-ABE key wrappers *)

Module sw.
Section Keys.
(** The generated protobuf messages [cpabe.Key], [cpabe.MasterKey] and
    [cpabe.Params], with the [Param] field of the first two. *)
Context {cpabe_Key cpabe_MasterKey cpabe_Params : Type}.
Context `{!proto_Message cpabe_Key, !proto_Message cpabe_MasterKey,
          !proto_Message cpabe_Params, !crypto_sha256}.
Variable Key_Param : cpabe_Key -> option cpabe_Params.
Variable MasterKey_Param : cpabe_MasterKey -> option cpabe_Params.

Record cpabePrivateKey : Type := { privateKey_key : option cpabe_Key }.
Record cpabeMasterKey : Type := { masterKey_key : option cpabe_MasterKey }.
Record cpabeParams : Type := { params : option cpabe_Params }.

(** [(k *cpabePrivateKey) Bytes()] *)
Definition cpabePrivateKey_Bytes (k : cpabePrivateKey) : result bytes :=
  match proto_Marshal (privateKey_key k) with
  | Err err =>
      Err (errors_New ("Failed marshalling cpabe key [" +:+ Error err +:+ "]"))
  | Ok raw => Ok raw
  end.

(** [(k *cpabePrivateKey) SKI()] *)
Definition cpabePrivateKey_SKI (k : cpabePrivateKey) : outcome bytes :=
  match privateKey_key k with
  | None => Returns []
  | Some _ =>
      match proto_Marshal (privateKey_key k) with
      | Err err => Panics (Some err)
      | Ok raw =>
          let hash := sha256_New in
          let hash := hash_Write hash raw in
          Returns (hash_Sum hash [])
      end
  end.

Definition cpabePrivateKey_Symmetric (k : cpabePrivateKey) : bool := false.
Definition cpabePrivateKey_Private (k : cpabePrivateKey) : bool := true.

(** [(k *cpabePrivateKey) PublicKey()]: reading [k.key.Param] dereferences
    [k.key]. *)
Definition cpabePrivateKey_PublicKey (k : cpabePrivateKey)
  : outcome (result cpabeParams) :=
  match privateKey_key k with
  | None => Panics nil_dereference
  | Some key => Returns (Ok {| params := Key_Param key |})
  end.

(** [(k *cpabeMasterKey) Bytes()] *)
Definition cpabeMasterKey_Bytes (k : cpabeMasterKey) : result bytes :=
  match proto_Marshal (masterKey_key k) with
  | Err err =>
      Err (errors_New ("Failed marshalling cpabe master key [" +:+ Error err +:+ "]"))
  | Ok raw => Ok raw
  end.

(** [(k *cpabeMasterKey) SKI()] *)
Definition cpabeMasterKey_SKI (k : cpabeMasterKey) : outcome bytes :=
  match masterKey_key k with
  | None => Returns []
  | Some _ =>
      match proto_Marshal (masterKey_key k) with
      | Err err => Panics (Some err)
      | Ok raw =>
          let hash := sha256_New in
          let hash := hash_Write hash raw in
          Returns (hash_Sum hash [])
      end
  end.

Definition cpabeMasterKey_Symmetric (k : cpabeMasterKey) : bool := false.
Definition cpabeMasterKey_Private (k : cpabeMasterKey) : bool := true.

(** [(k *cpabeMasterKey) PublicKey()] *)
Definition cpabeMasterKey_PublicKey (k : cpabeMasterKey)
  : outcome (result cpabeParams) :=
  match masterKey_key k with
  | None => Panics nil_dereference
  | Some key => Returns (Ok {| params := MasterKey_Param key |})
  end.

(** [(p *cpabeParams) Bytes()] *)
Definition cpabeParams_Bytes (p : cpabeParams) : result bytes :=
  match proto_Marshal (params p) with
  | Err err =>
      Err (errors_New ("Failed marshalling params [" +:+ Error err +:+ "]"))
  | Ok raw => Ok raw
  end.

(** [(p *cpabeParams) SKI()]: the call [panic(err)] follows the
    marshalling without a test of [err]; the hashing below it is never
    reached. *)
Definition cpabeParams_SKI (p : cpabeParams) : outcome bytes :=
  match params p with
  | None => Returns []
  | Some _ =>
      match proto_Marshal (params p) with
      | Err err => Panics (Some err)
      | Ok raw => Panics None
      end
  end.

Definition cpabeParams_Symmetric (p : cpabeParams) : bool := false.
Definition cpabeParams_Private (p : cpabeParams) : bool := false.

(** [(p *cpabeParams) PublicKey()] *)
Definition cpabeParams_PublicKey (p : cpabeParams)
  : outcome (result cpabeParams) :=
  Returns (Ok p).
End Keys.
Arguments cpabePrivateKey : clear implicits.
Arguments cpabeMasterKey : clear implicits.
Arguments cpabeParams : clear implicits.
End sw.

(** ** More standard-library functions used by [csp.go] *)

(** [strconv.Itoa] and the verb [%d]. *)
Definition strconv_Itoa (n : Z) : string :=
  NilZero.string_of_int (Z.to_int n).

(** [asn1.ObjectIdentifier.String]: the arcs in decimal, joined by dots. *)
Fixpoint ObjectIdentifier_String_from (s : string) (i : nat) (oi : list Z)
  : string :=
  match oi with
  | [] => s
  | v :: oi' =>
      let s := if decide (0 < i)%nat then s +:+ "." else s in
      ObjectIdentifier_String_from (s +:+ strconv_Itoa v) (S i) oi'
  end.

Definition ObjectIdentifier_String (oi : list Z) : string :=
  ObjectIdentifier_String_from EmptyString 0 oi.

(** [hex.EncodeToString]: two lower-case digits per byte. *)
Definition hextable : string := "0123456789abcdef".

Definition hex_digit (n : Z) : string :=
  String.substring (Z.to_nat n) 1 hextable.

Fixpoint hex_EncodeToString (src : bytes) : string :=
  match src with
  | [] => EmptyString
  | v :: src' =>
      hex_digit (Z.shiftr v 4) +:+ hex_digit (Z.land v 15)
        +:+ hex_EncodeToString src'
  end.

(** The double-quote character, as a string. *)
Definition quote : string := String (ascii_of_nat 34) EmptyString.

(** [strings.HasSuffix]. *)
Definition strings_HasSuffix (s suffix : string) : bool :=
  bool_decide (String.length suffix <= String.length s)%nat
  && bool_decide
       (String.substring (String.length s - String.length suffix)
          (String.length suffix) s = suffix).

(** The verb [%v] on a [[]string]: the elements separated by blanks,
    between brackets. *)
Fixpoint join_blank (l : list string) : string :=
  match l with
  | [] => EmptyString
  | [s] => s
  | s :: l' => s +:+ " " +:+ join_blank l'
  end.

Definition fmt_strings (l : list string) : string :=
  "[" +:+ join_blank l +:+ "]".

(** Conversions between integer types: [int32(x)] and [uint32(x)] keep the
    low 32 bits, read as signed and as unsigned. *)
Definition int32 (x : Z) : Z := (x + 2 ^ 31) mod 2 ^ 32 - 2 ^ 31.
Definition uint32 (x : Z) : Z := x mod 2 ^ 32.
Definition byte (x : Z) : Z := Z.land x 255.

(** [binary.BigEndian.PutUint32(b[off:], v)].  The slice shares the array
    of [b], so the four stores land at [off .. off+3] of [b]; the store
    panics unless the slice holds four bytes. *)
Definition index_out_of_range : option error :=
  Some (errors_New "runtime error: index out of range").

Definition slice_bounds_out_of_range : option error :=
  Some (errors_New "runtime error: slice bounds out of range").

Definition binary_BigEndian_PutUint32 (b : bytes) (off : nat) (v : Z)
  : outcome bytes :=
  if decide (length b < off)%nat then Panics slice_bounds_out_of_range
  else if decide (off + 3 < length b)%nat then
    let b := <[off := byte (Z.shiftr v 24)]> b in
    let b := <[(off + 1)%nat := byte (Z.shiftr v 16)]> b in
    let b := <[(off + 2)%nat := byte (Z.shiftr v 8)]> b in
    let b := <[(off + 3)%nat := byte v]> b in
    Returns b
  else Panics index_out_of_range.

(** The order of [sort.StringSlice]: Go compares strings byte by byte. *)
Definition string_le (s t : string) : Prop := String.leb s t = true.

Global Instance string_le_dec (s t : string) : Decision (string_le s t).
Proof. unfold string_le. apply _. Defined.

(** [sort.Sort(sort.StringSlice(keys))].  A list of strings has one sorted
    arrangement, so the sorting algorithm does not show in the result. *)
Definition sort_Strings (keys : list string) : list string :=
  merge_sort string_le keys.

(** ** Data of the collaborating packages *)

(** [pkix.Extension] and the part of [x509.Certificate] read here.  The
    values of a parsed certificate are slices of its encoding, hence never
    nil. *)
Record pkix_Extension : Type :=
  { Id : list Z;
    Value : bytes }.

Record x509_Certificate : Type :=
  { Raw : bytes;
    Extensions : list pkix_Extension }.

(** [attrmgr.Attributes]: the map [Attrs], listed in the order in which a
    [range] over it visits the entries.  Keys are pairwise distinct. *)
Record attrmgr_Attributes : Type :=
  { Attrs : list (string * string) }.

(** The map index expression [m[key]]: the zero value when absent. *)
Fixpoint map_index (m : list (string * string)) (key : string) : string :=
  match m with
  | [] => EmptyString
  | (k, v) :: m' => if decide (k = key) then v else map_index m' key
  end.

(** [csr.KeyRequest], with its accessors [Algo] and [Size]. *)
Module KeyRequest.
Record t : Type :=
  { A : string;
    S : Z }.
Definition Algo (kr : t) : string := A kr.
Definition Size (kr : t) : Z := S kr.
End KeyRequest.
Abbreviation csr_KeyRequest := KeyRequest.t.

(** [pem.Block]. *)
Record pem_Block : Type :=
  { Type_ : string;
    Bytes_ : bytes }.

(** What [utils.PEMtoPrivateKey] hands back behind [interface{}]. *)
Record ecdsa_PrivateKey : Type :=
  { ecdsa_Curve : string;
    ecdsa_X : Z;
    ecdsa_Y : Z;
    ecdsa_D : Z }.

Record rsa_PrivateKey : Type :=
  { rsa_N : Z;
    rsa_E : Z;
    rsa_D : Z;
    rsa_Primes : list Z }.

Inductive crypto_PrivateKey : Type :=
| key_ecdsa (key : ecdsa_PrivateKey)
| key_rsa (key : rsa_PrivateKey)
| key_other.

(** Package [bccsp]: option structs, each with its [Temporary] flag. *)
Inductive bccsp_KeyGenOpts : Type :=
| ECDSAKeyGenOpts (Temporary : bool)
| ECDSAP256KeyGenOpts (Temporary : bool)
| ECDSAP384KeyGenOpts (Temporary : bool)
| RSA2048KeyGenOpts (Temporary : bool)
| RSA3072KeyGenOpts (Temporary : bool)
| RSA4096KeyGenOpts (Temporary : bool)
| CPABEKeyGenOpts (Temporary : bool).

Inductive bccsp_KeyImportOpts : Type :=
| X509PublicKeyImportOpts (Temporary : bool)
| ECDSAPrivateKeyImportOpts (Temporary : bool)
| CPABEParamsImportOpts (Temporary : bool).

(** The [raw interface{}] argument of [KeyImport]. *)
Inductive import_raw : Type :=
| raw_Certificate (cert : x509_Certificate)
| raw_bytes (b : bytes).

(** The interface [bccsp.Key] without [PublicKey], which no function below
    calls. *)
Class bccsp_Key (K : Type) : Type :=
  { Bytes : K -> result bytes;
    SKI : K -> outcome bytes;
    Symmetric : K -> bool;
    Private : K -> bool }.

(** The three wrappers of package [sw] implement it. *)
Global Instance cpabePrivateKey_Key {cpabe_Key : Type}
    `{!proto_Message cpabe_Key, !crypto_sha256}
  : bccsp_Key (sw.cpabePrivateKey cpabe_Key) :=
  {| Bytes := sw.cpabePrivateKey_Bytes;
     SKI := sw.cpabePrivateKey_SKI;
     Symmetric := sw.cpabePrivateKey_Symmetric;
     Private := sw.cpabePrivateKey_Private |}.

Global Instance cpabeMasterKey_Key {cpabe_MasterKey : Type}
    `{!proto_Message cpabe_MasterKey, !crypto_sha256}
  : bccsp_Key (sw.cpabeMasterKey cpabe_MasterKey) :=
  {| Bytes := sw.cpabeMasterKey_Bytes;
     SKI := sw.cpabeMasterKey_SKI;
     Symmetric := sw.cpabeMasterKey_Symmetric;
     Private := sw.cpabeMasterKey_Private |}.

Global Instance cpabeParams_Key {cpabe_Params : Type}
    `{!proto_Message cpabe_Params}
  : bccsp_Key (sw.cpabeParams cpabe_Params) :=
  {| Bytes := sw.cpabeParams_Bytes;
     SKI := sw.cpabeParams_SKI;
     Symmetric := sw.cpabeParams_Symmetric;
     Private := sw.cpabeParams_Private |}.

(** The interface [bccsp.BCCSP], as far as it is called here. *)
Record bccsp_BCCSP (K : Type) : Type :=
  { KeyGen : bccsp_KeyGenOpts -> result K;
    KeyImport : import_raw -> bccsp_KeyImportOpts -> result K;
    GetKey : bytes -> result K }.
Arguments KeyGen {K} _ _.
Arguments KeyImport {K} _ _ _.
Arguments GetKey {K} _ _.

(** [tls.Certificate]. *)
Record tls_Certificate (CryptoSigner : Type) : Type :=
  { Certificate : list bytes;
    PrivateKey : option CryptoSigner }.
Arguments Certificate {CryptoSigner} _.
Arguments PrivateKey {CryptoSigner} _.

(** [cpabe.ParamsOIDString]. *)
Definition ParamsOIDString : string := "1.2.3.4.5.6.7.8.9".
Definition ParamsOID : list Z := [1; 2; 3; 4; 5; 6; 7; 8; 9].

(** The functions of other packages called by [csp.go].  Each is a
    function of its arguments.  [pem.Decode] leaves a strictly shorter
    remainder whenever it finds a block.  [AttrOIDString] is the constant
    of package [attrmgr]. *)
Record Externals (K CryptoSigner Signer Policy : Type) : Type :=
  { ioutil_ReadFile : string -> result bytes;
    helpers_ParseCertificatePEM : bytes -> result x509_Certificate;
    x509_ParseCertificate : bytes -> result x509_Certificate;
    json_Unmarshal : bytes -> result attrmgr_Attributes;
    abeutils_Hash : string -> Z;
    utils_PEMtoPrivateKey : bytes -> result crypto_PrivateKey;
    utils_PrivateKeyToDER : ecdsa_PrivateKey -> result bytes;
    pem_Decode : bytes -> option (pem_Block * bytes);
    pem_Decode_rest : forall data block rest,
      pem_Decode data = Some (block, rest) ->
      (length rest < length data)%nat;
    cspsigner_New : option (bccsp_BCCSP K) -> K -> result CryptoSigner;
    local_NewSigner :
      option CryptoSigner -> option x509_Certificate -> Policy -> result Signer;
    tls_LoadX509KeyPair : string -> string -> result (tls_Certificate CryptoSigner);
    AttrOIDString : string }.
Arguments ioutil_ReadFile {K CryptoSigner Signer Policy} _ _.
Arguments helpers_ParseCertificatePEM {K CryptoSigner Signer Policy} _ _.
Arguments x509_ParseCertificate {K CryptoSigner Signer Policy} _ _.
Arguments json_Unmarshal {K CryptoSigner Signer Policy} _ _.
Arguments abeutils_Hash {K CryptoSigner Signer Policy} _ _.
Arguments utils_PEMtoPrivateKey {K CryptoSigner Signer Policy} _ _.
Arguments utils_PrivateKeyToDER {K CryptoSigner Signer Policy} _ _.
Arguments pem_Decode {K CryptoSigner Signer Policy} _ _.
Arguments pem_Decode_rest {K CryptoSigner Signer Policy} _ _ _ _ _.
Arguments cspsigner_New {K CryptoSigner Signer Policy} _ _ _.
Arguments local_NewSigner {K CryptoSigner Signer Policy} _ _ _ _.
Arguments tls_LoadX509KeyPair {K CryptoSigner Signer Policy} _ _ _.
Arguments AttrOIDString {K CryptoSigner Signer Policy} _.

(** ** The call log and the monad of [csp.go] *)

(** Calls that reach outside the package, in program order. *)
Inductive event (K : Type) : Type :=
| ev_ReadFile (filename : string)
| ev_KeyImport (raw : import_raw) (opts : bccsp_KeyImportOpts)
| ev_GetKey (ski : bytes)
| ev_cspsigner_New (key : K)
| ev_local_NewSigner
| ev_tls_LoadX509KeyPair (certFile keyFile : string)
| ev_Hash (s : string)
| ev_Debugf (msg : string)
| ev_Warningf (msg : string).
Arguments ev_ReadFile {K} _.
Arguments ev_KeyImport {K} _ _.
Arguments ev_GetKey {K} _.
Arguments ev_cspsigner_New {K} _.
Arguments ev_local_NewSigner {K}.
Arguments ev_tls_LoadX509KeyPair {K} _ _.
Arguments ev_Hash {K} _.
Arguments ev_Debugf {K} _.
Arguments ev_Warningf {K} _.

Definition M (K A : Type) : Type := (outcome A * list (event K))%type.

Global Instance M_ret {K} : MRet (M K) :=
  fun A (a : A) => (Returns a, []).

Global Instance M_bind {K} : MBind (M K) :=
  fun A B (f : A -> M K B) (m : M K A) =>
    match m with
    | (Returns a, t) => let '(r, t') := f a in (r, t ++ t')
    | (Panics v, t) => (Panics v, t)
    end.

(** An external call: log it, then continue with its value. *)
Definition call {K A} (e : event K) (a : A) : M K A := (Returns a, [e]).

Definition panic {K A} (v : option error) : M K A := (Panics v, []).

Definition lift {K A} (o : outcome A) : M K A := (o, []).

Definition trace {K A} (m : M K A) : list (event K) := snd m.
Definition value {K A} (m : M K A) : outcome A := fst m.

(** ** Package [util]: [csp.go] *)

(** A [(bccsp.Key, error)] pair as Go returns it. *)
Definition go_pair {A} (r : result A) : option A * option error :=
  match r with
  | Ok a => (Some a, None)
  | Err err => (None, Some err)
  end.

Section util.
Context {K CryptoSigner Signer Policy : Type}.
Context `{!bccsp_Key K, !crypto_sha256}.
Variable ext : Externals K CryptoSigner Signer Policy.

(** Method calls on the interface value [csp], which may be nil. *)
Definition csp_KeyImport (csp : option (bccsp_BCCSP K))
    (raw : import_raw) (opts : bccsp_KeyImportOpts) : M K (result K) :=
  match csp with
  | None => panic nil_dereference
  | Some c => call (ev_KeyImport raw opts) (KeyImport c raw opts)
  end.

Definition csp_GetKey (csp : option (bccsp_BCCSP K)) (ski : bytes)
  : M K (result K) :=
  match csp with
  | None => panic nil_dereference
  | Some c => call (ev_GetKey ski) (GetKey c ski)
  end.

Definition log_Debugf (msg : string) : M K unit := call (ev_Debugf msg) tt.
Definition log_Warningf (msg : string) : M K unit := call (ev_Warningf msg) tt.

(** [GetSignerFromCert] *)
Definition GetSignerFromCert (cert : x509_Certificate)
    (csp : option (bccsp_BCCSP K))
  : M K (option K * option CryptoSigner * option error) :=
  match csp with
  | None => mret (None, None, Some (errors_New "CSP was not initialized"))
  | Some c =>
      r ← csp_KeyImport csp (raw_Certificate cert) (X509PublicKeyImportOpts true);
      match r with
      | Err err =>
          mret (None, None,
                Some (errors_WithMessage err
                        "Failed to import certificate's public key"))
      | Ok certPubK =>
          ski ← lift (SKI certPubK);
          r ← csp_GetKey csp ski;
          match r with
          | Err err =>
              mret (None, None,
                    Some (errors_WithMessage err
                            "Could not find matching private key for SKI"))
          | Ok privateKey =>
              if negb (Private privateKey) then
                mret (None, None,
                      Some (errors_New
                              ("The private key associated with the certificate with SKI '"
                               +:+ hex_EncodeToString ski +:+ "' was not found")))
              else
                r ← call (ev_cspsigner_New privateKey)
                      (cspsigner_New ext csp privateKey);
                match r with
                | Err err =>
                    mret (None, None,
                          Some (errors_WithMessage err
                                  "Failed to load ski from bccsp"))
                | Ok signer => mret (Some privateKey, Some signer, None)
                end
          end
      end
  end.

(** [GetSignerFromCertFile]: the parsed certificate is returned next to
    whatever [GetSignerFromCert] reports, its error included. *)
Definition GetSignerFromCertFile (certFile : string)
    (csp : option (bccsp_BCCSP K))
  : M K (option K * option CryptoSigner * option x509_Certificate
         * option error) :=
  r ← call (ev_ReadFile certFile) (ioutil_ReadFile ext certFile);
  match r with
  | Err err =>
      mret (None, None, None,
            Some (errors_Wrap err
                    ("Could not read certFile '" +:+ certFile +:+ "'")))
  | Ok certBytes =>
      match helpers_ParseCertificatePEM ext certBytes with
      | Err err => mret (None, None, None, Some err)
      | Ok parsedCa =>
          '(key, cspSigner, err) ← GetSignerFromCert parsedCa csp;
          mret (key, cspSigner, Some parsedCa, err)
      end
  end.

(** [ImportBCCSPKeyFromPEM] *)
Definition ImportBCCSPKeyFromPEM (keyFile : string)
    (myCSP : option (bccsp_BCCSP K)) (temporary : bool) : M K (result K) :=
  r ← call (ev_ReadFile keyFile) (ioutil_ReadFile ext keyFile);
  match r with
  | Err err => mret (Err err)
  | Ok keyBuff =>
      match utils_PEMtoPrivateKey ext keyBuff with
      | Err err =>
          mret (Err (errors_WithMessage err
                       ("Failed parsing private key from " +:+ keyFile)))
      | Ok (key_ecdsa key) =>
          match utils_PrivateKeyToDER ext key with
          | Err err =>
              mret (Err (errors_WithMessage err
                           ("Failed to convert ECDSA private key for '"
                            +:+ keyFile +:+ "'")))
          | Ok priv =>
              r ← csp_KeyImport myCSP (raw_bytes priv)
                    (ECDSAPrivateKeyImportOpts temporary);
              match r with
              | Err err =>
                  mret (Err (errors_WithMessage err
                               ("Failed to import ECDSA private key for '"
                                +:+ keyFile +:+ "'")))
              | Ok sk => mret (Ok sk)
              end
          end
      | Ok (key_rsa _) =>
          mret (Err (errors_New
                       ("Failed to import RSA key from " +:+ keyFile
                        +:+ "; RSA private key import is not supported")))
      | Ok key_other =>
          mret (Err (errors_New
                       ("Failed to import key from " +:+ keyFile
                        +:+ ": invalid secret key type")))
      end
  end.

(** The tail of [BccspBackedSigner], shared by both paths. *)
Definition BccspBackedSigner_finish (cspSigner : option CryptoSigner)
    (parsedCa : option x509_Certificate) (policy : Policy)
  : M K (result Signer) :=
  r ← call ev_local_NewSigner (local_NewSigner ext cspSigner parsedCa policy);
  match r with
  | Err err => mret (Err (errors_Wrap err "Failed to create new signer"))
  | Ok signer => mret (Ok signer)
  end.

Definition fallback_notice : string :=
  "No key found in BCCSP keystore, attempting fallback".

(** [BccspBackedSigner] *)
Definition BccspBackedSigner (caFile keyFile : string) (policy : Policy)
    (csp : option (bccsp_BCCSP K)) : M K (result Signer) :=
  '(_, cspSigner, parsedCa, err) ← GetSignerFromCertFile caFile csp;
  match err with
  | Some _ =>
      _ ← log_Debugf fallback_notice;
      r ← ImportBCCSPKeyFromPEM keyFile csp false;
      match r with
      | Err err =>
          mret (Err (errors_WithMessage err
                       ("Could not find the private key in BCCSP keystore nor in keyfile '"
                        +:+ keyFile +:+ "'")))
      | Ok key =>
          r ← call (ev_cspsigner_New key) (cspsigner_New ext csp key);
          match r with
          | Err err =>
              mret (Err (errors_WithMessage err
                           "Failed initializing CryptoSigner"))
          | Ok signer =>
              BccspBackedSigner_finish (Some signer) parsedCa policy
          end
      end
  | None => BccspBackedSigner_finish cspSigner parsedCa policy
  end.

(** The inner loop of [BccspBackedCPABEPrivateKey] over the sorted keys:
    one AttributeID per key, appended to [attributeID]. *)
Fixpoint hash_attributes (attrs : list (string * string))
    (keys : list string) (attributeID : list Z) : M K (list Z) :=
  match keys with
  | [] => mret attributeID
  | key :: keys' =>
      let attrString := key +:+ "." +:+ map_index attrs key in
      h ← call (ev_Hash attrString) (abeutils_Hash ext attrString);
      hash_attributes attrs keys' (attributeID ++ [int32 h])
  end.

(** The loop of [BccspBackedCPABEPrivateKey] over the extensions.  [Err]
    is the return from inside the loop. *)
Fixpoint scan_extensions (exts : list pkix_Extension)
    (paramsBytes : option bytes) (attributeID : list Z)
  : M K (result (option bytes * list Z)) :=
  match exts with
  | [] => mret (Ok (paramsBytes, attributeID))
  | extensions :: exts' =>
      let paramsBytes :=
        if decide (ObjectIdentifier_String (Id extensions) = ParamsOIDString)
        then Some (Value extensions) else paramsBytes in
      if decide (ObjectIdentifier_String (Id extensions) = AttrOIDString ext)
      then
        match json_Unmarshal ext (Value extensions) with
        | Err err =>
            mret (Err (errors_New
                         ("unmarshal Attributes error, " +:+ Error err)))
        | Ok attrs =>
            let keys := fst <$> Attrs attrs in
            let keys := sort_Strings keys in
            attributeID ← hash_attributes (Attrs attrs) keys attributeID;
            scan_extensions exts' paramsBytes attributeID
        end
      else scan_extensions exts' paramsBytes attributeID
  end.

(** The loop that stores the AttributeIDs into [attrBytes]. *)
Fixpoint put_attributes (attrBytes : bytes) (i : nat)
    (attributeID : list Z) : outcome bytes :=
  match attributeID with
  | [] => Returns attrBytes
  | attr :: attributeID' =>
      match binary_BigEndian_PutUint32 attrBytes (Nat.shiftl i 2)
              (uint32 attr) with
      | Panics v => Panics v
      | Returns attrBytes => put_attributes attrBytes (S i) attributeID'
      end
  end.

Definition not_support_notice (certFile : string) : string :=
  "The certificate in [" +:+ certFile +:+ "] not support cpabe".

(** [BccspBackedCPABEPrivateKey] *)
Definition BccspBackedCPABEPrivateKey (certFile : string)
    (csp : option (bccsp_BCCSP K)) : M K (option K * option error) :=
  r ← call (ev_ReadFile certFile) (ioutil_ReadFile ext certFile);
  match r with
  | Err err =>
      mret (None, Some (errors_New ("read file error, " +:+ Error err)))
  | Ok certBytes =>
      match helpers_ParseCertificatePEM ext certBytes with
      | Err err =>
          mret (None,
                Some (errors_New ("parse certificate error, " +:+ Error err)))
      | Ok parsedCert =>
          r ← scan_extensions (Extensions parsedCert) None [];
          match r with
          | Err err => mret (None, Some err)
          | Ok (None, _) =>
              _ ← log_Warningf (not_support_notice certFile);
              mret (None, None)
          | Ok (Some paramsBytes, attributeID) =>
              let raw := paramsBytes in
              let attrLen := length attributeID in
              attrBytes ←
                lift (put_attributes (replicate (Nat.shiftl attrLen 2) 0) 0
                        attributeID);
              let hash := sha256_New in
              let hash := hash_Write hash raw in
              let hash := hash_Write hash attrBytes in
              let ski := hash_Sum hash [] in
              r ← csp_GetKey csp ski;
              mret (go_pair r)
          end
      end
  end.

(** The loop of [BccspBackedCPABEParams] over the extensions. *)
Fixpoint scan_params (exts : list pkix_Extension)
    (paramsBytes : option bytes) : option bytes :=
  match exts with
  | [] => paramsBytes
  | extensions :: exts' =>
      let paramsBytes :=
        if decide (ObjectIdentifier_String (Id extensions) = ParamsOIDString)
        then Some (Value extensions) else paramsBytes in
      scan_params exts' paramsBytes
  end.

(** [BccspBackedCPABEParams] *)
Definition BccspBackedCPABEParams (certFile : string)
    (csp : option (bccsp_BCCSP K)) : M K (option K * option error) :=
  r ← call (ev_ReadFile certFile) (ioutil_ReadFile ext certFile);
  match r with
  | Err err =>
      mret (None, Some (errors_New ("read file error, " +:+ Error err)))
  | Ok certBytes =>
      match helpers_ParseCertificatePEM ext certBytes with
      | Err err =>
          mret (None,
                Some (errors_New ("parse certificate error, " +:+ Error err)))
      | Ok parsedCert =>
          match scan_params (Extensions parsedCert) None with
          | None =>
              _ ← log_Warningf (not_support_notice certFile);
              mret (None, None)
          | Some paramsBytes =>
              r ← csp_KeyImport csp (raw_bytes paramsBytes)
                    (CPABEParamsImportOpts true);
              match r with
              | Err err =>
                  mret (None,
                        Some (errors_New
                                ("import params error, " +:+ Error err)))
              | Ok params => mret (Some params, None)
              end
          end
      end
  end.

(** [BccspBackedCPABEMasterKey] *)
Definition BccspBackedCPABEMasterKey (certFile : string)
    (csp : option (bccsp_BCCSP K)) : M K (option K * option error) :=
  '(params, err) ← BccspBackedCPABEParams certFile csp;
  match err with
  | Some err =>
      mret (None,
            Some (errors_New ("backed cpabe params error, " +:+ Error err)))
  | None =>
      match params with
      | None => mret (None, None)
      | Some params =>
          ski ← lift (SKI params);
          r ← csp_GetKey csp ski;
          mret (go_pair r)
      end
  end.

(** [getBCCSPKeyOpts] *)
Definition getBCCSPKeyOpts (kr : option csr_KeyRequest) (ephemeral : bool)
  : M K (result bccsp_KeyGenOpts) :=
  match kr with
  | None => mret (Ok (ECDSAKeyGenOpts ephemeral))
  | Some kr =>
      _ ← log_Debugf ("generate key from request: algo="
                       +:+ KeyRequest.Algo kr +:+ ", size="
                       +:+ strconv_Itoa (KeyRequest.Size kr));
      if decide (KeyRequest.Algo kr = "rsa") then
        if decide (KeyRequest.Size kr = 2048) then
          mret (Ok (RSA2048KeyGenOpts ephemeral))
        else if decide (KeyRequest.Size kr = 3072) then
          mret (Ok (RSA3072KeyGenOpts ephemeral))
        else if decide (KeyRequest.Size kr = 4096) then
          mret (Ok (RSA4096KeyGenOpts ephemeral))
        else
          mret (Err (errors_New ("Invalid RSA key size: "
                                 +:+ strconv_Itoa (KeyRequest.Size kr))))
      else if decide (KeyRequest.Algo kr = "ecdsa") then
        if decide (KeyRequest.Size kr = 256) then
          mret (Ok (ECDSAP256KeyGenOpts ephemeral))
        else if decide (KeyRequest.Size kr = 384) then
          mret (Ok (ECDSAP384KeyGenOpts ephemeral))
        else if decide (KeyRequest.Size kr = 521) then
          mret (Err (errors_New "Unsupported ECDSA key size: 521"))
        else
          mret (Err (errors_New ("Invalid ECDSA key size: "
                                 +:+ strconv_Itoa (KeyRequest.Size kr))))
      else
        mret (Err (errors_New ("Invalid algorithm: " +:+ KeyRequest.Algo kr)))
  end.

(** The decoding loop of [LoadX509KeyPair].  [pem.Decode] shortens its
    input with every block, so a budget of one step per input byte, plus
    one, is never used up ([decode_blocks_eq] below states the loop
    equation this yields). *)
Fixpoint decode_loop (budget : nat) (certPEMBlock : bytes)
    (Certificate : list bytes) (skippedBlockTypes : list string)
  : list bytes * list string :=
  match budget with
  | O => (Certificate, skippedBlockTypes)
  | S budget' =>
      match pem_Decode ext certPEMBlock with
      | None => (Certificate, skippedBlockTypes)
      | Some (certDERBlock, certPEMBlock) =>
          if decide (Type_ certDERBlock = "CERTIFICATE") then
            decode_loop budget' certPEMBlock
              (Certificate ++ [Bytes_ certDERBlock]) skippedBlockTypes
          else
            decode_loop budget' certPEMBlock Certificate
              (skippedBlockTypes ++ [Type_ certDERBlock])
      end
  end.

Definition decode_blocks (certPEMBlock : bytes)
    (Certificate : list bytes) (skippedBlockTypes : list string)
  : list bytes * list string :=
  decode_loop (S (length certPEMBlock)) certPEMBlock
    Certificate skippedBlockTypes.

(** [LoadX509KeyPair] *)
Definition LoadX509KeyPair (certFile keyFile : string)
    (csp : option (bccsp_BCCSP K))
  : M K (result (tls_Certificate CryptoSigner)) :=
  r ← call (ev_ReadFile certFile) (ioutil_ReadFile ext certFile);
  match r with
  | Err err => mret (Err err)
  | Ok certPEMBlock =>
      let '(Certificate, skippedBlockTypes) :=
        decode_blocks certPEMBlock [] [] in
      if decide (length Certificate = 0)%nat then
        if decide (length skippedBlockTypes = 0)%nat then
          mret (Err (errors_New
                       ("Failed to find PEM block in file " +:+ certFile)))
        else if bool_decide (length skippedBlockTypes = 1)%nat
                && strings_HasSuffix (default EmptyString (skippedBlockTypes !! 0%nat))
                     "PRIVATE KEY" then
          mret (Err (errors_New
                       ("Failed to find certificate PEM data in file "
                        +:+ certFile
                        +:+ ", but did find a private key; PEM inputs may have been switched")))
        else
          mret (Err (errors_New
                       ("Failed to find " +:+ quote +:+ "CERTIFICATE" +:+ quote
                        +:+ " PEM block in file "
                        +:+ certFile
                        +:+ " after skipping PEM blocks of the following types: "
                        +:+ fmt_strings skippedBlockTypes)))
      else
        match x509_ParseCertificate ext
                (default [] (Certificate !! 0%nat)) with
        | Err err => mret (Err err)
        | Ok x509Cert =>
            '(_, PrivateKey, err) ← GetSignerFromCert x509Cert csp;
            match err with
            | Some err =>
                if decide (keyFile ≠ EmptyString) then
                  _ ← log_Debugf ("Could not load TLS certificate with BCCSP: "
                                   +:+ Error err);
                  _ ← log_Debugf ("Attempting fallback with certfile "
                                   +:+ certFile +:+ " and keyfile " +:+ keyFile);
                  r ← call (ev_tls_LoadX509KeyPair certFile keyFile)
                        (tls_LoadX509KeyPair ext certFile keyFile);
                  match r with
                  | Err err =>
                      mret (Err (errors_Wrap err
                                   ("Could not get the private key " +:+ keyFile
                                    +:+ " that matches " +:+ certFile)))
                  | Ok fallbackCerts => mret (Ok fallbackCerts)
                  end
                else
                  mret (Err (errors_WithMessage err
                               "Could not load TLS certificate with BCCSP"))
            | None =>
                mret (Ok {| Certificate := Certificate;
                            PrivateKey := PrivateKey |})
            end
        end
  end.
End util.

(** ** Notions of the specification

    These follow the words of the specification, not the code; the
    properties below compare the code with them. *)

(** The string hashed for a pair: [name.value]. *)
Definition attribute_string (pair : string * string) : string :=
  fst pair +:+ "." +:+ snd pair.

(** The four bytes of a 32-bit value, most significant first. *)
Definition big_endian_4 (n : Z) : bytes :=
  [ (n mod 2 ^ 32) / 2 ^ 24;
    (n mod 2 ^ 24) / 2 ^ 16;
    (n mod 2 ^ 16) / 2 ^ 8;
    n mod 2 ^ 8 ].

(** The canonical form of an attribute set: the pairs sorted by name. *)
Definition name_le (p q : string * string) : Prop := string_le (fst p) (fst q).

Global Instance name_le_dec (p q : string * string) : Decision (name_le p q).
Proof. unfold name_le. apply _. Defined.

Definition canonical_pairs (attrs : list (string * string))
  : list (string * string) :=
  merge_sort name_le attrs.

(** The AttributeID sequence: one AttributeID per canonical pair. *)
Definition attribute_ids (hash : string -> Z) (attrs : list (string * string))
  : list Z :=
  (fun pair => hash (attribute_string pair)) <$> canonical_pairs attrs.

(** The CP-ABE private-key identifier of the specification: the digest of
    the Params bytes followed by the big-endian AttributeIDs. *)
Definition private_key_identifier `{crypto_sha256} (hash : string -> Z)
    (paramsBytes : bytes) (attrs : list (string * string)) : bytes :=
  Sum256 (paramsBytes ++ concat (big_endian_4 <$> attribute_ids hash attrs)).

(** ** Notions about a run of the code *)

(** Which extensions of a certificate carry which of the two identifiers. *)
Definition is_params_extension (e : pkix_Extension) : Prop :=
  ObjectIdentifier_String (Id e) = ParamsOIDString.

Definition is_attribute_extension {K CryptoSigner Signer Policy}
    (ext : Externals K CryptoSigner Signer Policy) (e : pkix_Extension) : Prop :=
  ObjectIdentifier_String (Id e) = AttrOIDString ext.

Global Instance is_params_extension_dec (e : pkix_Extension) :
  Decision (is_params_extension e).
Proof. unfold is_params_extension. apply _. Defined.

Global Instance is_attribute_extension_dec {K CryptoSigner Signer Policy}
    (ext : Externals K CryptoSigner Signer Policy) (e : pkix_Extension) :
  Decision (is_attribute_extension ext e).
Proof. unfold is_attribute_extension. apply _. Defined.

(** An attribute extension whose payload does not decode. *)
Definition is_malformed {K CryptoSigner Signer Policy}
    (ext : Externals K CryptoSigner Signer Policy) (e : pkix_Extension) : Prop :=
  is_attribute_extension ext e
  /\ exists err, json_Unmarshal ext (Value e) = Err err.

(** The strings the extension loop hashes for one decoded attribute map,
    and for one extension. *)
Definition attribute_strings (attrs : list (string * string)) : list string :=
  (fun key => key +:+ "." +:+ map_index attrs key)
    <$> sort_Strings (fst <$> attrs).

Definition extension_strings {K CryptoSigner Signer Policy}
    (ext : Externals K CryptoSigner Signer Policy) (e : pkix_Extension)
  : list string :=
  if decide (is_attribute_extension ext e) then
    match json_Unmarshal ext (Value e) with
    | Ok attrs => attribute_strings (Attrs attrs)
    | Err _ => []
    end
  else [].

(** What the log shows. *)
Definition is_GetKey {K} (e : event K) : bool :=
  match e with ev_GetKey _ => true | _ => false end.

Definition is_KeyImport {K} (e : event K) : bool :=
  match e with ev_KeyImport _ _ => true | _ => false end.

Definition is_Hash {K} (e : event K) : bool :=
  match e with ev_Hash _ => true | _ => false end.

Definition is_fallback_notice {K} (e : event K) : bool :=
  match e with
  | ev_Debugf msg => bool_decide (msg = fallback_notice)
  | _ => false
  end.

(** The key store is queried when a key is fetched or imported. *)
Definition queries_key_store {K} (t : list (event K)) : bool :=
  existsb (fun e => is_GetKey e || is_KeyImport e) t.

(** The number of times the key-file fallback was entered. *)
Definition fallback_attempts {K} (t : list (event K)) : nat :=
  length (filter (fun e => is_fallback_notice e = true) t).

(** The import of a key file's ECDSA key into the key store, and the number
    of such imports in a run. *)
Definition is_key_file_import {K} (e : event K) : bool :=
  match e with
  | ev_KeyImport (raw_bytes _) (ECDSAPrivateKeyImportOpts _) => true
  | _ => false
  end.

Definition key_file_imports {K} (t : list (event K)) : nat :=
  length (filter (fun e => is_key_file_import e = true) t).

(** The calls of a run of signer resolution that takes the fallback: those
    of the primary step, the notice, the read of the key file, the imports
    asked of the key store, and the calls that follow. *)
Definition fallback_run {K} (primary : list (event K)) (keyFile : string)
    (imports tail : list (event K)) : list (event K) :=
  primary ++ ev_Debugf fallback_notice :: ev_ReadFile keyFile :: imports ++ tail.

(** The primary step of signer resolution returned, and without a key. *)
Definition returns_no_key {K A B C} (o : outcome (option K * A * B * C)) : bool :=
  match o with
  | Returns (None, _, _, _) => true
  | _ => false
  end.

(** The error of signer resolution that names the key file. *)
Definition key_file_error (err : error) (keyFile : string) : error :=
  errors_WithMessage err
    ("Could not find the private key in BCCSP keystore nor in keyfile '"
     +:+ keyFile +:+ "'").

(** All blocks of a PEM bundle, in order. *)
Fixpoint pem_blocks_loop {K CryptoSigner Signer Policy}
    (ext : Externals K CryptoSigner Signer Policy)
    (budget : nat) (data : bytes) : list pem_Block :=
  match budget with
  | O => []
  | S budget' =>
      match pem_Decode ext data with
      | None => []
      | Some (block, rest) => block :: pem_blocks_loop ext budget' rest
      end
  end.

Definition pem_blocks {K CryptoSigner Signer Policy}
    (ext : Externals K CryptoSigner Signer Policy) (data : bytes)
  : list pem_Block :=
  pem_blocks_loop ext (S (length data)) data.

Definition is_certificate_block (b : pem_Block) : Prop :=
  Type_ b = "CERTIFICATE".

Global Instance is_certificate_block_dec (b : pem_Block) :
  Decision (is_certificate_block b).
Proof. unfold is_certificate_block. apply _. Defined.

(** The two errors of [LoadX509KeyPair] for a bundle without certificate. *)
Definition inputs_switched_error (certFile : string) : error :=
  errors_New
    ("Failed to find certificate PEM data in file " +:+ certFile
     +:+ ", but did find a private key; PEM inputs may have been switched").

Definition unexpected_blocks_error (certFile : string) (types : list string)
  : error :=
  errors_New
    ("Failed to find " +:+ quote +:+ "CERTIFICATE" +:+ quote
     +:+ " PEM block in file " +:+ certFile
     +:+ " after skipping PEM blocks of the following types: "
     +:+ fmt_strings types).

(** The same collaborators with another [json.Unmarshal]. *)
Definition with_json_Unmarshal {K CryptoSigner Signer Policy}
    (ext : Externals K CryptoSigner Signer Policy)
    (unmarshal : bytes -> result attrmgr_Attributes)
  : Externals K CryptoSigner Signer Policy :=
  {| ioutil_ReadFile := ioutil_ReadFile ext;
     helpers_ParseCertificatePEM := helpers_ParseCertificatePEM ext;
     x509_ParseCertificate := x509_ParseCertificate ext;
     json_Unmarshal := unmarshal;
     abeutils_Hash := abeutils_Hash ext;
     utils_PEMtoPrivateKey := utils_PEMtoPrivateKey ext;
     utils_PrivateKeyToDER := utils_PrivateKeyToDER ext;
     pem_Decode := pem_Decode ext;
     pem_Decode_rest := pem_Decode_rest ext;
     cspsigner_New := cspsigner_New ext;
     local_NewSigner := local_NewSigner ext;
     tls_LoadX509KeyPair := tls_LoadX509KeyPair ext;
     AttrOIDString := AttrOIDString ext |}.

(** Two decodings of one attribute payload that differ at most in the order
    in which the map is traversed. *)
Definition same_attributes (r1 r2 : result attrmgr_Attributes) : Prop :=
  match r1, r2 with
  | Ok a1, Ok a2 =>
      NoDup (fst <$> Attrs a1) /\ Attrs a1 ≡ₚ Attrs a2
  | Err e1, Err e2 => e1 = e2
  | _, _ => False
  end.

(** ** A small world to run the functions in

    A file system of a few named files, a key store holding one private
    key, and stand-ins for the parsers and the digest.  The stand-ins are
    tables: they fix what the collaborators answer, not how. *)

Module World.
Definition bytes_of_string (s : string) : bytes :=
  map (fun c => Z.of_nat (nat_of_ascii c)) (list_ascii_of_string s).

(** Messages are their wire bytes; marshalling rejects a nil message and
    a field outside the byte range. *)
Definition marshal (m : option bytes) : result bytes :=
  match m with
  | None => Err (errors_New "proto: Marshal called with nil")
  | Some b =>
      if forallb (fun x => Z.leb 0 x && Z.ltb x 256) b then Ok b
      else Err (errors_New "proto: field out of range")
  end.

Definition message : proto_Message bytes := {| proto_Marshal := marshal |}.

(** A stand-in digest: the length and the byte sum of the input. *)
Definition digest : crypto_sha256 :=
  {| Sum256 := fun b => [Z.of_nat (length b) mod 256; fold_right Z.add 0 b mod 256] |}.

(** Keys of the store: an identifier and the private flag. *)
Record key : Type :=
  { key_ski : bytes;
    key_private : bool }.

Definition key_interface : bccsp_Key key :=
  {| Bytes := fun k => Ok (key_ski k);
     SKI := fun k => Returns (key_ski k);
     Symmetric := fun _ => false;
     Private := key_private |}.

Definition params_extension : pkix_Extension :=
  {| Id := ParamsOID; Value := [7; 7] |}.

Definition AttrOID : list Z := [1; 2; 3; 4; 5; 6; 7; 8; 1].

Definition attributes_payload : bytes := bytes_of_string "role=admin,dept=eng".
Definition malformed_payload : bytes := bytes_of_string "role=".

Definition attribute_extension : pkix_Extension :=
  {| Id := AttrOID; Value := attributes_payload |}.

Definition malformed_attribute_extension : pkix_Extension :=
  {| Id := AttrOID; Value := malformed_payload |}.

(** Certificates, told apart by their encoding. *)
Definition certificate (raw : Z) (exts : list pkix_Extension)
  : x509_Certificate :=
  {| Raw := [raw]; Extensions := exts |}.

Definition parse_certificate (b : bytes) : result x509_Certificate :=
  match b with
  | [1] => Ok (certificate 1 [])
  | [2] => Ok (certificate 2 [])
  | [3] => Ok (certificate 3 [attribute_extension; params_extension])
  | [4] => Ok (certificate 4 [malformed_attribute_extension])
  | [5] => Ok (certificate 5 [attribute_extension])
  | _ => Err (errors_New "failed to parse certificate")
  end.

Definition read_file (name : string) : result bytes :=
  if decide (name = "ca.pem") then Ok [1]
  else if decide (name = "public.pem") then Ok [2]
  else if decide (name = "abe.pem") then Ok [3]
  else if decide (name = "malformed.pem") then Ok [4]
  else if decide (name = "attributes.pem") then Ok [5]
  else if decide (name = "ec.key") then Ok [20]
  else if decide (name = "rsa.key") then Ok [21]
  else if decide (name = "swapped.pem") then Ok [20]
  else if decide (name = "crl.pem") then Ok [30; 31]
  else Err (errors_New ("open " +:+ name +:+ ": no such file or directory")).

Definition unmarshal (order : bool) (b : bytes) : result attrmgr_Attributes :=
  if decide (b = attributes_payload) then
    Ok {| Attrs := if order
                   then [("role", "admin"); ("dept", "eng")]
                   else [("dept", "eng"); ("role", "admin")] |}
  else Err (errors_New "unexpected end of JSON input").

Definition hash (s : string) : Z :=
  fold_right (fun x acc => x + 31 * acc) 7 (bytes_of_string s).

Definition pem_to_private_key (b : bytes) : result crypto_PrivateKey :=
  match b with
  | [20] => Ok (key_ecdsa {| ecdsa_Curve := "P-256"; ecdsa_X := 2;
                             ecdsa_Y := 3; ecdsa_D := 5 |})
  | [21] => Ok (key_rsa {| rsa_N := 3233; rsa_E := 17; rsa_D := 2753;
                           rsa_Primes := [61; 53] |})
  | _ => Err (errors_New "invalid PEM encoding")
  end.

Definition private_key_to_der (k : ecdsa_PrivateKey) : result bytes :=
  Ok [48; ecdsa_D k].

(** One block per byte: 1 is a certificate, 20 and 21 private keys, 30
    and 31 revocation lists; any other byte ends the PEM data. *)
Definition decode (data : bytes) : option (pem_Block * bytes) :=
  match data with
  | [] => None
  | b :: rest =>
      if decide (b = 1) then
        Some ({| Type_ := "CERTIFICATE"; Bytes_ := [b] |}, rest)
      else if decide (b = 20) then
        Some ({| Type_ := "EC PRIVATE KEY"; Bytes_ := [b] |}, rest)
      else if decide (b = 21) then
        Some ({| Type_ := "RSA PRIVATE KEY"; Bytes_ := [b] |}, rest)
      else if decide (b = 30) then
        Some ({| Type_ := "X509 CRL"; Bytes_ := [b] |}, rest)
      else if decide (b = 31) then
        Some ({| Type_ := "X509 CRL"; Bytes_ := [b] |}, rest)
      else None
  end.

Lemma decode_rest data block rest :
  decode data = Some (block, rest) -> (length rest < length data)%nat.
Proof.
  destruct data as [|b data]; simpl; [discriminate|].
  repeat case_decide; intros [= <- <-]; simpl; lia.
Qed.

Definition externals (order : bool) : Externals key key unit unit :=
  {| ioutil_ReadFile := read_file;
     helpers_ParseCertificatePEM := parse_certificate;
     x509_ParseCertificate := parse_certificate;
     json_Unmarshal := unmarshal order;
     abeutils_Hash := hash;
     utils_PEMtoPrivateKey := pem_to_private_key;
     utils_PrivateKeyToDER := private_key_to_der;
     pem_Decode := decode;
     pem_Decode_rest := decode_rest;
     cspsigner_New := fun _ k => Ok k;
     local_NewSigner := fun _ _ _ => Ok tt;
     tls_LoadX509KeyPair :=
       fun _ _ => Err (errors_New "tls: failed to find any PEM data in key input");
     AttrOIDString := "1.2.3.4.5.6.7.8.1" |}.

(** The store: importing a certificate yields its public key, named by
    the certificate's encoding; only certificate 1 has a private key. *)
Definition store : bccsp_BCCSP key :=
  {| KeyGen := fun _ => Ok {| key_ski := [0]; key_private := true |};
     KeyImport := fun raw _ =>
       match raw with
       | raw_Certificate cert =>
           Ok {| key_ski := Raw cert; key_private := false |}
       | raw_bytes b => Ok {| key_ski := b; key_private := true |}
       end;
     GetKey := fun ski =>
       match ski with
       | [1] => Ok {| key_ski := [1]; key_private := true |}
       | [2] => Ok {| key_ski := [2]; key_private := false |}
       | _ => Err (errors_New "Key with SKI not found")
       end |}.
End World.

(** ** The rest of [csp.go]: key generation *)

(** [bccsp.Key.PublicKey], the method of the interface that
    [CPABEMasterKeyGenerate] calls. *)
Class bccsp_PublicKey (K : Type) : Type :=
  { PublicKey : K -> outcome (result K) }.

(** The [Param] field of the generated messages [cpabe.Key] and
    [cpabe.MasterKey]. *)
Class cpabe_Param (M P : Type) : Type :=
  { Param : M -> option P }.

(** An interface value of type [bccsp.Key] that holds one of the three
    wrappers of package [sw]; a method call goes to the method of the
    wrapper held. *)
Inductive sw_Key (cpabe_Key cpabe_MasterKey cpabe_Params : Type) : Type :=
| sw_private (k : sw.cpabePrivateKey cpabe_Key)
| sw_master (k : sw.cpabeMasterKey cpabe_MasterKey)
| sw_params (p : sw.cpabeParams cpabe_Params).
Arguments sw_private {cpabe_Key cpabe_MasterKey cpabe_Params} k.
Arguments sw_master {cpabe_Key cpabe_MasterKey cpabe_Params} k.
Arguments sw_params {cpabe_Key cpabe_MasterKey cpabe_Params} p.

Global Instance sw_Key_Key {cpabe_Key cpabe_MasterKey cpabe_Params : Type}
    `{!proto_Message cpabe_Key, !proto_Message cpabe_MasterKey,
      !proto_Message cpabe_Params, !crypto_sha256}
  : bccsp_Key (sw_Key cpabe_Key cpabe_MasterKey cpabe_Params) :=
  {| Bytes := fun k =>
       match k with
       | sw_private k => sw.cpabePrivateKey_Bytes k
       | sw_master k => sw.cpabeMasterKey_Bytes k
       | sw_params p => sw.cpabeParams_Bytes p
       end;
     SKI := fun k =>
       match k with
       | sw_private k => sw.cpabePrivateKey_SKI k
       | sw_master k => sw.cpabeMasterKey_SKI k
       | sw_params p => sw.cpabeParams_SKI p
       end;
     Symmetric := fun k =>
       match k with
       | sw_private k => sw.cpabePrivateKey_Symmetric k
       | sw_master k => sw.cpabeMasterKey_Symmetric k
       | sw_params p => sw.cpabeParams_Symmetric p
       end;
     Private := fun k =>
       match k with
       | sw_private k => sw.cpabePrivateKey_Private k
       | sw_master k => sw.cpabeMasterKey_Private k
       | sw_params p => sw.cpabeParams_Private p
       end |}.

(** What a [PublicKey] method of package [sw] returns, as a pair of a
    [bccsp.Key] and an [error]. *)
Definition as_Key {cpabe_Key cpabe_MasterKey cpabe_Params : Type}
    (o : outcome (result (sw.cpabeParams cpabe_Params)))
  : outcome (result (sw_Key cpabe_Key cpabe_MasterKey cpabe_Params)) :=
  match o with
  | Returns (Ok p) => Returns (Ok (sw_params p))
  | Returns (Err err) => Returns (Err err)
  | Panics v => Panics v
  end.

Global Instance sw_Key_PublicKey {cpabe_Key cpabe_MasterKey cpabe_Params : Type}
    `{!cpabe_Param cpabe_Key cpabe_Params,
      !cpabe_Param cpabe_MasterKey cpabe_Params}
  : bccsp_PublicKey (sw_Key cpabe_Key cpabe_MasterKey cpabe_Params) :=
  {| PublicKey := fun k =>
       match k with
       | sw_private k => as_Key (sw.cpabePrivateKey_PublicKey Param k)
       | sw_master k => as_Key (sw.cpabeMasterKey_PublicKey Param k)
       | sw_params p => as_Key (sw.cpabeParams_PublicKey p)
       end |}.

(** [csr.CertificateRequest], as far as it is read here. *)
Module CertificateRequest.
Record t : Type :=
  { KeyRequest : option csr_KeyRequest }.
End CertificateRequest.
Abbreviation csr_CertificateRequest := CertificateRequest.t.

(** The [Temporary] field of a key-generation option struct. *)
Definition KeyGenOpts_Temporary (opts : bccsp_KeyGenOpts) : bool :=
  match opts with
  | ECDSAKeyGenOpts t | ECDSAP256KeyGenOpts t | ECDSAP384KeyGenOpts t
  | RSA2048KeyGenOpts t | RSA3072KeyGenOpts t | RSA4096KeyGenOpts t
  | CPABEKeyGenOpts t => t
  end.

(** The call log of the generating functions: the calls of the functions
    above, key generation, and the [log.Infof] line. *)
Inductive event_gen (K : Type) : Type :=
| ev_csp (e : event K)
| ev_KeyGen (opts : bccsp_KeyGenOpts)
| ev_Infof (msg : string).
Arguments ev_csp {K} e.
Arguments ev_KeyGen {K} opts.
Arguments ev_Infof {K} msg.

Definition G (K A : Type) : Type := (outcome A * list (event_gen K))%type.

Definition G_ret {K A} (a : A) : G K A := (Returns a, []).

Definition G_bind {K A B} (m : G K A) (f : A -> G K B) : G K B :=
  match m with
  | (Returns a, t) => let '(r, t') := f a in (r, t ++ t')
  | (Panics v, t) => (Panics v, t)
  end.

Definition G_call {K A} (e : event_gen K) (a : A) : G K A := (Returns a, [e]).

Definition G_lift {K A} (o : outcome A) : G K A := (o, []).

Definition G_trace {K A} (m : G K A) : list (event_gen K) := snd m.
Definition G_value {K A} (m : G K A) : outcome A := fst m.

(** A function of the first part, called from a generating function. *)
Definition G_of_M {K A} (m : M K A) : G K A := (fst m, ev_csp <$> snd m).

Notation "'let*' x ':=' m 'in' k" := (G_bind m (fun x => k))
  (at level 10, x pattern, m at level 100, k at level 200, only parsing).

Section key_generation.
Context {K CryptoSigner Signer Policy : Type}.
Context `{!bccsp_Key K, !bccsp_PublicKey K}.
Variable ext : Externals K CryptoSigner Signer Policy.

(** What the verb [%+v] prints for the [*csr.KeyRequest] of a request. *)
Variable fmt_KeyRequest : option csr_KeyRequest -> string.

Definition csp_KeyGen (csp : option (bccsp_BCCSP K)) (opts : bccsp_KeyGenOpts)
  : G K (result K) :=
  match csp with
  | None => G_lift (Panics nil_dereference)
  | Some c => G_call (ev_KeyGen opts) (KeyGen c opts)
  end.

(** [BCCSPKeyRequestGenerate] *)
Definition BCCSPKeyRequestGenerate (req : option csr_CertificateRequest)
    (myCSP : option (bccsp_BCCSP K))
  : G K (option K * option CryptoSigner * option error) :=
  match req with
  | None => G_lift (Panics nil_dereference)
  | Some req =>
      let* _ := G_call (ev_Infof ("generating key: "
                                  +:+ fmt_KeyRequest (CertificateRequest.KeyRequest req)))
                  tt in
      let* r := G_of_M (getBCCSPKeyOpts (CertificateRequest.KeyRequest req) false) in
      match r with
      | Err err => G_ret (None, None, Some err)
      | Ok keyOpts =>
          let* r := csp_KeyGen myCSP keyOpts in
          match r with
          | Err err => G_ret (None, None, Some err)
          | Ok key =>
              let* r := G_call (ev_csp (ev_cspsigner_New key))
                          (cspsigner_New ext myCSP key) in
              match r with
              | Err err =>
                  G_ret (None, None,
                         Some (errors_WithMessage err
                                 "Failed initializing CryptoSigner"))
              | Ok cspSigner => G_ret (Some key, Some cspSigner, None)
              end
          end
      end
  end.

(** [CPABEMasterKeyGenerate] *)
Definition CPABEMasterKeyGenerate (myCSP : option (bccsp_BCCSP K))
  : G K (option K * string * option error) :=
  let* r := csp_KeyGen myCSP (CPABEKeyGenOpts false) in
  match r with
  | Err err =>
      G_ret (None, EmptyString,
             Some (errors_New
                     ("bccsp generate cpabe master key error, " +:+ Error err)))
  | Ok k =>
      let* r := G_lift (PublicKey k) in
      match r with
      | Err err =>
          G_ret (None, EmptyString,
                 Some (errors_New
                         ("get the cpabe params from master key error, "
                          +:+ Error err)))
      | Ok params =>
          match Bytes params with
          | Err err =>
              G_ret (None, EmptyString,
                     Some (errors_New
                             ("marshal cpabe params error, " +:+ Error err)))
          | Ok paramsBytes =>
              G_ret (Some k, hex_EncodeToString paramsBytes, None)
          end
      end
  end.
End key_generation.

(** ** More notions about a run of the code *)

Definition is_KeyGen {K} (e : event_gen K) : bool :=
  match e with ev_KeyGen _ => true | _ => false end.

Definition is_local_NewSigner {K} (e : event K) : bool :=
  match e with ev_local_NewSigner => true | _ => false end.

(** A byte as [[]byte] holds it. *)
Definition is_byte (b : Z) : Prop := 0 <= b < 256.

(** ** More of the small world

    More files and certificates, stores of CP-ABE wrappers, and a public
    counterpart for the keys of the first store. *)

Module Annex.
Definition older_params_extension : pkix_Extension :=
  {| Id := ParamsOID; Value := [9] |}.

Definition single_payload : bytes := World.bytes_of_string "dept=eng".

Definition single_attribute_extension : pkix_Extension :=
  {| Id := World.AttrOID; Value := single_payload |}.

(** Params bytes that end like the AttributeID of [dept.eng]. *)
Definition longer_params_extension : pkix_Extension :=
  {| Id := ParamsOID;
     Value := [7; 7] ++ big_endian_4 (World.hash "dept.eng") |}.

Definition parse_certificate (b : bytes) : result x509_Certificate :=
  match b with
  | [6] => Ok (World.certificate 6
                 [older_params_extension; World.attribute_extension;
                  World.params_extension])
  | [7] => Ok (World.certificate 7 [World.params_extension])
  | [8] => Ok (World.certificate 8 [longer_params_extension])
  | [9] => Ok (World.certificate 9
                 [World.params_extension; single_attribute_extension])
  | _ => World.parse_certificate b
  end.

Definition read_file (name : string) : result bytes :=
  if decide (name = "renewed.pem") then Ok [6]
  else if decide (name = "params.pem") then Ok [7]
  else if decide (name = "longer.pem") then Ok [8]
  else if decide (name = "single.pem") then Ok [9]
  else if decide (name = "chain.pem") then Ok [1; 30; 1]
  else if decide (name = "empty.pem") then Ok []
  else World.read_file name.

Definition unmarshal (b : bytes) : result attrmgr_Attributes :=
  if decide (b = single_payload) then Ok {| Attrs := [("dept", "eng")] |}
  else World.unmarshal true b.

(** The collaborators for any type of keys and of signers. *)
Definition externals_for {K CryptoSigner : Type}
    (new_signer : option (bccsp_BCCSP K) -> K -> result CryptoSigner)
  : Externals K CryptoSigner unit unit :=
  {| ioutil_ReadFile := read_file;
     helpers_ParseCertificatePEM := parse_certificate;
     x509_ParseCertificate := parse_certificate;
     json_Unmarshal := unmarshal;
     abeutils_Hash := World.hash;
     utils_PEMtoPrivateKey := World.pem_to_private_key;
     utils_PrivateKeyToDER := World.private_key_to_der;
     pem_Decode := World.decode;
     pem_Decode_rest := World.decode_rest;
     cspsigner_New := new_signer;
     local_NewSigner := fun _ _ _ => Ok tt;
     tls_LoadX509KeyPair :=
       fun _ _ => Err (errors_New "tls: failed to find any PEM data in key input");
     AttrOIDString := "1.2.3.4.5.6.7.8.1" |}.

Definition externals : Externals World.key World.key unit unit :=
  externals_for (fun _ k => Ok k).

(** The public counterpart of a key of the first store. *)
Definition public_key : bccsp_PublicKey World.key :=
  {| PublicKey := fun k =>
       Returns (Ok {| World.key_ski := World.key_ski k;
                      World.key_private := false |}) |}.

(** What [%+v] prints for a key request. *)
Definition describe (kr : option csr_KeyRequest) : string :=
  match kr with
  | None => "<nil>"
  | Some kr =>
      "&{A:" +:+ KeyRequest.A kr +:+ " S:" +:+ strconv_Itoa (KeyRequest.S kr) +:+ "}"
  end.

(** Messages are their wire bytes; the [Param] field of a key message is
    its first two bytes. *)
Definition param_field : cpabe_Param bytes bytes :=
  {| Param := fun m => Some (take 2 m) |}.

Abbreviation wrapper := (sw_Key bytes bytes bytes).

(** A store of wrappers that generates one master key. *)
Definition wrapper_store : bccsp_BCCSP wrapper :=
  {| KeyGen := fun _ => Ok (sw_master {| sw.masterKey_key := Some [1; 2; 3] |});
     KeyImport := fun raw _ =>
       match raw with
       | raw_bytes b => Ok (sw_params {| sw.params := Some b |})
       | raw_Certificate _ => Err (errors_New "unsupported key import")
       end;
     GetKey := fun _ => Err (errors_New "Key with SKI not found") |}.

(** Stores of [cpabeParams] that import Params bytes as set Params, and
    as unset Params. *)
Definition params_store (set : bool) : bccsp_BCCSP (sw.cpabeParams bytes) :=
  {| KeyGen := fun _ => Err (errors_New "unsupported key generation");
     KeyImport := fun raw _ =>
       match raw with
       | raw_bytes b => Ok {| sw.params := if set then Some b else None |}
       | raw_Certificate _ => Err (errors_New "unsupported key import")
       end;
     GetKey := fun _ => Err (errors_New "Key with SKI not found") |}.

Definition params_externals : Externals (sw.cpabeParams bytes) unit unit unit :=
  externals_for (fun _ _ => Err (errors_New "not a signing key")).

(** Collaborators whose [local.NewSigner] checks the signing policy; the
    policy is given as whether it is valid. *)
Definition checked_externals : Externals World.key World.key unit bool :=
  {| ioutil_ReadFile := World.read_file;
     helpers_ParseCertificatePEM := World.parse_certificate;
     x509_ParseCertificate := World.parse_certificate;
     json_Unmarshal := World.unmarshal true;
     abeutils_Hash := World.hash;
     utils_PEMtoPrivateKey := World.pem_to_private_key;
     utils_PrivateKeyToDER := World.private_key_to_der;
     pem_Decode := World.decode;
     pem_Decode_rest := World.decode_rest;
     cspsigner_New := fun _ k => Ok k;
     local_NewSigner := fun _ _ (valid : bool) =>
       if valid then Ok tt else Err (errors_New "invalid policy");
     tls_LoadX509KeyPair :=
       fun _ _ => Err (errors_New "tls: failed to find any PEM data in key input");
     AttrOIDString := "1.2.3.4.5.6.7.8.1" |}.
End Annex.

(** * Properties of the key wrappers *)

Section sw_properties.
Context {cpabe_Key cpabe_MasterKey cpabe_Params : Type}.
Context `{!proto_Message cpabe_Key, !proto_Message cpabe_MasterKey,
          !proto_Message cpabe_Params, !crypto_sha256}.

(** The digest of what was written in one piece. *)
Lemma hash_Sum_Write (raw : bytes) :
  hash_Sum (hash_Write sha256_New raw) [] = Sum256 raw.
Proof. reflexivity. Qed.

(** A wrapper around an unset value has the empty identifier, whatever the
    variant. *)
Lemma SKI_unset :
  sw.cpabePrivateKey_SKI {| sw.privateKey_key := @None cpabe_Key |} = Returns []
  /\ sw.cpabeMasterKey_SKI {| sw.masterKey_key := @None cpabe_MasterKey |} = Returns []
  /\ sw.cpabeParams_SKI {| sw.params := @None cpabe_Params |} = Returns [].
Proof. repeat split. Qed.

(** The identifier of a set [cpabeParams] is never returned: the call
    panics with the marshalling error, or with nil when there is none. *)
Lemma cpabeParams_SKI_set (p : cpabe_Params) :
  sw.cpabeParams_SKI {| sw.params := Some p |}
  = Panics (match proto_Marshal (Some p) with
            | Ok _ => None
            | Err err => Some err
            end).
Proof.
  unfold sw.cpabeParams_SKI; simpl.
  destruct (proto_Marshal (Some p)); reflexivity.
Qed.

(** C1, as amended: for a private key and for a master key that wrap a set
    value, [SKI] returns the SHA-256 digest of the marshalled bytes when
    marshalling succeeds, and panics with the marshalling error when it
    fails; [SKI] has no error result to hand the failure to. *)
Theorem SKI_set_digest_or_panic (key : cpabe_Key) (masterKey : cpabe_MasterKey) :
  sw.cpabePrivateKey_SKI {| sw.privateKey_key := Some key |}
  = match proto_Marshal (Some key) with
    | Ok raw => Returns (Sum256 raw)
    | Err err => Panics (Some err)
    end
  /\ sw.cpabeMasterKey_SKI {| sw.masterKey_key := Some masterKey |}
     = match proto_Marshal (Some masterKey) with
       | Ok raw => Returns (Sum256 raw)
       | Err err => Panics (Some err)
       end.
Proof.
  unfold sw.cpabePrivateKey_SKI, sw.cpabeMasterKey_SKI; simpl.
  split.
  - destruct (proto_Marshal (Some key)); [apply f_equal, hash_Sum_Write | reflexivity].
  - destruct (proto_Marshal (Some masterKey)); [apply f_equal, hash_Sum_Write | reflexivity].
Qed.
End sw_properties.

Section sw_in_the_world.
Local Existing Instance World.message.
Local Existing Instance World.digest.

(** C1 fails as stated: a set [cpabeParams] whose content marshals without
    error makes [SKI] panic, and a master key whose content does not
    marshal makes [SKI] panic instead of reporting an error. *)
Lemma SKI_panics_on_set_values :
  proto_Marshal (Some [1; 2; 3]) = Ok [1; 2; 3]
  /\ sw.cpabeParams_SKI {| sw.params := Some [1; 2; 3] |} = Panics None
  /\ sw.cpabeMasterKey_SKI {| sw.masterKey_key := Some [256] |}
     = Panics (Some (errors_New "proto: field out of range")).
Proof. repeat split. Qed.
End sw_in_the_world.

(** * Properties of [csp.go] *)

(** ** The order of strings and the sorted keys *)

Lemma string_compare_refl (s : string) : String.compare s s = Eq.
Proof.
  induction s as [|a s IH]; simpl; [reflexivity|].
  unfold Ascii.compare. rewrite N.compare_refl. exact IH.
Qed.

Lemma string_compare_le_trans (s t u : string) :
  String.compare s t <> Gt -> String.compare t u <> Gt ->
  String.compare s u <> Gt.
Proof.
  revert t u. induction s as [|a s IH]; intros [|b t] [|c u]; simpl;
    try congruence.
  unfold Ascii.compare.
  destruct (N.compare_spec (N_of_ascii a) (N_of_ascii b)) as [Hab|Hab|Hab];
    destruct (N.compare_spec (N_of_ascii b) (N_of_ascii c)) as [Hbc|Hbc|Hbc];
    try congruence.
  - rewrite Hab, Hbc, N.compare_refl. apply IH.
  - intros _ _. rewrite Hab. apply N.compare_lt_iff in Hbc. rewrite Hbc. congruence.
  - intros _ _. rewrite <- Hbc. apply N.compare_lt_iff in Hab. rewrite Hab. congruence.
  - intros _ _.
    assert (Hac : (N_of_ascii a < N_of_ascii c)%N) by lia.
    apply N.compare_lt_iff in Hac. rewrite Hac. congruence.
Qed.

Lemma string_le_compare (s t : string) :
  string_le s t <-> String.compare s t <> Gt.
Proof.
  unfold string_le, String.leb.
  destruct (String.compare s t); split; congruence.
Qed.

Global Instance string_le_refl : Reflexive string_le.
Proof. intros s. apply string_le_compare. rewrite string_compare_refl. congruence. Qed.

Global Instance string_le_trans : Transitive string_le.
Proof.
  intros s t u Hst Htu. apply string_le_compare.
  apply string_compare_le_trans with t; apply string_le_compare; assumption.
Qed.

Global Instance string_le_antisymm : AntiSymm eq string_le.
Proof. intros s t Hst Hts. apply String.leb_antisym; assumption. Qed.

Global Instance string_le_total : Total string_le.
Proof. intros s t. apply String.leb_total. Qed.

Global Instance name_le_trans : Transitive name_le.
Proof. intros p q r. unfold name_le. apply string_le_trans. Qed.

Global Instance name_le_total : Total name_le.
Proof. intros p q. unfold name_le. apply string_le_total. Qed.

(** [sort_Strings] returns the sorted arrangement of its input, and a list
    has no other. *)
Lemma sort_Strings_Sorted (keys : list string) :
  Sorted string_le (sort_Strings keys).
Proof. apply Sorted_merge_sort, _. Qed.

Lemma sort_Strings_Permutation (keys : list string) :
  sort_Strings keys ≡ₚ keys.
Proof. apply merge_sort_Permutation. Qed.

Lemma sort_Strings_unique (keys sorted : list string) :
  Sorted string_le sorted -> sorted ≡ₚ keys -> sorted = sort_Strings keys.
Proof.
  intros Hs Hp. apply (Sorted_unique string_le); [assumption|apply sort_Strings_Sorted|].
  rewrite Hp. symmetry. apply sort_Strings_Permutation.
Qed.

Lemma sort_Strings_proper (keys1 keys2 : list string) :
  keys1 ≡ₚ keys2 -> sort_Strings keys1 = sort_Strings keys2.
Proof.
  intros Hp. apply sort_Strings_unique; [apply sort_Strings_Sorted|].
  rewrite sort_Strings_Permutation. exact Hp.
Qed.

(** ** The map index expression *)

Lemma map_index_elem_of (m : list (string * string)) (k v : string) :
  NoDup (fst <$> m) -> (k, v) ∈ m -> map_index m k = v.
Proof.
  induction m as [|[k' v'] m IH]; simpl; intros Hnd Hin.
  - inversion Hin.
  - apply NoDup_cons in Hnd as [Hk' Hnd].
    apply elem_of_cons in Hin as [[= -> ->]|Hin].
    + rewrite decide_True; reflexivity.
    + rewrite decide_False; [apply IH; assumption|].
      intros ->. apply Hk'. apply (list_elem_of_fmap_2 fst) in Hin. exact Hin.
Qed.

Lemma map_index_proper (m1 m2 : list (string * string)) (k : string) :
  NoDup (fst <$> m1) -> m1 ≡ₚ m2 -> k ∈ fst <$> m1 ->
  map_index m1 k = map_index m2 k.
Proof.
  intros Hnd Hp Hk.
  apply list_elem_of_fmap in Hk as [[k' v] [-> Hin]]; simpl.
  rewrite (map_index_elem_of m1 k' v) by assumption.
  symmetry. apply map_index_elem_of.
  - rewrite <- Hp. exact Hnd.
  - rewrite <- Hp. exact Hin.
Qed.

(** ** Integer conversions and the big-endian store *)

Lemma uint32_int32 (x : Z) : uint32 (int32 x) = x mod 2 ^ 32.
Proof.
  unfold uint32, int32.
  rewrite Zminus_mod_idemp_l.
  replace (x + 2 ^ 31 - 2 ^ 31) with x by lia. reflexivity.
Qed.

Lemma int32_range (x : Z) : - 2 ^ 31 <= int32 x < 2 ^ 31.
Proof.
  unfold int32. pose proof (Z.mod_pos_bound (x + 2 ^ 31) (2 ^ 32)). lia.
Qed.

Lemma byte_mod (x : Z) : byte x = x mod 2 ^ 8.
Proof. unfold byte. change 255 with (Z.ones 8). apply Z.land_ones. lia. Qed.

Lemma byte_shiftr (x n : Z) :
  0 <= n -> byte (Z.shiftr x n) = (x mod 2 ^ (n + 8)) / 2 ^ n.
Proof.
  intros Hn. rewrite byte_mod, Z.shiftr_div_pow2 by assumption.
  rewrite Z.pow_add_r by lia.
  rewrite Z.rem_mul_r by lia.
  rewrite (Z.mul_comm (2 ^ n)), Z.div_add by lia.
  rewrite Zmod_div. reflexivity.
Qed.

(** The four bytes stored by [PutUint32] for [uint32(attr)] are the
    big-endian bytes of [attr]. *)
Lemma stored_bytes_big_endian (attr : Z) :
  [ byte (Z.shiftr (uint32 attr) 24); byte (Z.shiftr (uint32 attr) 16);
    byte (Z.shiftr (uint32 attr) 8); byte (uint32 attr) ]
  = big_endian_4 attr.
Proof.
  unfold big_endian_4, uint32.
  rewrite !byte_shiftr by lia. rewrite byte_mod. simpl Z.add.
  assert (H32 : forall k, 0 <= k <= 32 -> (attr mod 2 ^ 32) mod 2 ^ k = attr mod 2 ^ k).
  { intros k Hk. symmetry.
    replace (2 ^ 32) with (2 ^ k * 2 ^ (32 - k))
      by (rewrite <- Z.pow_add_r by lia; f_equal; lia).
    rewrite Z.rem_mul_r by lia.
    rewrite Z.mul_comm, Z.mod_add by lia. symmetry. apply Z.mod_mod. lia. }
  rewrite !H32 by lia. reflexivity.
Qed.

Lemma big_endian_4_int32 (x : Z) :
  big_endian_4 (int32 x) = big_endian_4 x.
Proof.
  rewrite <- !stored_bytes_big_endian.
  rewrite uint32_int32. unfold uint32. reflexivity.
Qed.

Lemma big_endian_4_length (n : Z) : length (big_endian_4 n) = 4%nat.
Proof. reflexivity. Qed.

Lemma big_endian_4_bytes (n : Z) :
  Forall (fun b => 0 <= b < 256) (big_endian_4 n).
Proof.
  unfold big_endian_4.
  repeat apply Forall_cons_2; try apply Forall_nil_2.
  - pose proof (Z.mod_pos_bound n (2 ^ 32)).
    split; [apply Z.div_pos; lia | apply Z.div_lt_upper_bound; lia].
  - pose proof (Z.mod_pos_bound n (2 ^ 24)).
    split; [apply Z.div_pos; lia | apply Z.div_lt_upper_bound; lia].
  - pose proof (Z.mod_pos_bound n (2 ^ 16)).
    split; [apply Z.div_pos; lia | apply Z.div_lt_upper_bound; lia].
  - pose proof (Z.mod_pos_bound n (2 ^ 8)). lia.
Qed.

Lemma PutUint32_in_place (done rest : bytes) (x0 x1 x2 x3 v : Z) (off : nat) :
  length done = off ->
  binary_BigEndian_PutUint32 (done ++ x0 :: x1 :: x2 :: x3 :: rest) off v
  = Returns (done ++ [ byte (Z.shiftr v 24); byte (Z.shiftr v 16);
                       byte (Z.shiftr v 8); byte v ] ++ rest).
Proof.
  intros Hlen. unfold binary_BigEndian_PutUint32.
  rewrite decide_False by (rewrite length_app; simpl; lia).
  rewrite decide_True by (rewrite length_app; simpl; lia).
  f_equal.
  rewrite !insert_app_r_alt by (rewrite ?length_insert; lia).
  f_equal.
  replace (off - length done)%nat with 0%nat by lia.
  replace (off + 1 - length done)%nat with 1%nat by lia.
  replace (off + 2 - length done)%nat with 2%nat by lia.
  replace (off + 3 - length done)%nat with 3%nat by lia.
  reflexivity.
Qed.

(** The store loop fills the zeroed buffer with the big-endian bytes of the
    AttributeIDs, in order, and never steps outside it. *)
Lemma put_attributes_from (done : bytes) (i : nat) (attributeID : list Z) :
  length done = (4 * i)%nat ->
  put_attributes (done ++ replicate (4 * length attributeID) 0) i attributeID
  = Returns (done ++ concat (big_endian_4 <$> attributeID)).
Proof.
  revert done i. induction attributeID as [|attr ids IH]; intros done i Hlen.
  - reflexivity.
  - cbn [put_attributes length].
    replace (4 * Datatypes.S (length ids))%nat
      with (Datatypes.S (Datatypes.S (Datatypes.S (Datatypes.S (4 * length ids))))) by lia.
    cbn [replicate].
    rewrite PutUint32_in_place
      by (rewrite Nat.shiftl_mul_pow2; simpl; lia).
    rewrite stored_bytes_big_endian, (app_assoc done).
    rewrite IH by (rewrite length_app, big_endian_4_length; lia).
    rewrite <- app_assoc. reflexivity.
Qed.

Lemma put_attributes_all (attributeID : list Z) :
  put_attributes (replicate (Nat.shiftl (length attributeID) 2) 0) 0 attributeID
  = Returns (concat (big_endian_4 <$> attributeID)).
Proof.
  rewrite Nat.shiftl_mul_pow2.
  replace (length attributeID * 2 ^ 2)%nat with (4 * length attributeID)%nat
    by (simpl; lia).
  apply (put_attributes_from [] 0). reflexivity.
Qed.

(** ** The monad *)

Section monad_laws.
Context {K : Type}.

Lemma bind_Returns {A B} (a : A) (t : list (event K)) (f : A -> M K B) :
  (Returns a, t) ≫= f = (value (f a), t ++ trace (f a)).
Proof. unfold mbind, M_bind, value, trace. destruct (f a). reflexivity. Qed.

Lemma bind_Panics {A B} (v : option error) (t : list (event K)) (f : A -> M K B) :
  (Panics v, t) ≫= f = (Panics v, t).
Proof. reflexivity. Qed.

Lemma bind_mret {A B} (a : A) (f : A -> M K B) : mret a ≫= f = f a.
Proof. unfold mret, M_ret. rewrite bind_Returns. destruct (f a). reflexivity. Qed.

Lemma bind_call {A B} (e : event K) (a : A) (f : A -> M K B) :
  call e a ≫= f = (value (f a), e :: trace (f a)).
Proof. unfold call. rewrite bind_Returns. reflexivity. Qed.

Lemma M_eta {A} (m : M K A) : m = (value m, trace m).
Proof. destruct m. reflexivity. Qed.
End monad_laws.

(** ** The extension loops *)

Section extension_loops.
Context {K CryptoSigner Signer Policy : Type}.
Context `{!bccsp_Key K, !crypto_sha256}.
Variable ext : Externals K CryptoSigner Signer Policy.

Lemma hash_attributes_run (attrs : list (string * string))
    (keys : list string) (attributeID : list Z) :
  hash_attributes ext attrs keys attributeID
  = (Returns
       (attributeID
        ++ ((fun key => int32 (abeutils_Hash ext (key +:+ "." +:+ map_index attrs key)))
              <$> keys)),
     (fun key => ev_Hash (key +:+ "." +:+ map_index attrs key)) <$> keys).
Proof.
  revert attributeID.
  induction keys as [|key keys IH]; intros attributeID; cbn [hash_attributes].
  - cbn [fmap list_fmap]. rewrite app_nil_r. reflexivity.
  - rewrite bind_call, IH. unfold value, trace; simpl.
    rewrite <- app_assoc. reflexivity.
Qed.

(** Without a Params extension the Params bytes stay what they were. *)
Lemma scan_params_absent (exts : list pkix_Extension) (paramsBytes : option bytes) :
  Forall (fun e => ~ is_params_extension e) exts ->
  scan_params exts paramsBytes = paramsBytes.
Proof.
  revert paramsBytes. induction exts as [|e exts IH]; intros pb Hall; simpl.
  - reflexivity.
  - apply Forall_cons in Hall as [He Hall].
    rewrite decide_False by exact He. apply IH, Hall.
Qed.

(** With one Params extension the Params bytes are its value. *)
Lemma scan_params_single (exts : list pkix_Extension) (pe : pkix_Extension)
    (paramsBytes : option bytes) :
  filter is_params_extension exts = [pe] ->
  scan_params exts paramsBytes = Some (Value pe).
Proof.
  revert paramsBytes. induction exts as [|e exts IH]; intros pb Hf; simpl.
  - discriminate.
  - rewrite filter_cons in Hf.
    destruct (decide (is_params_extension e)) as [He|He];
      [rewrite decide_True by exact He | rewrite decide_False by exact He].
    + injection Hf as -> Hnil.
      apply scan_params_absent.
      apply Forall_forall. intros x Hx Hp.
      assert (Hin : x ∈ filter is_params_extension exts)
        by (apply list_elem_of_filter; split; assumption).
      rewrite Hnil in Hin. inversion Hin.
    + apply IH, Hf.
Qed.

(** The loop never panics; it logs hashing calls only; it either leaves
    through the unmarshal error or ends with the Params bytes that
    [scan_params] finds. *)
Lemma scan_extensions_shape (exts : list pkix_Extension)
    (paramsBytes : option bytes) (attributeID : list Z) :
  Forall (fun e => is_Hash e) (trace (scan_extensions ext exts paramsBytes attributeID))
  /\ ((exists err, value (scan_extensions ext exts paramsBytes attributeID)
                   = Returns (Err (errors_New ("unmarshal Attributes error, " +:+ Error err))))
      \/ (exists ids, value (scan_extensions ext exts paramsBytes attributeID)
                      = Returns (Ok (scan_params exts paramsBytes, ids)))).
Proof.
  revert paramsBytes attributeID.
  induction exts as [|e exts IH]; intros pb ids; cbn [scan_extensions scan_params].
  - split; [constructor | right; eexists; reflexivity].
  - set (pb' := if decide (ObjectIdentifier_String (Id e) = ParamsOIDString)
                then Some (Value e) else pb).
    destruct (decide (ObjectIdentifier_String (Id e) = AttrOIDString ext)).
    + destruct (json_Unmarshal ext (Value e)) as [attrs|err].
      * rewrite hash_attributes_run, bind_Returns. unfold value, trace; simpl.
        destruct (IH pb' (ids ++ ((fun key => int32 (abeutils_Hash ext (key +:+ "." +:+ map_index (Attrs attrs) key)))
              <$> sort_Strings (fst <$> Attrs attrs)))) as [Ht Hv].
        split; [|exact Hv].
        apply Forall_app; split; [|exact Ht].
        apply Forall_fmap, Forall_forall. intros; exact I.
      * split; [constructor | left; eexists; reflexivity].
    + apply IH.
Qed.

(** When every attribute payload decodes, the loop ends with the
    AttributeIDs of all attribute extensions, in order. *)
Lemma scan_extensions_decoded (exts : list pkix_Extension)
    (paramsBytes : option bytes) (attributeID : list Z) :
  Forall (fun e => ~ is_malformed ext e) exts ->
  scan_extensions ext exts paramsBytes attributeID
  = (Returns (Ok (scan_params exts paramsBytes,
                  attributeID
                  ++ ((fun s => int32 (abeutils_Hash ext s))
                        <$> concat (extension_strings ext <$> exts)))),
     ev_Hash <$> concat (extension_strings ext <$> exts)).
Proof.
  revert paramsBytes attributeID.
  induction exts as [|e exts IH]; intros pb ids Hall;
    cbn [scan_extensions scan_params fmap list_fmap concat].
  - cbn [fmap list_fmap]. rewrite app_nil_r. reflexivity.
  - apply Forall_cons in Hall as [He Hall].
    unfold extension_strings at 1 3, is_attribute_extension.
    destruct (decide (ObjectIdentifier_String (Id e) = AttrOIDString ext)) as [Ha|Ha].
    + destruct (json_Unmarshal ext (Value e)) as [attrs|err] eqn:Hj.
      * rewrite hash_attributes_run, bind_Returns, IH by exact Hall.
        unfold value, trace; simpl. unfold attribute_strings.
        rewrite !fmap_app, <- !list_fmap_compose, app_assoc. reflexivity.
      * exfalso. apply He. split; [exact Ha | eexists; exact Hj].
    + simpl. apply IH, Hall.
Qed.

(** A malformed attribute payload ends the loop with the unmarshal error of
    such a payload, whatever the other extensions are. *)
Lemma scan_extensions_malformed (exts : list pkix_Extension)
    (paramsBytes : option bytes) (attributeID : list Z) :
  Exists (is_malformed ext) exts ->
  exists e err,
    e ∈ exts /\ is_attribute_extension ext e
    /\ json_Unmarshal ext (Value e) = Err err
    /\ value (scan_extensions ext exts paramsBytes attributeID)
       = Returns (Err (errors_New ("unmarshal Attributes error, " +:+ Error err))).
Proof.
  revert paramsBytes attributeID.
  induction exts as [|e exts IH]; intros pb ids Hex; cbn [scan_extensions].
  - inversion Hex.
  - destruct (decide (ObjectIdentifier_String (Id e) = AttrOIDString ext)) as [Ha|Ha].
    + destruct (json_Unmarshal ext (Value e)) as [attrs|err] eqn:Hj.
      * rewrite hash_attributes_run, bind_Returns. unfold value at 1; simpl.
        apply Exists_cons in Hex as [[_ [err Herr]]|Hex]; [congruence|].
        destruct (IH (if decide (ObjectIdentifier_String (Id e) = ParamsOIDString)
                      then Some (Value e) else pb)
                    (ids ++ ((fun key => int32 (abeutils_Hash ext
                                (key +:+ "." +:+ map_index (Attrs attrs) key)))
                               <$> sort_Strings (fst <$> Attrs attrs))) Hex)
          as (e' & err & Hin & Ha' & Hj' & Hv).
        exists e', err. repeat split; try assumption. apply elem_of_cons; right; exact Hin.
      * exists e, err. repeat split; try assumption. apply elem_of_cons; left; reflexivity.
    + apply Exists_cons in Hex as [[Ha' _]|Hex]; [contradiction|].
      destruct (IH (if decide (ObjectIdentifier_String (Id e) = ParamsOIDString)
                    then Some (Value e) else pb) ids Hex)
        as (e' & err & Hin & Ha' & Hj' & Hv).
      exists e', err. repeat split; try assumption. apply elem_of_cons; right; exact Hin.
Qed.

(** The strings hashed for an attribute map are those of its canonical
    pairs. *)
Lemma attribute_strings_canonical (attrs : list (string * string)) :
  NoDup (fst <$> attrs) ->
  attribute_strings attrs = attribute_string <$> canonical_pairs attrs.
Proof.
  intros Hnd. unfold attribute_strings.
  assert (Hp : canonical_pairs attrs ≡ₚ attrs) by apply merge_sort_Permutation.
  assert (Hkeys : fst <$> canonical_pairs attrs = sort_Strings (fst <$> attrs)).
  { apply sort_Strings_unique.
    - apply (Sorted_fmap fst name_le string_le); [intros x y Hxy; exact Hxy|].
      apply Sorted_merge_sort, _.
    - rewrite Hp. reflexivity. }
  rewrite <- Hkeys, <- list_fmap_compose.
  apply list_fmap_ext. intros i [k v] Hi. simpl.
  unfold attribute_string; simpl. f_equal. f_equal.
  apply map_index_elem_of; [exact Hnd|].
  rewrite <- Hp. apply list_elem_of_lookup. eexists; exact Hi.
Qed.

(** The strings hashed do not depend on the order in which the map is
    traversed. *)
Lemma attribute_strings_proper (attrs1 attrs2 : list (string * string)) :
  NoDup (fst <$> attrs1) -> attrs1 ≡ₚ attrs2 ->
  attribute_strings attrs1 = attribute_strings attrs2.
Proof.
  intros Hnd Hp. unfold attribute_strings.
  rewrite <- (sort_Strings_proper (fst <$> attrs1) (fst <$> attrs2))
    by (rewrite Hp; reflexivity).
  apply list_fmap_ext. intros i k Hi. f_equal. f_equal.
  apply map_index_proper; try assumption.
  rewrite <- (sort_Strings_Permutation (fst <$> attrs1)).
  apply list_elem_of_lookup. eexists; exact Hi.
Qed.

(** With one attribute extension, the strings hashed are those of its
    payload. *)
Lemma extension_strings_single (exts : list pkix_Extension) (ae : pkix_Extension) :
  filter (is_attribute_extension ext) exts = [ae] ->
  concat (extension_strings ext <$> exts) = extension_strings ext ae.
Proof.
  induction exts as [|e exts IH]; intros Hf.
  - discriminate.
  - rewrite filter_cons in Hf. cbn [fmap list_fmap concat].
    destruct (decide (is_attribute_extension ext e)) as [He|He].
    + injection Hf as -> Hnil.
      assert (Hrest : concat (extension_strings ext <$> exts) = []).
      { clear IH He. induction exts as [|x exts IH]; [reflexivity|].
        rewrite filter_cons in Hnil. cbn [fmap list_fmap concat].
        destruct (decide (is_attribute_extension ext x)) as [Hx|Hx]; [discriminate|].
        rewrite IH by exact Hnil.
        unfold extension_strings. rewrite decide_False by exact Hx. reflexivity. }
      rewrite Hrest, app_nil_r. reflexivity.
    + rewrite IH by exact Hf.
      unfold extension_strings at 1. rewrite decide_False by exact He. reflexivity.
Qed.

Lemma hash_only_no_query (t : list (event K)) :
  Forall (fun e => is_Hash e) t -> queries_key_store t = false.
Proof.
  unfold queries_key_store. induction 1 as [|e t He _ IH]; [reflexivity|].
  cbn [existsb]. rewrite IH. destruct e; try contradiction; reflexivity.
Qed.

Lemma queries_key_store_app (t1 t2 : list (event K)) :
  queries_key_store (t1 ++ t2) = queries_key_store t1 || queries_key_store t2.
Proof. apply existsb_app. Qed.
End extension_loops.

(** ** Attribute-key lookup *)

Section attribute_key_lookup.
Context {K CryptoSigner Signer Policy : Type}.
Context `{!bccsp_Key K, !crypto_sha256}.
Variable ext : Externals K CryptoSigner Signer Policy.

(** The body of [BccspBackedCPABEPrivateKey] once the certificate is read
    and parsed. *)
Lemma BccspBackedCPABEPrivateKey_parsed (certFile : string)
    (csp : option (bccsp_BCCSP K)) (certBytes : bytes)
    (parsedCert : x509_Certificate) :
  ioutil_ReadFile ext certFile = Ok certBytes ->
  helpers_ParseCertificatePEM ext certBytes = Ok parsedCert ->
  BccspBackedCPABEPrivateKey ext certFile csp
  = call (ev_ReadFile certFile) tt ≫= fun _ =>
    scan_extensions ext (Extensions parsedCert) None [] ≫= fun r =>
    match r with
    | Err err => mret (None, Some err)
    | Ok (None, _) =>
        log_Warningf (not_support_notice certFile) ≫= fun _ => mret (None, None)
    | Ok (Some paramsBytes, attributeID) =>
        lift (put_attributes
                (replicate (Nat.shiftl (length attributeID) 2) 0) 0 attributeID)
          ≫= fun attrBytes =>
        csp_GetKey csp (Sum256 (paramsBytes ++ attrBytes)) ≫= fun r =>
        mret (go_pair r)
    end.
Proof.
  intros Hread Hparse. unfold BccspBackedCPABEPrivateKey.
  rewrite !bind_call, Hread, Hparse. reflexivity.
Qed.

(** C2: for a certificate that carries the Params extension and an
    attribute extension whose payload decodes to an attribute map,
    [BccspBackedCPABEPrivateKey] hashes the strings [name.value] of the
    pairs in name-sorted order, queries the key store once, with the
    SHA-256 digest of the Params bytes followed by the 4-byte big-endian
    AttributeIDs, and returns what the store answers. *)
Theorem BccspBackedCPABEPrivateKey_identifier (certFile : string)
    (csp : bccsp_BCCSP K) (certBytes : bytes) (parsedCert : x509_Certificate)
    (pe ae : pkix_Extension) (attrs : attrmgr_Attributes) :
  ioutil_ReadFile ext certFile = Ok certBytes ->
  helpers_ParseCertificatePEM ext certBytes = Ok parsedCert ->
  filter is_params_extension (Extensions parsedCert) = [pe] ->
  filter (is_attribute_extension ext) (Extensions parsedCert) = [ae] ->
  json_Unmarshal ext (Value ae) = Ok attrs ->
  NoDup (fst <$> Attrs attrs) ->
  BccspBackedCPABEPrivateKey ext certFile (Some csp)
  = (Returns
       (go_pair
          (GetKey csp
             (private_key_identifier (fun s => int32 (abeutils_Hash ext s))
                (Value pe) (Attrs attrs)))),
     ev_ReadFile certFile
       :: (ev_Hash <$> (attribute_string <$> canonical_pairs (Attrs attrs)))
       ++ [ev_GetKey
             (private_key_identifier (fun s => int32 (abeutils_Hash ext s))
                (Value pe) (Attrs attrs))]).
Proof.
  intros Hread Hparse Hpe Hae Hjson Hnd.
  assert (Hwf : Forall (fun e => ~ is_malformed ext e) (Extensions parsedCert)).
  { apply Forall_forall. intros e Hin [Ha [err Herr]].
    assert (He : e ∈ filter (is_attribute_extension ext) (Extensions parsedCert))
      by (apply list_elem_of_filter; split; assumption).
    rewrite Hae in He. apply list_elem_of_singleton in He. subst e. congruence. }
  assert (Hstr : concat (extension_strings ext <$> Extensions parsedCert)
                 = attribute_string <$> canonical_pairs (Attrs attrs)).
  { rewrite (extension_strings_single ext _ ae) by exact Hae.
    unfold extension_strings.
    rewrite decide_True, Hjson.
    - apply attribute_strings_canonical, Hnd.
    - assert (He : ae ∈ filter (is_attribute_extension ext) (Extensions parsedCert))
        by (rewrite Hae; apply list_elem_of_singleton; reflexivity).
      apply list_elem_of_filter in He as [He _]. exact He. }
  rewrite (BccspBackedCPABEPrivateKey_parsed certFile _ certBytes parsedCert)
    by assumption.
  rewrite bind_call, scan_extensions_decoded by exact Hwf.
  rewrite bind_Returns, (scan_params_single _ pe) by exact Hpe.
  rewrite Hstr. cbn [app].
  rewrite put_attributes_all. unfold lift. rewrite bind_Returns.
  unfold csp_GetKey. rewrite bind_call.
  unfold value, trace; cbn [fst snd mret M_ret app].
  unfold private_key_identifier, attribute_ids.
  rewrite <- !list_fmap_compose. reflexivity.
Qed.

(** C6, as amended: for a certificate without a Params extension the
    Params lookup returns a nil key and a nil error after the warning,
    without a call to the key store; the private-key lookup makes no call
    to the key store either; provided every attribute payload decodes, it
    returns a nil key and a nil error after hashing the attributes of the
    attribute extensions it met; and it hashes no attribute when the
    certificate has no attribute extension. *)
Theorem no_params_extension_not_supported (certFile : string)
    (csp : option (bccsp_BCCSP K)) (certBytes : bytes)
    (parsedCert : x509_Certificate) :
  ioutil_ReadFile ext certFile = Ok certBytes ->
  helpers_ParseCertificatePEM ext certBytes = Ok parsedCert ->
  Forall (fun e => ~ is_params_extension e) (Extensions parsedCert) ->
  BccspBackedCPABEParams ext certFile csp
  = (Returns (None, None),
     [ev_ReadFile certFile; ev_Warningf (not_support_notice certFile)])
  /\ queries_key_store (trace (BccspBackedCPABEPrivateKey ext certFile csp)) = false
  /\ (Forall (fun e => ~ is_malformed ext e) (Extensions parsedCert) ->
      BccspBackedCPABEPrivateKey ext certFile csp
      = (Returns (None, None),
         ev_ReadFile certFile
           :: (ev_Hash <$> concat (extension_strings ext <$> Extensions parsedCert))
           ++ [ev_Warningf (not_support_notice certFile)]))
  /\ (Forall (fun e => ~ is_attribute_extension ext e) (Extensions parsedCert) ->
      BccspBackedCPABEPrivateKey ext certFile csp
      = (Returns (None, None),
         [ev_ReadFile certFile; ev_Warningf (not_support_notice certFile)])).
Proof.
  intros Hread Hparse Hno.
  pose proof (scan_params_absent (Extensions parsedCert) None Hno) as Hscan.
  split; [|split; [|split]].
  - unfold BccspBackedCPABEParams.
    rewrite bind_call, Hread, Hparse, Hscan. reflexivity.
  - rewrite (BccspBackedCPABEPrivateKey_parsed certFile _ certBytes parsedCert)
      by assumption.
    rewrite bind_call.
    destruct (scan_extensions_shape ext (Extensions parsedCert) None [])
      as [Ht [[err Hv]|[ids Hv]]];
      rewrite (M_eta (scan_extensions _ _ _ _)), Hv, bind_Returns;
      set (ts := trace (scan_extensions ext (Extensions parsedCert) None [])) in *;
      [|rewrite Hscan];
      unfold value, trace; cbn [fst snd mret M_ret log_Warningf call mbind M_bind];
      change (ev_ReadFile certFile :: ?t) with ([ev_ReadFile certFile] ++ t);
      rewrite !queries_key_store_app, (hash_only_no_query _ Ht); reflexivity.
  - intros Hwf.
    rewrite (BccspBackedCPABEPrivateKey_parsed certFile _ certBytes parsedCert)
      by assumption.
    rewrite bind_call, scan_extensions_decoded, bind_Returns, Hscan by exact Hwf.
    reflexivity.
  - intros Hnone.
    assert (Hwf : Forall (fun e => ~ is_malformed ext e) (Extensions parsedCert)).
    { eapply Forall_impl; [exact Hnone|]. intros e He [Ha _]. exact (He Ha). }
    assert (Hstr : concat (extension_strings ext <$> Extensions parsedCert) = []).
    { clear -Hnone. induction Hnone as [|e exts He _ IH]; [reflexivity|].
      cbn [fmap list_fmap concat]. rewrite IH.
      unfold extension_strings. rewrite decide_False by exact He. reflexivity. }
    rewrite (BccspBackedCPABEPrivateKey_parsed certFile _ certBytes parsedCert)
      by assumption.
    rewrite bind_call, scan_extensions_decoded, bind_Returns, Hscan, Hstr by exact Hwf.
    reflexivity.
Qed.

(** C10: when some attribute extension of the certificate carries a payload
    that does not decode, [BccspBackedCPABEPrivateKey] returns the
    unmarshal error of such a payload, without a call to the key store,
    whether or not the certificate has a Params extension. *)
Theorem malformed_attributes_preempt (certFile : string)
    (csp : option (bccsp_BCCSP K)) (certBytes : bytes)
    (parsedCert : x509_Certificate) :
  ioutil_ReadFile ext certFile = Ok certBytes ->
  helpers_ParseCertificatePEM ext certBytes = Ok parsedCert ->
  Exists (is_malformed ext) (Extensions parsedCert) ->
  exists e err,
    e ∈ Extensions parsedCert
    /\ is_attribute_extension ext e
    /\ json_Unmarshal ext (Value e) = Err err
    /\ value (BccspBackedCPABEPrivateKey ext certFile csp)
       = Returns (None,
                  Some (errors_New ("unmarshal Attributes error, " +:+ Error err)))
    /\ queries_key_store (trace (BccspBackedCPABEPrivateKey ext certFile csp)) = false.
Proof.
  intros Hread Hparse Hex.
  destruct (scan_extensions_malformed ext (Extensions parsedCert) None [] Hex)
    as (e & err & Hin & Ha & Hj & Hv).
  destruct (scan_extensions_shape ext (Extensions parsedCert) None []) as [Ht _].
  exists e, err. repeat split; try assumption;
    rewrite (BccspBackedCPABEPrivateKey_parsed certFile _ certBytes parsedCert)
      by assumption;
    rewrite bind_call, (M_eta (scan_extensions _ _ _ _)), Hv, bind_Returns.
  - reflexivity.
  - set (ts := trace (scan_extensions ext (Extensions parsedCert) None [])) in *.
    unfold value, trace; cbn [fst snd mret M_ret].
    change (ev_ReadFile certFile :: ?t) with ([ev_ReadFile certFile] ++ t).
    rewrite !queries_key_store_app, (hash_only_no_query _ Ht). reflexivity.
Qed.
End attribute_key_lookup.

(** ** Master-key lookup over the wrappers of package [sw] *)

Section master_key_lookup.
Context {cpabe_Params CryptoSigner Signer Policy : Type}.
Context `{!proto_Message cpabe_Params}.
Variable ext : Externals (sw.cpabeParams cpabe_Params) CryptoSigner Signer Policy.

(** X26: when the key store imports the Params bytes as a [cpabeParams]
    with a set value, [BccspBackedCPABEMasterKey] asks it for its identifier
    and panics there: with the marshalling error, or with nil. *)
Lemma BccspBackedCPABEMasterKey_panics (certFile : string)
    (csp : bccsp_BCCSP (sw.cpabeParams cpabe_Params)) (certBytes : bytes)
    (parsedCert : x509_Certificate) (pe : pkix_Extension) (p : cpabe_Params) :
  ioutil_ReadFile ext certFile = Ok certBytes ->
  helpers_ParseCertificatePEM ext certBytes = Ok parsedCert ->
  filter is_params_extension (Extensions parsedCert) = [pe] ->
  KeyImport csp (raw_bytes (Value pe)) (CPABEParamsImportOpts true)
  = Ok {| sw.params := Some p |} ->
  BccspBackedCPABEMasterKey ext certFile (Some csp)
  = (Panics (match proto_Marshal (Some p) with
             | Ok _ => None
             | Err err => Some err
             end),
     [ev_ReadFile certFile;
      ev_KeyImport (raw_bytes (Value pe)) (CPABEParamsImportOpts true)]).
Proof.
  intros Hread Hparse Hpe Himport.
  unfold BccspBackedCPABEMasterKey, BccspBackedCPABEParams, csp_KeyImport.
  rewrite bind_call, Hread, Hparse, (scan_params_single _ pe) by exact Hpe.
  rewrite bind_call, Himport.
  cbn [value trace fst snd mret M_ret mbind M_bind app lift SKI cpabeParams_Key].
  rewrite cpabeParams_SKI_set. reflexivity.
Qed.
End master_key_lookup.

(** ** The order in which the attribute map is traversed *)

Section traversal_order.
Context {K CryptoSigner Signer Policy : Type}.
Context `{!bccsp_Key K, !crypto_sha256}.
Variable ext : Externals K CryptoSigner Signer Policy.
Variable unmarshal' : bytes -> result attrmgr_Attributes.
Hypothesis same_maps :
  forall payload, same_attributes (json_Unmarshal ext payload) (unmarshal' payload).

Lemma hash_attributes_sorted (ext0 : Externals K CryptoSigner Signer Policy)
    (attrs : list (string * string)) (attributeID : list Z) :
  hash_attributes ext0 attrs (sort_Strings (fst <$> attrs)) attributeID
  = (Returns (attributeID
              ++ ((fun s => int32 (abeutils_Hash ext0 s)) <$> attribute_strings attrs)),
     ev_Hash <$> attribute_strings attrs).
Proof.
  rewrite hash_attributes_run. unfold attribute_strings.
  rewrite <- !list_fmap_compose. reflexivity.
Qed.

Lemma scan_extensions_order (exts : list pkix_Extension)
    (paramsBytes : option bytes) (attributeID : list Z) :
  scan_extensions (with_json_Unmarshal ext unmarshal') exts paramsBytes attributeID
  = scan_extensions ext exts paramsBytes attributeID.
Proof.
  revert paramsBytes attributeID.
  induction exts as [|e exts IH]; intros pb ids; cbn [scan_extensions].
  - reflexivity.
  - cbn [with_json_Unmarshal AttrOIDString json_Unmarshal].
    destruct (decide (ObjectIdentifier_String (Id e) = AttrOIDString ext)); [|apply IH].
    pose proof (same_maps (Value e)) as Hsame. unfold same_attributes in Hsame.
    destruct (json_Unmarshal ext (Value e)) as [a1|e1],
             (unmarshal' (Value e)) as [a2|e2]; try contradiction.
    + destruct Hsame as [Hnd Hp].
      rewrite !hash_attributes_sorted.
      cbn [with_json_Unmarshal abeutils_Hash].
      rewrite <- (attribute_strings_proper (Attrs a1) (Attrs a2)) by assumption.
      rewrite !bind_Returns, IH. reflexivity.
    + subst e2. reflexivity.
Qed.

(** C3: when two decodings of the attribute payloads hold the same pairs
    and differ only in the order in which the map is traversed, the
    extension loop ends with the same AttributeID sequence, and
    [BccspBackedCPABEPrivateKey] makes the same calls, the key-store query
    with the same identifier included, and returns the same result. *)
Theorem BccspBackedCPABEPrivateKey_order_invariant (certFile : string)
    (csp : option (bccsp_BCCSP K)) :
  (forall exts,
      scan_extensions (with_json_Unmarshal ext unmarshal') exts None []
      = scan_extensions ext exts None [])
  /\ BccspBackedCPABEPrivateKey (with_json_Unmarshal ext unmarshal') certFile csp
     = BccspBackedCPABEPrivateKey ext certFile csp.
Proof.
  split; [intros exts; apply scan_extensions_order|].
  unfold BccspBackedCPABEPrivateKey.
  cbn [with_json_Unmarshal ioutil_ReadFile helpers_ParseCertificatePEM].
  rewrite !bind_call.
  destruct (ioutil_ReadFile ext certFile) as [certBytes|err]; [|reflexivity].
  destruct (helpers_ParseCertificatePEM ext certBytes) as [parsedCert|err];
    [|reflexivity].
  rewrite scan_extensions_order. reflexivity.
Qed.
End traversal_order.

(** ** Attribute-key lookup in the small world *)

Section lookup_in_the_world.
Local Existing Instance World.key_interface.
Local Existing Instance World.digest.

(** The object identifier of the Params extension prints as the constant
    the loops compare with. *)
Example ParamsOID_String : ObjectIdentifier_String ParamsOID = ParamsOIDString.
Proof. vm_compute. reflexivity. Qed.

(** The scenario of the specification: the pairs of the map with [role]
    before [dept] are put in the order [dept], [role]. *)
Example canonical_pairs_role_dept :
  canonical_pairs [("role", "admin"); ("dept", "eng")]
  = [("dept", "eng"); ("role", "admin")].
Proof. vm_compute. reflexivity. Qed.

Lemma World_same_attributes (payload : bytes) :
  same_attributes (World.unmarshal true payload) (World.unmarshal false payload).
Proof.
  unfold World.unmarshal, same_attributes.
  destruct (decide (payload = World.attributes_payload)); [|reflexivity].
  cbn [Attrs]. split.
  - apply (bool_decide_unpack _). vm_compute. exact I.
  - apply perm_swap.
Qed.

(** C2 at the certificate of [abe.pem], which carries both extensions. *)
Lemma BccspBackedCPABEPrivateKey_identifier_witness :
  BccspBackedCPABEPrivateKey (World.externals true) "abe.pem" (Some World.store)
  = (Returns
       (go_pair
          (GetKey World.store
             (private_key_identifier (fun s => int32 (World.hash s)) [7; 7]
                [("role", "admin"); ("dept", "eng")]))),
     ev_ReadFile "abe.pem"
       :: (ev_Hash <$> ["dept.eng"; "role.admin"])
       ++ [ev_GetKey
             (private_key_identifier (fun s => int32 (World.hash s)) [7; 7]
                [("role", "admin"); ("dept", "eng")])]).
Proof.
  apply (BccspBackedCPABEPrivateKey_identifier (World.externals true) "abe.pem"
           World.store [3]
           (World.certificate 3 [World.attribute_extension; World.params_extension])
           World.params_extension World.attribute_extension
           {| Attrs := [("role", "admin"); ("dept", "eng")] |}).
  - reflexivity.
  - reflexivity.
  - vm_compute. reflexivity.
  - vm_compute. reflexivity.
  - vm_compute. reflexivity.
  - apply (bool_decide_unpack _). vm_compute. exact I.
Defined.

(** C3 at the same certificate, with the map traversed in both orders. *)
Lemma BccspBackedCPABEPrivateKey_order_invariant_witness :
  BccspBackedCPABEPrivateKey
    (with_json_Unmarshal (World.externals true) (World.unmarshal false))
    "abe.pem" (Some World.store)
  = BccspBackedCPABEPrivateKey (World.externals true) "abe.pem" (Some World.store).
Proof.
  exact (proj2 (BccspBackedCPABEPrivateKey_order_invariant (World.externals true)
                  (World.unmarshal false) World_same_attributes
                  "abe.pem" (Some World.store))).
Defined.

(** C6 fails as stated.  The certificate of [malformed.pem] has no Params
    extension, and the private-key lookup returns an error.  The
    certificate of [attributes.pem] has none either, and the lookup hashes
    both attributes before it returns the nil key and the nil error. *)
Lemma not_supported_after_scan :
  filter is_params_extension
    (Extensions (World.certificate 4 [World.malformed_attribute_extension])) = []
  /\ BccspBackedCPABEPrivateKey (World.externals true) "malformed.pem"
       (Some World.store)
     = (Returns (None,
                 Some (errors_New
                         "unmarshal Attributes error, unexpected end of JSON input")),
        [ev_ReadFile "malformed.pem"])
  /\ filter is_params_extension
       (Extensions (World.certificate 5 [World.attribute_extension])) = []
  /\ BccspBackedCPABEPrivateKey (World.externals true) "attributes.pem"
       (Some World.store)
     = (Returns (None, None),
        [ev_ReadFile "attributes.pem"; ev_Hash "dept.eng"; ev_Hash "role.admin";
         ev_Warningf "The certificate in [attributes.pem] not support cpabe"]).
Proof. repeat split; vm_compute; reflexivity. Qed.

(** C6, as amended, at the certificate of [attributes.pem]. *)
Lemma no_params_extension_not_supported_witness :
  BccspBackedCPABEParams (World.externals true) "attributes.pem" (Some World.store)
  = (Returns (None, None),
     [ev_ReadFile "attributes.pem";
      ev_Warningf (not_support_notice "attributes.pem")])
  /\ queries_key_store
       (trace (BccspBackedCPABEPrivateKey (World.externals true) "attributes.pem"
                 (Some World.store))) = false.
Proof.
  destruct (no_params_extension_not_supported (World.externals true)
              "attributes.pem" (Some World.store) [5]
              (World.certificate 5 [World.attribute_extension]))
    as (Hparams & Hquery & _).
  - reflexivity.
  - reflexivity.
  - apply (bool_decide_unpack _). vm_compute. exact I.
  - split; assumption.
Defined.

(** C10 at the certificate of [malformed.pem], which has no Params
    extension. *)
Lemma malformed_attributes_preempt_witness :
  exists e err,
    e ∈ [World.malformed_attribute_extension]
    /\ is_attribute_extension (World.externals true) e
    /\ World.unmarshal true (Value e) = Err err
    /\ value (BccspBackedCPABEPrivateKey (World.externals true) "malformed.pem"
                (Some World.store))
       = Returns (None,
                  Some (errors_New ("unmarshal Attributes error, " +:+ Error err)))
    /\ queries_key_store
         (trace (BccspBackedCPABEPrivateKey (World.externals true) "malformed.pem"
                   (Some World.store))) = false.
Proof.
  apply (malformed_attributes_preempt (World.externals true) "malformed.pem"
           (Some World.store) [4]
           (World.certificate 4 [World.malformed_attribute_extension])).
  - reflexivity.
  - reflexivity.
  - apply Exists_cons_hd. split.
    + vm_compute. reflexivity.
    + eexists. vm_compute. reflexivity.
Defined.
End lookup_in_the_world.

(** ** Signer resolution *)

(** Case analysis on what a collaborator answers, innermost first. *)
Ltac answer :=
  match goal with
  | |- context [match ?x with _ => _ end] =>
      lazymatch x with
      | context [match _ with _ => _ end] => fail
      | _ => destruct x eqn:?
      end
  end.

Ltac run :=
  repeat (cbn [mbind M_bind mret M_ret call lift panic value trace fst snd app
               negb go_pair log_Debugf log_Warningf];
          try answer).

Section signer_resolution.
Context {K CryptoSigner Signer Policy : Type}.
Context `{!bccsp_Key K}.
Variable ext : Externals K CryptoSigner Signer Policy.

(** [GetSignerFromCert] returns a key exactly when it returns a signer and
    exactly when it returns no error. *)
Lemma GetSignerFromCert_results (cert : x509_Certificate)
    (csp : option (bccsp_BCCSP K)) (key : option K)
    (signer : option CryptoSigner) (err : option error) :
  value (GetSignerFromCert ext cert csp) = Returns (key, signer, err) ->
  (key = None <-> err <> None) /\ (signer = None <-> err <> None).
Proof.
  unfold GetSignerFromCert, csp_KeyImport, csp_GetKey. run;
    intros [= <- <- <-]; split; split; congruence.
Qed.

(** C5: when the key store answers the certificate's identifier with a key
    that is not private, [GetSignerFromCert] returns the error that the
    private key for this identifier was not found, and constructs no
    signer; whenever it constructs a signer, it does so from a key that
    reports [Private() = true]. *)
Theorem GetSignerFromCert_private_only (cert : x509_Certificate)
    (csp : option (bccsp_BCCSP K)) :
  (forall c certPubK ski privateKey,
      csp = Some c ->
      KeyImport c (raw_Certificate cert) (X509PublicKeyImportOpts true) = Ok certPubK ->
      SKI certPubK = Returns ski ->
      GetKey c ski = Ok privateKey ->
      Private privateKey = false ->
      GetSignerFromCert ext cert csp
      = (Returns (None, None,
                  Some (errors_New
                          ("The private key associated with the certificate with SKI '"
                           +:+ hex_EncodeToString ski +:+ "' was not found"))),
         [ev_KeyImport (raw_Certificate cert) (X509PublicKeyImportOpts true);
          ev_GetKey ski]))
  /\ (forall key,
         ev_cspsigner_New key ∈ trace (GetSignerFromCert ext cert csp) ->
         Private key = true)
  /\ (forall key signer err,
         value (GetSignerFromCert ext cert csp) = Returns (key, Some signer, err) ->
         exists privateKey,
           key = Some privateKey /\ Private privateKey = true /\ err = None).
Proof.
  split; [|split].
  - intros c certPubK ski privateKey -> Himport Hski Hget Hprivate.
    unfold GetSignerFromCert, csp_KeyImport, csp_GetKey.
    cbn [mbind M_bind call]. rewrite Himport, Hski.
    cbn [mbind M_bind call lift]. rewrite Hget, Hprivate. reflexivity.
  - intros key. unfold GetSignerFromCert, csp_KeyImport, csp_GetKey. run;
      intros Hin; repeat (apply elem_of_cons in Hin as [Hin|Hin]; [try discriminate|]);
      try (inversion Hin; fail).
    all: injection Hin as ->; match goal with H : negb _ = false |- _ =>
           apply negb_false_iff in H; exact H end.
  - intros key signer err.
    unfold GetSignerFromCert, csp_KeyImport, csp_GetKey. run;
      intros [= <- <- <-];
      match goal with H : negb _ = false |- _ => apply negb_false_iff in H end;
      eexists; repeat split; eassumption.
Qed.

(** [GetSignerFromCertFile] returns a key exactly when it returns no
    error. *)
Lemma GetSignerFromCertFile_results (certFile : string)
    (csp : option (bccsp_BCCSP K)) (key : option K)
    (signer : option CryptoSigner) (ca : option x509_Certificate)
    (err : option error) :
  value (GetSignerFromCertFile ext certFile csp) = Returns (key, signer, ca, err) ->
  key = None <-> err <> None.
Proof.
  unfold GetSignerFromCertFile. rewrite bind_call.
  destruct (ioutil_ReadFile ext certFile) as [certBytes|e];
    [|intros [= <- <- <- <-]; split; congruence].
  destruct (helpers_ParseCertificatePEM ext certBytes) as [parsedCa|e];
    [|intros [= <- <- <- <-]; split; congruence].
  rewrite (M_eta (GetSignerFromCert ext parsedCa csp)).
  destruct (value (GetSignerFromCert ext parsedCa csp)) as [[[k s] e]|v] eqn:Hv;
    [|discriminate].
  rewrite bind_Returns. cbn [value fst mret M_ret].
  intros [= <- <- <- <-].
  apply (GetSignerFromCert_results parsedCa csp k s e Hv).
Qed.

(** No function on the primary path, nor the import, logs the fallback
    notice. *)
Lemma GetSignerFromCertFile_quiet (certFile : string) (csp : option (bccsp_BCCSP K)) :
  fallback_attempts (trace (GetSignerFromCertFile ext certFile csp)) = 0%nat.
Proof.
  unfold GetSignerFromCertFile, GetSignerFromCert, csp_KeyImport, csp_GetKey.
  run; reflexivity.
Qed.

Lemma ImportBCCSPKeyFromPEM_quiet (keyFile : string)
    (csp : option (bccsp_BCCSP K)) (temporary : bool) :
  fallback_attempts (trace (ImportBCCSPKeyFromPEM ext keyFile csp temporary)) = 0%nat.
Proof.
  unfold ImportBCCSPKeyFromPEM, csp_KeyImport. run; reflexivity.
Qed.

Lemma fallback_attempts_app (t1 t2 : list (event K)) :
  fallback_attempts (t1 ++ t2) = (fallback_attempts t1 + fallback_attempts t2)%nat.
Proof. unfold fallback_attempts. rewrite filter_app, length_app. reflexivity. Qed.

(** The primary step when every call succeeds and the key found is
    private. *)
Lemma GetSignerFromCertFile_found (caFile : string) (csp : option (bccsp_BCCSP K))
    (certBytes : bytes) (parsedCa : x509_Certificate) (c : bccsp_BCCSP K)
    (certPubK : K) (ski : bytes) (k : K) (s : CryptoSigner) :
  ioutil_ReadFile ext caFile = Ok certBytes ->
  helpers_ParseCertificatePEM ext certBytes = Ok parsedCa ->
  csp = Some c ->
  KeyImport c (raw_Certificate parsedCa) (X509PublicKeyImportOpts true) = Ok certPubK ->
  SKI certPubK = Returns ski ->
  GetKey c ski = Ok k ->
  Private k = true ->
  cspsigner_New ext csp k = Ok s ->
  GetSignerFromCertFile ext caFile csp
  = (Returns (Some k, Some s, Some parsedCa, None),
     [ev_ReadFile caFile;
      ev_KeyImport (raw_Certificate parsedCa) (X509PublicKeyImportOpts true);
      ev_GetKey ski; ev_cspsigner_New k]).
Proof.
  intros Hread Hparse -> Himport Hski Hget Hprivate Hnew.
  unfold GetSignerFromCertFile, GetSignerFromCert, csp_KeyImport, csp_GetKey.
  rewrite bind_call, Hread, Hparse, bind_call, Himport, Hski.
  cbn [lift value trace fst snd mbind M_bind app].
  rewrite Hget, bind_call, Hprivate. cbn [negb].
  rewrite bind_call, Hnew. reflexivity.
Qed.

(** The primary step returns a key in no other way. *)
Lemma GetSignerFromCertFile_key (caFile : string) (csp : option (bccsp_BCCSP K))
    (k : K) (s : option CryptoSigner) (ca : option x509_Certificate)
    (err : option error) :
  value (GetSignerFromCertFile ext caFile csp) = Returns (Some k, s, ca, err) ->
  exists certBytes parsedCa c certPubK ski s',
    ioutil_ReadFile ext caFile = Ok certBytes
    /\ helpers_ParseCertificatePEM ext certBytes = Ok parsedCa
    /\ csp = Some c
    /\ KeyImport c (raw_Certificate parsedCa) (X509PublicKeyImportOpts true)
       = Ok certPubK
    /\ SKI certPubK = Returns ski
    /\ GetKey c ski = Ok k
    /\ Private k = true
    /\ cspsigner_New ext csp k = Ok s'
    /\ s = Some s' /\ ca = Some parsedCa /\ err = None.
Proof.
  unfold GetSignerFromCertFile, GetSignerFromCert, csp_KeyImport, csp_GetKey.
  run; intros [= <- <- <- <-].
  eexists _, _, _, _, _, _. repeat split; try eassumption.
  destruct (Private _); [reflexivity | discriminate].
Qed.

(** The primary step asks the key store for no key-file import. *)
Lemma GetSignerFromCertFile_no_key_file (certFile : string)
    (csp : option (bccsp_BCCSP K)) :
  key_file_imports (trace (GetSignerFromCertFile ext certFile csp)) = 0%nat.
Proof.
  unfold GetSignerFromCertFile, GetSignerFromCert, csp_KeyImport, csp_GetKey.
  run; reflexivity.
Qed.

Lemma key_file_imports_app (t1 t2 : list (event K)) :
  key_file_imports (t1 ++ t2) = (key_file_imports t1 + key_file_imports t2)%nat.
Proof. unfold key_file_imports. rewrite filter_app, length_app. reflexivity. Qed.

(** [ImportBCCSPKeyFromPEM] reads the key file first, and asks the key
    store for at most one import after it, that of an ECDSA key. *)
Lemma ImportBCCSPKeyFromPEM_calls (keyFile : string)
    (csp : option (bccsp_BCCSP K)) (temporary : bool) :
  exists imports,
    trace (ImportBCCSPKeyFromPEM ext keyFile csp temporary)
    = ev_ReadFile keyFile :: imports
    /\ (imports = []
        \/ exists priv,
            imports = [ev_KeyImport (raw_bytes priv)
                         (ECDSAPrivateKeyImportOpts temporary)]).
Proof.
  unfold ImportBCCSPKeyFromPEM, csp_KeyImport.
  run; eexists; (split; [reflexivity|]);
    first [left; reflexivity | right; eexists; reflexivity].
Qed.

(** When [ImportBCCSPKeyFromPEM] returns a key. *)
Lemma ImportBCCSPKeyFromPEM_key (keyFile : string)
    (csp : option (bccsp_BCCSP K)) (temporary : bool) (sk : K) :
  value (ImportBCCSPKeyFromPEM ext keyFile csp temporary) = Returns (Ok sk)
  <-> exists c keyBuff key priv,
      csp = Some c
      /\ ioutil_ReadFile ext keyFile = Ok keyBuff
      /\ utils_PEMtoPrivateKey ext keyBuff = Ok (key_ecdsa key)
      /\ utils_PrivateKeyToDER ext key = Ok priv
      /\ KeyImport c (raw_bytes priv) (ECDSAPrivateKeyImportOpts temporary) = Ok sk.
Proof.
  split.
  - unfold ImportBCCSPKeyFromPEM, csp_KeyImport. run; intros [= <-].
    eexists _, _, _, _. repeat split; eassumption.
  - intros (c & keyBuff & key & priv & -> & Hread & Hpem & Hder & Himport).
    unfold ImportBCCSPKeyFromPEM, csp_KeyImport.
    rewrite bind_call, Hread, Hpem, Hder, bind_call, Himport. reflexivity.
Qed.

(** The run of [BccspBackedSigner] after a primary step that returned an
    error. *)
Lemma BccspBackedSigner_after_error (caFile keyFile : string) (policy : Policy)
    (csp : option (bccsp_BCCSP K)) (key : option K) (s0 : option CryptoSigner)
    (ca : option x509_Certificate) (err0 : error) :
  value (GetSignerFromCertFile ext caFile csp) = Returns (key, s0, ca, Some err0) ->
  BccspBackedSigner ext caFile keyFile policy csp
  = (match value (ImportBCCSPKeyFromPEM ext keyFile csp false) with
     | Returns (Err e) => Returns (Err (key_file_error e keyFile))
     | Returns (Ok sk) =>
         match cspsigner_New ext csp sk with
         | Err e =>
             Returns (Err (errors_WithMessage e "Failed initializing CryptoSigner"))
         | Ok s =>
             Returns (match local_NewSigner ext (Some s) ca policy with
                      | Ok sg => Ok sg
                      | Err e => Err (errors_Wrap e "Failed to create new signer")
                      end)
         end
     | Panics v => Panics v
     end,
     trace (GetSignerFromCertFile ext caFile csp)
       ++ ev_Debugf fallback_notice
       :: trace (ImportBCCSPKeyFromPEM ext keyFile csp false)
       ++ match value (ImportBCCSPKeyFromPEM ext keyFile csp false) with
          | Returns (Ok sk) =>
              match cspsigner_New ext csp sk with
              | Err _ => [ev_cspsigner_New sk]
              | Ok _ => [ev_cspsigner_New sk; ev_local_NewSigner]
              end
          | _ => []
          end).
Proof.
  intros Hprimary.
  unfold BccspBackedSigner, BccspBackedSigner_finish, log_Debugf.
  rewrite (M_eta (GetSignerFromCertFile ext caFile csp)), Hprimary, bind_Returns.
  cbn [value trace fst snd]. rewrite bind_call.
  rewrite (M_eta (ImportBCCSPKeyFromPEM ext keyFile csp false)).
  destruct (value (ImportBCCSPKeyFromPEM ext keyFile csp false)) as [[sk|e]|v];
    cbn [value trace fst snd].
  - rewrite bind_Returns, bind_call.
    destruct (cspsigner_New ext csp sk) as [s|e].
    + rewrite bind_call.
      destruct (local_NewSigner ext (Some s) ca policy); reflexivity.
    + reflexivity.
  - rewrite bind_Returns. cbn [value trace fst snd mret M_ret].
    rewrite !app_nil_r. reflexivity.
  - rewrite bind_Panics. cbn [value trace fst snd]. rewrite !app_nil_r. reflexivity.
Qed.

(** The run after a primary step that returned no error, and after one
    that panicked. *)
Lemma BccspBackedSigner_after_key (caFile keyFile : string) (policy : Policy)
    (csp : option (bccsp_BCCSP K)) (key : option K) (s0 : option CryptoSigner)
    (ca : option x509_Certificate) :
  value (GetSignerFromCertFile ext caFile csp) = Returns (key, s0, ca, None) ->
  BccspBackedSigner ext caFile keyFile policy csp
  = (Returns (match local_NewSigner ext s0 ca policy with
              | Ok sg => Ok sg
              | Err e => Err (errors_Wrap e "Failed to create new signer")
              end),
     trace (GetSignerFromCertFile ext caFile csp) ++ [ev_local_NewSigner]).
Proof.
  intros Hprimary.
  unfold BccspBackedSigner, BccspBackedSigner_finish.
  rewrite (M_eta (GetSignerFromCertFile ext caFile csp)), Hprimary, bind_Returns.
  cbn [value trace fst snd]. rewrite bind_call.
  destruct (local_NewSigner ext s0 ca policy); reflexivity.
Qed.

Lemma BccspBackedSigner_after_panic (caFile keyFile : string) (policy : Policy)
    (csp : option (bccsp_BCCSP K)) (v : option error) :
  value (GetSignerFromCertFile ext caFile csp) = Panics v ->
  BccspBackedSigner ext caFile keyFile policy csp
  = (Panics v, trace (GetSignerFromCertFile ext caFile csp)).
Proof.
  intros Hprimary. unfold BccspBackedSigner.
  rewrite (M_eta (GetSignerFromCertFile ext caFile csp)), Hprimary, bind_Panics.
  reflexivity.
Qed.

(** C4, as amended.  [BccspBackedSigner] takes the key-file fallback
    exactly when the primary step returns without a key, and runs it once.
    - When the primary step finds the key (the certificate is read and
      parsed, its public key imported, and the key store has a private key
      under that key's identifier, for which a signer is built), the run
      is these calls and [local.NewSigner]: no notice, no key file.
    - Every other returning run of the primary step has no key; the run
      is then the primary's calls, the notice, one read of the key file,
      at most one import (of an ECDSA key, not temporary), and the signer
      constructors when the import gave a key.
    - The import gives a key exactly when the key file decodes to an ECDSA
      key whose DER bytes the key store imports.
    - The notice is logged once or not at all, and at most one key-file
      import is asked of the key store.
    - The error that names the key file is returned exactly when the
      primary step returned no key and the import failed; the only other
      errors are those of [cspsigner.New] for the imported key and of
      [local.NewSigner], on either path.
    - A panic of the primary step ends the run. *)
Theorem BccspBackedSigner_fallback (caFile keyFile : string) (policy : Policy)
    (csp : option (bccsp_BCCSP K)) :
  (forall certBytes parsedCa c certPubK ski k s,
      ioutil_ReadFile ext caFile = Ok certBytes ->
      helpers_ParseCertificatePEM ext certBytes = Ok parsedCa ->
      csp = Some c ->
      KeyImport c (raw_Certificate parsedCa) (X509PublicKeyImportOpts true)
      = Ok certPubK ->
      SKI certPubK = Returns ski ->
      GetKey c ski = Ok k ->
      Private k = true ->
      cspsigner_New ext csp k = Ok s ->
      BccspBackedSigner ext caFile keyFile policy csp
      = (Returns (match local_NewSigner ext (Some s) (Some parsedCa) policy with
                  | Ok sg => Ok sg
                  | Err e => Err (errors_Wrap e "Failed to create new signer")
                  end),
         [ev_ReadFile caFile;
          ev_KeyImport (raw_Certificate parsedCa) (X509PublicKeyImportOpts true);
          ev_GetKey ski; ev_cspsigner_New k; ev_local_NewSigner]))
  /\ (forall key s0 ca err0,
         value (GetSignerFromCertFile ext caFile csp) = Returns (key, s0, ca, err0) ->
         (exists k certBytes parsedCa c certPubK ski s,
             key = Some k
             /\ ioutil_ReadFile ext caFile = Ok certBytes
             /\ helpers_ParseCertificatePEM ext certBytes = Ok parsedCa
             /\ csp = Some c
             /\ KeyImport c (raw_Certificate parsedCa) (X509PublicKeyImportOpts true)
                = Ok certPubK
             /\ SKI certPubK = Returns ski
             /\ GetKey c ski = Ok k
             /\ Private k = true
             /\ cspsigner_New ext csp k = Ok s)
         \/ (key = None
             /\ exists calls imports,
                 trace (GetSignerFromCertFile ext caFile csp)
                 = ev_ReadFile caFile :: calls
                 /\ (imports = []
                     \/ exists priv,
                         imports = [ev_KeyImport (raw_bytes priv)
                                      (ECDSAPrivateKeyImportOpts false)])
                 /\ BccspBackedSigner ext caFile keyFile policy csp
                    = (match value (ImportBCCSPKeyFromPEM ext keyFile csp false) with
                       | Returns (Err e) => Returns (Err (key_file_error e keyFile))
                       | Returns (Ok sk) =>
                           match cspsigner_New ext csp sk with
                           | Err e =>
                               Returns (Err (errors_WithMessage e
                                               "Failed initializing CryptoSigner"))
                           | Ok s =>
                               Returns
                                 (match local_NewSigner ext (Some s) ca policy with
                                  | Ok sg => Ok sg
                                  | Err e =>
                                      Err (errors_Wrap e "Failed to create new signer")
                                  end)
                           end
                       | Panics v => Panics v
                       end,
                       fallback_run (ev_ReadFile caFile :: calls) keyFile imports
                         match value (ImportBCCSPKeyFromPEM ext keyFile csp false) with
                         | Returns (Ok sk) =>
                             match cspsigner_New ext csp sk with
                             | Err _ => [ev_cspsigner_New sk]
                             | Ok _ => [ev_cspsigner_New sk; ev_local_NewSigner]
                             end
                         | _ => []
                         end)))
  /\ (forall sk,
         value (ImportBCCSPKeyFromPEM ext keyFile csp false) = Returns (Ok sk)
         <-> exists c keyBuff key priv,
             csp = Some c
             /\ ioutil_ReadFile ext keyFile = Ok keyBuff
             /\ utils_PEMtoPrivateKey ext keyBuff = Ok (key_ecdsa key)
             /\ utils_PrivateKeyToDER ext key = Ok priv
             /\ KeyImport c (raw_bytes priv) (ECDSAPrivateKeyImportOpts false)
                = Ok sk)
  /\ fallback_attempts (trace (BccspBackedSigner ext caFile keyFile policy csp))
     = (if returns_no_key (value (GetSignerFromCertFile ext caFile csp))
        then 1 else 0)%nat
  /\ (key_file_imports (trace (BccspBackedSigner ext caFile keyFile policy csp))
      <= (if returns_no_key (value (GetSignerFromCertFile ext caFile csp))
          then 1 else 0))%nat
  /\ (forall err,
         value (BccspBackedSigner ext caFile keyFile policy csp)
         = Returns (Err (key_file_error err keyFile))
         <-> returns_no_key (value (GetSignerFromCertFile ext caFile csp)) = true
             /\ value (ImportBCCSPKeyFromPEM ext keyFile csp false)
                = Returns (Err err))
  /\ (forall err,
         value (BccspBackedSigner ext caFile keyFile policy csp) = Returns (Err err) ->
         (exists e,
             returns_no_key (value (GetSignerFromCertFile ext caFile csp)) = true
             /\ value (ImportBCCSPKeyFromPEM ext keyFile csp false) = Returns (Err e)
             /\ err = key_file_error e keyFile)
         \/ (exists sk e,
                returns_no_key (value (GetSignerFromCertFile ext caFile csp)) = true
                /\ value (ImportBCCSPKeyFromPEM ext keyFile csp false)
                   = Returns (Ok sk)
                /\ cspsigner_New ext csp sk = Err e
                /\ err = errors_WithMessage e "Failed initializing CryptoSigner")
         \/ (exists s ca e,
                local_NewSigner ext (Some s) ca policy = Err e
                /\ err = errors_Wrap e "Failed to create new signer"))
  /\ (forall v,
         value (GetSignerFromCertFile ext caFile csp) = Panics v ->
         BccspBackedSigner ext caFile keyFile policy csp
         = (Panics v, trace (GetSignerFromCertFile ext caFile csp))).
Proof.
  pose proof (GetSignerFromCertFile_quiet caFile csp) as Hquiet.
  pose proof (GetSignerFromCertFile_no_key_file caFile csp) as Hquiet'.
  pose proof (ImportBCCSPKeyFromPEM_quiet keyFile csp false) as Hiquiet.
  pose proof (ImportBCCSPKeyFromPEM_calls keyFile csp false)
    as (imports & Hcalls & Himports).
  assert (Hstart : exists calls,
             trace (GetSignerFromCertFile ext caFile csp) = ev_ReadFile caFile :: calls).
  { unfold GetSignerFromCertFile. rewrite bind_call. eexists. reflexivity. }
  destruct Hstart as [calls Hstart].
  split; [|split; [|split; [|split; [|split; [|split; [|split]]]]]].
  - intros certBytes parsedCa c certPubK ski k s Hread Hparse Hc Himport Hski Hget
      Hprivate Hnew.
    pose proof (GetSignerFromCertFile_found caFile csp certBytes parsedCa c certPubK
                  ski k s Hread Hparse Hc Himport Hski Hget Hprivate Hnew) as Hfound.
    rewrite (BccspBackedSigner_after_key caFile keyFile policy csp (Some k) (Some s)
               (Some parsedCa)) by (rewrite Hfound; reflexivity).
    rewrite Hfound. reflexivity.
  - intros key s0 ca err0 Hprimary.
    destruct key as [k|].
    + left.
      destruct (GetSignerFromCertFile_key caFile csp k s0 ca err0 Hprimary)
        as (certBytes & parsedCa & c & certPubK & ski & s' & H).
      exists k, certBytes, parsedCa, c, certPubK, ski, s'. tauto.
    + right. split; [reflexivity|].
      destruct err0 as [err0|];
        [|exfalso;
          apply (proj1 (GetSignerFromCertFile_results caFile csp None s0 ca None
                          Hprimary)); reflexivity].
      exists calls, imports. split; [exact Hstart|]. split; [exact Himports|].
      rewrite (BccspBackedSigner_after_error caFile keyFile policy csp None s0 ca
                 err0 Hprimary), Hcalls, Hstart.
      reflexivity.
  - intros sk. apply ImportBCCSPKeyFromPEM_key.
  - destruct (value (GetSignerFromCertFile ext caFile csp))
      as [[[[key s0] ca] [err0|]]|v] eqn:Hprimary.
    + assert (key = None) as ->
        by (apply (GetSignerFromCertFile_results caFile csp key s0 ca _ Hprimary);
            discriminate).
      rewrite (BccspBackedSigner_after_error caFile keyFile policy csp None s0 ca
                 err0 Hprimary).
      cbn [trace snd returns_no_key].
      change (ev_Debugf fallback_notice :: ?t)
        with ([ev_Debugf (K:=K) fallback_notice] ++ t).
      rewrite !fallback_attempts_app, Hquiet, Hiquiet.
      destruct (value (ImportBCCSPKeyFromPEM ext keyFile csp false)) as [[sk|e]|v];
        [destruct (cspsigner_New ext csp sk)| |]; reflexivity.
    + destruct key as [k|];
        [|exfalso;
          apply (proj1 (GetSignerFromCertFile_results caFile csp None s0 ca None
                          Hprimary)); reflexivity].
      rewrite (BccspBackedSigner_after_key caFile keyFile policy csp (Some k) s0 ca
                 Hprimary).
      cbn [trace snd returns_no_key].
      rewrite fallback_attempts_app, Hquiet. reflexivity.
    + rewrite (BccspBackedSigner_after_panic caFile keyFile policy csp v Hprimary).
      exact Hquiet.
  - destruct (value (GetSignerFromCertFile ext caFile csp))
      as [[[[key s0] ca] [err0|]]|v] eqn:Hprimary.
    + assert (key = None) as ->
        by (apply (GetSignerFromCertFile_results caFile csp key s0 ca _ Hprimary);
            discriminate).
      rewrite (BccspBackedSigner_after_error caFile keyFile policy csp None s0 ca
                 err0 Hprimary), Hcalls.
      cbn [trace snd returns_no_key].
      rewrite key_file_imports_app, Hquiet'.
      destruct (value (ImportBCCSPKeyFromPEM ext keyFile csp false)) as [[sk|e]|v];
        [destruct (cspsigner_New ext csp sk)| |];
        destruct Himports as [->|[priv ->]]; vm_compute; lia.
    + destruct key as [k|];
        [|exfalso;
          apply (proj1 (GetSignerFromCertFile_results caFile csp None s0 ca None
                          Hprimary)); reflexivity].
      rewrite (BccspBackedSigner_after_key caFile keyFile policy csp (Some k) s0 ca
                 Hprimary).
      cbn [trace snd returns_no_key].
      rewrite key_file_imports_app, Hquiet'. vm_compute. lia.
    + rewrite (BccspBackedSigner_after_panic caFile keyFile policy csp v Hprimary).
      cbn [trace snd returns_no_key]. rewrite Hquiet'. lia.
  - intros err.
    destruct (value (GetSignerFromCertFile ext caFile csp))
      as [[[[key s0] ca] [err0|]]|v] eqn:Hprimary.
    + assert (key = None) as ->
        by (apply (GetSignerFromCertFile_results caFile csp key s0 ca _ Hprimary);
            discriminate).
      rewrite (BccspBackedSigner_after_error caFile keyFile policy csp None s0 ca
                 err0 Hprimary).
      cbn [value fst returns_no_key]. unfold key_file_error.
      destruct (value (ImportBCCSPKeyFromPEM ext keyFile csp false)) as [[sk|e]|v];
        [destruct (cspsigner_New ext csp sk) as [s|e];
         [destruct (local_NewSigner ext (Some s) ca policy)|]| |];
        (split; [|intros [_ [=]]; subst; reflexivity]);
        try discriminate.
      intros [= <-]. split; reflexivity.
    + destruct key as [k|];
        [|exfalso;
          apply (proj1 (GetSignerFromCertFile_results caFile csp None s0 ca None
                          Hprimary)); reflexivity].
      rewrite (BccspBackedSigner_after_key caFile keyFile policy csp (Some k) s0 ca
                 Hprimary).
      cbn [value fst returns_no_key]. unfold key_file_error.
      destruct (local_NewSigner ext s0 ca policy);
        (split; [discriminate | intros [? _]; discriminate]).
    + rewrite (BccspBackedSigner_after_panic caFile keyFile policy csp v Hprimary).
      cbn [value fst returns_no_key].
      split; [discriminate | intros [? _]; discriminate].
  - intros err.
    destruct (value (GetSignerFromCertFile ext caFile csp))
      as [[[[key s0] ca] [err0|]]|v] eqn:Hprimary.
    + assert (key = None) as ->
        by (apply (GetSignerFromCertFile_results caFile csp key s0 ca _ Hprimary);
            discriminate).
      rewrite (BccspBackedSigner_after_error caFile keyFile policy csp None s0 ca
                 err0 Hprimary).
      cbn [value fst returns_no_key].
      destruct (value (ImportBCCSPKeyFromPEM ext keyFile csp false)) as [[sk|e]|v];
        [destruct (cspsigner_New ext csp sk) as [s|e] eqn:Hnew;
         [destruct (local_NewSigner ext (Some s) ca policy) as [sg|e] eqn:Hlocal|]| |];
        try discriminate; intros [= <-].
      * right. right. exists s, ca, e. split; [exact Hlocal | reflexivity].
      * right. left. exists sk, e. repeat split; assumption.
      * left. exists e. repeat split.
    + destruct key as [k|];
        [|exfalso;
          apply (proj1 (GetSignerFromCertFile_results caFile csp None s0 ca None
                          Hprimary)); reflexivity].
      destruct (GetSignerFromCertFile_key caFile csp k s0 ca None Hprimary)
        as (certBytes & parsedCa & c & certPubK & ski & s' & _ & _ & _ & _ & _ & _
               & _ & _ & -> & _ & _).
      rewrite (BccspBackedSigner_after_key caFile keyFile policy csp (Some k)
                 (Some s') ca Hprimary).
      cbn [value fst].
      destruct (local_NewSigner ext (Some s') ca policy) as [sg|e] eqn:Hlocal;
        [discriminate|].
      intros [= <-]. right. right. exists s', ca, e.
      split; [exact Hlocal | reflexivity].
    + rewrite (BccspBackedSigner_after_panic caFile keyFile policy csp v Hprimary).
      discriminate.
  - intros v. apply BccspBackedSigner_after_panic.
Qed.
End signer_resolution.

(** ** PEM key import and the key-option table *)

Section key_import.
Context {K CryptoSigner Signer Policy : Type}.
Context `{!bccsp_Key K}.
Variable ext : Externals K CryptoSigner Signer Policy.

(** C7: when the key file decodes to an RSA private key,
    [ImportBCCSPKeyFromPEM] returns the error that names the file and
    states that RSA private key import is not supported, without a call
    to the key store; when it decodes to an ECDSA private key that
    converts to DER and that the key store accepts, the imported key is
    returned. *)
Theorem ImportBCCSPKeyFromPEM_rsa_rejected (keyFile : string)
    (myCSP : option (bccsp_BCCSP K)) (temporary : bool) (keyBuff : bytes) :
  ioutil_ReadFile ext keyFile = Ok keyBuff ->
  (forall key,
      utils_PEMtoPrivateKey ext keyBuff = Ok (key_rsa key) ->
      ImportBCCSPKeyFromPEM ext keyFile myCSP temporary
      = (Returns (Err (errors_New
                         ("Failed to import RSA key from " +:+ keyFile
                          +:+ "; RSA private key import is not supported"))),
         [ev_ReadFile keyFile]))
  /\ (forall key priv csp sk,
         utils_PEMtoPrivateKey ext keyBuff = Ok (key_ecdsa key) ->
         utils_PrivateKeyToDER ext key = Ok priv ->
         myCSP = Some csp ->
         KeyImport csp (raw_bytes priv) (ECDSAPrivateKeyImportOpts temporary) = Ok sk ->
         ImportBCCSPKeyFromPEM ext keyFile myCSP temporary
         = (Returns (Ok sk),
            [ev_ReadFile keyFile;
             ev_KeyImport (raw_bytes priv) (ECDSAPrivateKeyImportOpts temporary)])).
Proof.
  intros Hread. unfold ImportBCCSPKeyFromPEM. rewrite bind_call, Hread. split.
  - intros key ->. reflexivity.
  - intros key priv csp sk -> -> -> Himport.
    unfold csp_KeyImport. rewrite bind_call, Himport. reflexivity.
Qed.

(** C8: the key-option table.  No request gives the default ECDSA options;
    RSA takes the sizes 2048, 3072 and 4096 and ECDSA the sizes 256 and
    384, each with the caller's flag; ECDSA 521 is unsupported; any other
    size is invalid, with an error different from the one for 521; any
    other algorithm is invalid. *)
Theorem getBCCSPKeyOpts_table (ephemeral : bool) :
  value (getBCCSPKeyOpts (K:=K) None ephemeral)
  = Returns (Ok (ECDSAKeyGenOpts ephemeral))
  /\ value (getBCCSPKeyOpts (K:=K)
              (Some {| KeyRequest.A := "rsa"; KeyRequest.S := 2048 |}) ephemeral)
     = Returns (Ok (RSA2048KeyGenOpts ephemeral))
  /\ value (getBCCSPKeyOpts (K:=K)
              (Some {| KeyRequest.A := "rsa"; KeyRequest.S := 3072 |}) ephemeral)
     = Returns (Ok (RSA3072KeyGenOpts ephemeral))
  /\ value (getBCCSPKeyOpts (K:=K)
              (Some {| KeyRequest.A := "rsa"; KeyRequest.S := 4096 |}) ephemeral)
     = Returns (Ok (RSA4096KeyGenOpts ephemeral))
  /\ (forall size,
         size <> 2048 -> size <> 3072 -> size <> 4096 ->
         value (getBCCSPKeyOpts (K:=K)
                  (Some {| KeyRequest.A := "rsa"; KeyRequest.S := size |}) ephemeral)
         = Returns (Err (errors_New
                           ("Invalid RSA key size: " +:+ strconv_Itoa size))))
  /\ value (getBCCSPKeyOpts (K:=K)
              (Some {| KeyRequest.A := "ecdsa"; KeyRequest.S := 256 |}) ephemeral)
     = Returns (Ok (ECDSAP256KeyGenOpts ephemeral))
  /\ value (getBCCSPKeyOpts (K:=K)
              (Some {| KeyRequest.A := "ecdsa"; KeyRequest.S := 384 |}) ephemeral)
     = Returns (Ok (ECDSAP384KeyGenOpts ephemeral))
  /\ value (getBCCSPKeyOpts (K:=K)
              (Some {| KeyRequest.A := "ecdsa"; KeyRequest.S := 521 |}) ephemeral)
     = Returns (Err (errors_New "Unsupported ECDSA key size: 521"))
  /\ (forall size,
         size <> 256 -> size <> 384 -> size <> 521 ->
         value (getBCCSPKeyOpts (K:=K)
                  (Some {| KeyRequest.A := "ecdsa"; KeyRequest.S := size |}) ephemeral)
         = Returns (Err (errors_New
                           ("Invalid ECDSA key size: " +:+ strconv_Itoa size)))
         /\ errors_New ("Invalid ECDSA key size: " +:+ strconv_Itoa size)
            <> errors_New "Unsupported ECDSA key size: 521")
  /\ (forall algo size,
         algo <> "rsa" -> algo <> "ecdsa" ->
         value (getBCCSPKeyOpts (K:=K)
                  (Some {| KeyRequest.A := algo; KeyRequest.S := size |}) ephemeral)
         = Returns (Err (errors_New ("Invalid algorithm: " +:+ algo)))).
Proof.
  repeat split; try reflexivity.
  - intros size H1 H2 H3. unfold getBCCSPKeyOpts, log_Debugf.
    rewrite bind_call. cbn [KeyRequest.Algo KeyRequest.Size KeyRequest.A KeyRequest.S].
    rewrite decide_True by reflexivity.
    rewrite !decide_False by assumption. reflexivity.
  - unfold getBCCSPKeyOpts, log_Debugf.
    rewrite bind_call. cbn [KeyRequest.Algo KeyRequest.Size KeyRequest.A KeyRequest.S].
    rewrite decide_False by discriminate. rewrite decide_True by reflexivity.
    rewrite !decide_False by assumption. reflexivity.
  - cbn. discriminate.
  - intros algo size H1 H2. unfold getBCCSPKeyOpts, log_Debugf.
    rewrite bind_call. cbn [KeyRequest.Algo KeyRequest.Size KeyRequest.A KeyRequest.S].
    rewrite !decide_False by assumption. reflexivity.
Qed.
End key_import.

(** ** Loading a key pair *)

Lemma append_String (c : ascii) (s t : string) :
  String c s +:+ t = String c (s +:+ t).
Proof. reflexivity. Qed.

Lemma substring_0_length (s : string) :
  String.substring 0 (String.length s) s = s.
Proof. induction s as [|c s IH]; [reflexivity|]. simpl. f_equal. exact IH. Qed.

Lemma substring_append_r (prefix suffix : string) :
  String.substring (String.length prefix) (String.length suffix)
    (prefix +:+ suffix) = suffix.
Proof.
  induction prefix as [|c prefix IH]; [apply substring_0_length|].
  rewrite append_String. simpl. exact IH.
Qed.

Lemma string_length_append (s t : string) :
  String.length (s +:+ t) = (String.length s + String.length t)%nat.
Proof. induction s as [|c s IH]; [reflexivity|]. simpl. f_equal. exact IH. Qed.

Lemma substring_split (s : string) (n m : nat) :
  (n + m)%nat = String.length s ->
  s = String.substring 0 n s +:+ String.substring n m s.
Proof.
  revert s. induction n as [|n IH]; intros s Hlen.
  - simpl in Hlen. subst m.
    replace (String.substring 0 0 s) with EmptyString by (destruct s; reflexivity).
    simpl. symmetry. apply substring_0_length.
  - destruct s as [|c s]; [discriminate|].
    simpl. rewrite append_String. f_equal. apply IH. simpl in Hlen. lia.
Qed.

(** [strings_HasSuffix] holds exactly of the strings that end in the
    suffix. *)
Lemma strings_HasSuffix_spec (s suffix : string) :
  strings_HasSuffix s suffix = true <-> exists prefix, s = prefix +:+ suffix.
Proof.
  unfold strings_HasSuffix. rewrite andb_true_iff, !bool_decide_eq_true. split.
  - intros [Hlen Hsub].
    exists (String.substring 0 (String.length s - String.length suffix) s).
    rewrite (substring_split s (String.length s - String.length suffix)
               (String.length suffix)) at 1 by lia.
    rewrite Hsub. reflexivity.
  - intros [prefix ->]. rewrite string_length_append. split; [lia|].
    replace (String.length prefix + String.length suffix - String.length suffix)%nat
      with (String.length prefix) by lia.
    apply substring_append_r.
Qed.

Section key_pair.
Context {K CryptoSigner Signer Policy : Type}.
Context `{!bccsp_Key K}.
Variable ext : Externals K CryptoSigner Signer Policy.

(** A budget above the length of the input is as good as any other. *)
Lemma decode_loop_enough (budget budget' : nat) (data : bytes)
    (certs : list bytes) (skipped : list string) :
  (length data < budget)%nat -> (length data < budget')%nat ->
  decode_loop ext budget data certs skipped
  = decode_loop ext budget' data certs skipped.
Proof.
  revert budget' data certs skipped.
  induction budget as [|budget IH]; intros [|budget'] data certs skipped Hb Hb';
    try lia.
  cbn [decode_loop].
  destruct (pem_Decode ext data) as [[block rest]|] eqn:Hd; [|reflexivity].
  apply pem_Decode_rest in Hd.
  destruct (decide (Type_ block = "CERTIFICATE")); apply IH; lia.
Qed.

(** The loop equation of [LoadX509KeyPair]: decode a block, file it, and go
    on with the remainder until no block is found. *)
Lemma decode_blocks_eq (data : bytes) (certs : list bytes) (skipped : list string) :
  decode_blocks ext data certs skipped
  = match pem_Decode ext data with
    | None => (certs, skipped)
    | Some (block, rest) =>
        if decide (Type_ block = "CERTIFICATE")
        then decode_blocks ext rest (certs ++ [Bytes_ block]) skipped
        else decode_blocks ext rest certs (skipped ++ [Type_ block])
    end.
Proof.
  unfold decode_blocks at 1. cbn [decode_loop].
  destruct (pem_Decode ext data) as [[block rest]|] eqn:Hd; [|reflexivity].
  apply pem_Decode_rest in Hd. unfold decode_blocks.
  destruct (decide (Type_ block = "CERTIFICATE")); apply decode_loop_enough; lia.
Qed.

Lemma pem_blocks_loop_enough (budget budget' : nat) (data : bytes) :
  (length data < budget)%nat -> (length data < budget')%nat ->
  pem_blocks_loop ext budget data = pem_blocks_loop ext budget' data.
Proof.
  revert budget' data.
  induction budget as [|budget IH]; intros [|budget'] data Hb Hb'; try lia.
  cbn [pem_blocks_loop].
  destruct (pem_Decode ext data) as [[block rest]|] eqn:Hd; [|reflexivity].
  apply pem_Decode_rest in Hd. f_equal. apply IH; lia.
Qed.

Lemma pem_blocks_eq (data : bytes) :
  pem_blocks ext data
  = match pem_Decode ext data with
    | None => []
    | Some (block, rest) => block :: pem_blocks ext rest
    end.
Proof.
  unfold pem_blocks at 1. cbn [pem_blocks_loop].
  destruct (pem_Decode ext data) as [[block rest]|] eqn:Hd; [|reflexivity].
  apply pem_Decode_rest in Hd. unfold pem_blocks.
  f_equal. apply pem_blocks_loop_enough; lia.
Qed.

(** The loop files the certificate blocks and the types of the others. *)
Lemma decode_loop_blocks (budget : nat) (data : bytes)
    (certs : list bytes) (skipped : list string) :
  decode_loop ext budget data certs skipped
  = (certs ++ (Bytes_ <$> filter is_certificate_block (pem_blocks_loop ext budget data)),
     skipped ++ (Type_ <$> filter (fun b => ~ is_certificate_block b)
                             (pem_blocks_loop ext budget data))).
Proof.
  revert data certs skipped.
  induction budget as [|budget IH]; intros data certs skipped;
    cbn [decode_loop pem_blocks_loop].
  - rewrite !app_nil_r. reflexivity.
  - destruct (pem_Decode ext data) as [[block rest]|];
      [|rewrite !app_nil_r; reflexivity].
    rewrite !filter_cons.
    destruct (decide (Type_ block = "CERTIFICATE")) as [Hc|Hc].
    + rewrite decide_True by exact Hc.
      rewrite decide_False by (intros Hn; exact (Hn Hc)).
      rewrite IH, <- app_assoc. reflexivity.
    + rewrite decide_False by exact Hc.
      rewrite decide_True by exact Hc.
      rewrite IH, <- app_assoc. reflexivity.
Qed.

Lemma decode_blocks_without_certificate (data : bytes) :
  Forall (fun b => ~ is_certificate_block b) (pem_blocks ext data) ->
  decode_blocks ext data [] [] = ([], Type_ <$> pem_blocks ext data).
Proof.
  intros Hno. unfold decode_blocks. rewrite decode_loop_blocks.
  fold (pem_blocks ext data). cbn [app]. f_equal.
  - replace (filter is_certificate_block (pem_blocks ext data)) with (@nil pem_Block);
      [reflexivity|].
    symmetry. induction Hno as [|b l Hb _ IH]; [reflexivity|].
    rewrite filter_cons, decide_False by exact Hb. exact IH.
  - f_equal. induction Hno as [|b l Hb _ IH]; [reflexivity|].
    rewrite filter_cons, decide_True by exact Hb. f_equal. exact IH.
Qed.

(** C9: for a PEM bundle without a block of type CERTIFICATE,
    [LoadX509KeyPair] returns the error that the PEM inputs may have been
    switched when the bundle holds one block and the type of that block
    ends in PRIVATE KEY, and the error that lists the types of the blocks
    found when it holds other blocks. *)
Theorem LoadX509KeyPair_no_certificate (certFile keyFile : string)
    (csp : option (bccsp_BCCSP K)) (certPEMBlock : bytes) :
  ioutil_ReadFile ext certFile = Ok certPEMBlock ->
  Forall (fun b => ~ is_certificate_block b) (pem_blocks ext certPEMBlock) ->
  (forall type prefix,
      Type_ <$> pem_blocks ext certPEMBlock = [type] ->
      type = prefix +:+ "PRIVATE KEY" ->
      LoadX509KeyPair ext certFile keyFile csp
      = (Returns (Err (inputs_switched_error certFile)), [ev_ReadFile certFile]))
  /\ (Type_ <$> pem_blocks ext certPEMBlock <> [] ->
      (forall type prefix,
          Type_ <$> pem_blocks ext certPEMBlock = [type] ->
          type <> prefix +:+ "PRIVATE KEY") ->
      LoadX509KeyPair ext certFile keyFile csp
      = (Returns (Err (unexpected_blocks_error certFile
                         (Type_ <$> pem_blocks ext certPEMBlock))),
         [ev_ReadFile certFile])).
Proof.
  intros Hread Hno. unfold LoadX509KeyPair.
  rewrite bind_call, Hread, (decode_blocks_without_certificate _ Hno).
  cbn [length]. rewrite (decide_True (P := 0%nat = 0%nat)) by reflexivity.
  split.
  - intros type prefix -> Hsuffix.
    assert (Hs : strings_HasSuffix type "PRIVATE KEY" = true)
      by (apply strings_HasSuffix_spec; exists prefix; exact Hsuffix).
    cbn [length lookup list_lookup default].
    rewrite decide_False by discriminate.
    rewrite bool_decide_eq_true_2 by reflexivity.
    cbn [andb from_option id default]. rewrite Hs. reflexivity.
  - intros Hsome Hother.
    rewrite decide_False
      by (intros Hz; apply Hsome; destruct (Type_ <$> pem_blocks ext certPEMBlock);
          [reflexivity|discriminate]).
    destruct (Type_ <$> pem_blocks ext certPEMBlock) as [|type [|type' types]] eqn:Ht.
    + contradiction.
    + assert (Hs : strings_HasSuffix type "PRIVATE KEY" = false).
      { destruct (strings_HasSuffix type "PRIVATE KEY") eqn:Hs; [|reflexivity].
        apply strings_HasSuffix_spec in Hs as [prefix Hp].
        exfalso. exact (Hother type prefix eq_refl Hp). }
      cbn [length lookup list_lookup default from_option id].
      rewrite Hs, andb_false_r. reflexivity.
    + cbn [length]. rewrite bool_decide_eq_false_2 by discriminate. reflexivity.
Qed.
End key_pair.

(** ** Signer resolution in the small world *)

Section signers_in_the_world.
Local Existing Instance World.key_interface.
Local Existing Instance World.digest.

(** The private key of [ca.pem] is in the store: no fallback. *)
Example BccspBackedSigner_primary :
  BccspBackedSigner (World.externals true) "ca.pem" "rsa.key" tt (Some World.store)
  = (Returns (Ok tt),
     [ev_ReadFile "ca.pem";
      ev_KeyImport (raw_Certificate (World.certificate 1 [])) (X509PublicKeyImportOpts true);
      ev_GetKey [1];
      ev_cspsigner_New {| World.key_ski := [1]; World.key_private := true |};
      ev_local_NewSigner]).
Proof. vm_compute. reflexivity. Qed.

(** The store has only the public key of [public.pem]: the ECDSA key file
    is imported instead. *)
Example BccspBackedSigner_fallback_ecdsa :
  BccspBackedSigner (World.externals true) "public.pem" "ec.key" tt (Some World.store)
  = (Returns (Ok tt),
     [ev_ReadFile "public.pem";
      ev_KeyImport (raw_Certificate (World.certificate 2 [])) (X509PublicKeyImportOpts true);
      ev_GetKey [2];
      ev_Debugf "No key found in BCCSP keystore, attempting fallback";
      ev_ReadFile "ec.key";
      ev_KeyImport (raw_bytes [48; 5]) (ECDSAPrivateKeyImportOpts false);
      ev_cspsigner_New {| World.key_ski := [48; 5]; World.key_private := true |};
      ev_local_NewSigner]).
Proof. vm_compute. reflexivity. Qed.

(** With an RSA key file the fallback fails too, and the error names the
    key file. *)
Example BccspBackedSigner_fallback_rsa :
  value (BccspBackedSigner (World.externals true) "public.pem" "rsa.key" tt
           (Some World.store))
  = Returns (Err (key_file_error
                    (errors_New "Failed to import RSA key from rsa.key; RSA private key import is not supported")
                    "rsa.key"))
  /\ fallback_attempts
       (trace (BccspBackedSigner (World.externals true) "public.pem" "rsa.key" tt
                 (Some World.store))) = 1%nat.
Proof. split; vm_compute; reflexivity. Qed.

(** C4 at [ca.pem], where the primary step finds the key, and at
    [public.pem] with the RSA key file: one fallback, at most one key-file
    import, and the error that names the key file. *)
Lemma BccspBackedSigner_fallback_witness :
  BccspBackedSigner (World.externals true) "ca.pem" "rsa.key" tt (Some World.store)
  = (Returns (Ok tt),
     [ev_ReadFile "ca.pem";
      ev_KeyImport (raw_Certificate (World.certificate 1 []))
        (X509PublicKeyImportOpts true);
      ev_GetKey [1];
      ev_cspsigner_New {| World.key_ski := [1]; World.key_private := true |};
      ev_local_NewSigner])
  /\ fallback_attempts
       (trace (BccspBackedSigner (World.externals true) "public.pem" "rsa.key" tt
                 (Some World.store))) = 1%nat
  /\ (key_file_imports
        (trace (BccspBackedSigner (World.externals true) "public.pem" "rsa.key" tt
                  (Some World.store))) <= 1)%nat
  /\ value (BccspBackedSigner (World.externals true) "public.pem" "rsa.key" tt
              (Some World.store))
     = Returns (Err (key_file_error
                       (errors_New "Failed to import RSA key from rsa.key; RSA private key import is not supported")
                       "rsa.key")).
Proof.
  split.
  - apply (proj1 (BccspBackedSigner_fallback (World.externals true) "ca.pem"
                    "rsa.key" tt (Some World.store))
             [1] (World.certificate 1 []) World.store
             {| World.key_ski := [1]; World.key_private := false |} [1]
             {| World.key_ski := [1]; World.key_private := true |}
             {| World.key_ski := [1]; World.key_private := true |});
      reflexivity.
  - destruct (BccspBackedSigner_fallback (World.externals true) "public.pem"
                "rsa.key" tt (Some World.store))
      as (_ & _ & _ & Hcount & Himports & Herror & _).
    split; [exact Hcount|]. split; [exact Himports|].
    apply Herror. split; reflexivity.
Defined.

(** C4 fails as stated: with a signing policy that [local.NewSigner]
    refuses, an error is returned although the primary step found the key
    and the fallback was not entered, and although the fallback was entered
    and imported the key file. *)
Lemma BccspBackedSigner_error_without_failed_fallback :
  BccspBackedSigner Annex.checked_externals "ca.pem" "ec.key" false
    (Some World.store)
  = (Returns (Err (errors_Wrap (errors_New "invalid policy")
                     "Failed to create new signer")),
     [ev_ReadFile "ca.pem";
      ev_KeyImport (raw_Certificate (World.certificate 1 []))
        (X509PublicKeyImportOpts true);
      ev_GetKey [1];
      ev_cspsigner_New {| World.key_ski := [1]; World.key_private := true |};
      ev_local_NewSigner])
  /\ value (ImportBCCSPKeyFromPEM Annex.checked_externals "ec.key"
              (Some World.store) false)
     = Returns (Ok {| World.key_ski := [48; 5]; World.key_private := true |})
  /\ BccspBackedSigner Annex.checked_externals "public.pem" "ec.key" false
       (Some World.store)
     = (Returns (Err (errors_Wrap (errors_New "invalid policy")
                        "Failed to create new signer")),
        [ev_ReadFile "public.pem";
         ev_KeyImport (raw_Certificate (World.certificate 2 []))
           (X509PublicKeyImportOpts true);
         ev_GetKey [2];
         ev_Debugf "No key found in BCCSP keystore, attempting fallback";
         ev_ReadFile "ec.key";
         ev_KeyImport (raw_bytes [48; 5]) (ECDSAPrivateKeyImportOpts false);
         ev_cspsigner_New {| World.key_ski := [48; 5]; World.key_private := true |};
         ev_local_NewSigner]).
Proof. repeat split; vm_compute; reflexivity. Qed.

(** C5 at the certificate of [public.pem]. *)
Lemma GetSignerFromCert_private_only_witness :
  GetSignerFromCert (World.externals true) (World.certificate 2 []) (Some World.store)
  = (Returns (None, None,
              Some (errors_New
                      "The private key associated with the certificate with SKI '02' was not found")),
     [ev_KeyImport (raw_Certificate (World.certificate 2 [])) (X509PublicKeyImportOpts true);
      ev_GetKey [2]]).
Proof.
  apply (proj1 (GetSignerFromCert_private_only (World.externals true)
                  (World.certificate 2 []) (Some World.store))
           World.store
           {| World.key_ski := [2]; World.key_private := false |} [2]
           {| World.key_ski := [2]; World.key_private := false |});
    reflexivity.
Defined.

(** C7 at the key files [rsa.key] and [ec.key]. *)
Lemma ImportBCCSPKeyFromPEM_rsa_rejected_witness :
  ImportBCCSPKeyFromPEM (World.externals true) "rsa.key" (Some World.store) false
  = (Returns (Err (errors_New
                     "Failed to import RSA key from rsa.key; RSA private key import is not supported")),
     [ev_ReadFile "rsa.key"])
  /\ ImportBCCSPKeyFromPEM (World.externals true) "ec.key" (Some World.store) false
     = (Returns (Ok {| World.key_ski := [48; 5]; World.key_private := true |}),
        [ev_ReadFile "ec.key";
         ev_KeyImport (raw_bytes [48; 5]) (ECDSAPrivateKeyImportOpts false)]).
Proof.
  split.
  - apply (proj1 (ImportBCCSPKeyFromPEM_rsa_rejected (World.externals true)
                    "rsa.key" (Some World.store) false [21] eq_refl)
             {| rsa_N := 3233; rsa_E := 17; rsa_D := 2753; rsa_Primes := [61; 53] |}).
    reflexivity.
  - apply (proj2 (ImportBCCSPKeyFromPEM_rsa_rejected (World.externals true)
                    "ec.key" (Some World.store) false [20] eq_refl)
             {| ecdsa_Curve := "P-256"; ecdsa_X := 2; ecdsa_Y := 3; ecdsa_D := 5 |}
             [48; 5] World.store);
      reflexivity.
Defined.

(** C8 at the sizes and the algorithm that the table does not list. *)
Lemma getBCCSPKeyOpts_table_witness :
  value (getBCCSPKeyOpts (K:=World.key)
           (Some {| KeyRequest.A := "rsa"; KeyRequest.S := 1024 |}) true)
  = Returns (Err (errors_New "Invalid RSA key size: 1024"))
  /\ value (getBCCSPKeyOpts (K:=World.key)
              (Some {| KeyRequest.A := "ecdsa"; KeyRequest.S := 1234 |}) true)
     = Returns (Err (errors_New "Invalid ECDSA key size: 1234"))
  /\ value (getBCCSPKeyOpts (K:=World.key)
              (Some {| KeyRequest.A := "dsa"; KeyRequest.S := 2048 |}) true)
     = Returns (Err (errors_New "Invalid algorithm: dsa")).
Proof.
  destruct (getBCCSPKeyOpts_table (K:=World.key) true)
    as (_ & _ & _ & _ & Hrsa & _ & _ & _ & Hecdsa & Halgo).
  split; [|split].
  - apply (Hrsa 1024); lia.
  - apply (Hecdsa 1234); lia.
  - apply (Halgo "dsa" 2048); discriminate.
Defined.

(** C9 at a bundle that holds one private key, and at a bundle that holds
    two revocation lists. *)
Lemma LoadX509KeyPair_no_certificate_witness :
  LoadX509KeyPair (World.externals true) "swapped.pem" "ec.key" (Some World.store)
  = (Returns (Err (inputs_switched_error "swapped.pem")), [ev_ReadFile "swapped.pem"])
  /\ LoadX509KeyPair (World.externals true) "crl.pem" "ec.key" (Some World.store)
     = (Returns (Err (unexpected_blocks_error "crl.pem" ["X509 CRL"; "X509 CRL"])),
        [ev_ReadFile "crl.pem"]).
Proof.
  split.
  - apply (proj1 (LoadX509KeyPair_no_certificate (World.externals true)
                    "swapped.pem" "ec.key" (Some World.store) [20] eq_refl
                    ltac:(apply (bool_decide_unpack _); vm_compute; exact I))
             "EC PRIVATE KEY" "EC "); reflexivity.
  - apply (proj2 (LoadX509KeyPair_no_certificate (World.externals true)
                    "crl.pem" "ec.key" (Some World.store) [30; 31] eq_refl
                    ltac:(apply (bool_decide_unpack _); vm_compute; exact I))).
    + discriminate.
    + intros type prefix Ht. discriminate Ht.
Defined.

(** What the listing error reads for the two revocation lists. *)
Example unexpected_blocks_error_text :
  Error (unexpected_blocks_error "crl.pem" ["X509 CRL"; "X509 CRL"])
  = "Failed to find " +:+ quote +:+ "CERTIFICATE" +:+ quote
    +:+ " PEM block in file crl.pem after skipping PEM blocks of the following types: [X509 CRL X509 CRL]".
Proof. vm_compute. reflexivity. Qed.
End signers_in_the_world.

(** * Further properties *)

(** ** The public counterparts of the wrappers *)

Section public_counterparts.
Context {cpabe_Key cpabe_MasterKey cpabe_Params : Type}.
Context `{!proto_Message cpabe_Key, !proto_Message cpabe_MasterKey,
          !proto_Message cpabe_Params, !crypto_sha256,
          !cpabe_Param cpabe_Key cpabe_Params,
          !cpabe_Param cpabe_MasterKey cpabe_Params}.

(** The public counterpart of a wrapper is a [cpabeParams]. *)
Lemma PublicKey_is_params (k p : sw_Key cpabe_Key cpabe_MasterKey cpabe_Params) :
  PublicKey k = Returns (Ok p) -> exists q, p = sw_params q.
Proof.
  destruct k as [[[key|]]|[[key|]]|q]; cbn; try discriminate;
    intros [= <-]; eexists; reflexivity.
Qed.

(** X1: whatever wrapper a key is, the public counterpart it returns is a
    [cpabeParams]; that one is its own public counterpart, and it is
    neither private nor symmetric. *)
Theorem PublicKey_of_wrapper (k p : sw_Key cpabe_Key cpabe_MasterKey cpabe_Params) :
  PublicKey k = Returns (Ok p) ->
  (exists q, p = sw_params q)
  /\ PublicKey p = Returns (Ok p)
  /\ Private p = false
  /\ Symmetric p = false.
Proof.
  destruct k as [[[key|]]|[[key|]]|q]; cbn; try discriminate;
    intros [= <-]; repeat split; eexists; reflexivity.
Qed.

(** X2: the public counterpart of a wrapper never yields a digest as its
    identifier: [SKI] returns the empty identifier when the Params are
    unset, and does not return otherwise. *)
Theorem public_counterpart_has_no_digest
    (k p : sw_Key cpabe_Key cpabe_MasterKey cpabe_Params) (ski : bytes) :
  PublicKey k = Returns (Ok p) ->
  SKI p = Returns ski ->
  ski = [].
Proof.
  intros Hp. destruct (PublicKey_is_params k p Hp) as [[[q|]] ->].
  - cbn [SKI sw_Key_Key]. rewrite cpabeParams_SKI_set. discriminate.
  - cbn. intros [= <-]. reflexivity.
Qed.
End public_counterparts.

(** ** The hexadecimal form of an identifier or of the Params *)

Lemma append_EmptyString (s : string) : EmptyString +:+ s = s.
Proof. reflexivity. Qed.

Lemma hex_digit_char (n : Z) :
  0 <= n < 16 -> exists c, hex_digit n = String c EmptyString.
Proof.
  intros Hn. unfold hex_digit.
  assert (Hlt : (Z.to_nat n < 16)%nat) by lia.
  revert Hlt. generalize (Z.to_nat n). clear. intros a Ha.
  do 16 (destruct a as [|a]; [eexists; reflexivity|]).
  lia.
Qed.

Lemma hex_digit_inj (m n : Z) :
  0 <= m < 16 -> 0 <= n < 16 -> hex_digit m = hex_digit n -> m = n.
Proof.
  intros Hm Hn Heq.
  assert (Hnat : Z.to_nat m = Z.to_nat n); [|lia].
  assert (Hm' : (Z.to_nat m < 16)%nat) by lia.
  assert (Hn' : (Z.to_nat n < 16)%nat) by lia.
  unfold hex_digit in Heq.
  revert Hm' Hn' Heq. generalize (Z.to_nat m) (Z.to_nat n). clear.
  intros a b Ha Hb.
  do 16 (destruct a as [|a];
         [do 16 (destruct b as [|b];
                 [intros Heq;
                  first [reflexivity | vm_compute in Heq; discriminate Heq]|]);
          lia|]).
  lia.
Qed.

Lemma byte_nibbles (v : Z) :
  is_byte v ->
  0 <= Z.shiftr v 4 < 16 /\ 0 <= Z.land v 15 < 16
  /\ v = 16 * Z.shiftr v 4 + Z.land v 15.
Proof.
  unfold is_byte. intros Hv.
  rewrite Z.shiftr_div_pow2 by lia.
  change 15 with (Z.ones 4). rewrite Z.land_ones by lia.
  change (2 ^ 4) with 16.
  pose proof (Z.div_mod v 16 ltac:(lia)).
  pose proof (Z.mod_pos_bound v 16 ltac:(lia)).
  assert (0 <= v / 16 < 16)
    by (split; [apply Z.div_pos; lia | apply Z.div_lt_upper_bound; lia]).
  lia.
Qed.

(** X3: on byte strings, [hex.EncodeToString] doubles the length and loses
    nothing: different byte strings have different hexadecimal forms. *)
Theorem hex_EncodeToString_faithful (src1 src2 : bytes) :
  Forall is_byte src1 -> Forall is_byte src2 ->
  String.length (hex_EncodeToString src1) = (2 * length src1)%nat
  /\ (hex_EncodeToString src1 = hex_EncodeToString src2 -> src1 = src2).
Proof.
  intros H1. revert src2. induction H1 as [|v1 src1 Hv1 _ IH]; intros src2 H2.
  - split; [reflexivity|].
    destruct H2 as [|v2 src2 Hv2 _]; [reflexivity|].
    destruct (byte_nibbles v2 Hv2) as (Hh & _ & _).
    destruct (hex_digit_char _ Hh) as [c Hc].
    cbn [hex_EncodeToString]. rewrite Hc, append_String. discriminate.
  - destruct (byte_nibbles v1 Hv1) as (Hh1 & Hl1 & Hv1').
    destruct (hex_digit_char _ Hh1) as [c1 Hc1].
    destruct (hex_digit_char _ Hl1) as [d1 Hd1].
    cbn [hex_EncodeToString]. rewrite Hc1, Hd1.
    repeat (rewrite append_String || rewrite append_EmptyString).
    split.
    + cbn [String.length length]. rewrite (proj1 (IH [] (Forall_nil_2 _))). lia.
    + destruct H2 as [|v2 src2 Hv2 H2]; [discriminate|].
      destruct (byte_nibbles v2 Hv2) as (Hh2 & Hl2 & Hv2').
      destruct (hex_digit_char _ Hh2) as [c2 Hc2].
      destruct (hex_digit_char _ Hl2) as [d2 Hd2].
      cbn [hex_EncodeToString]. rewrite Hc2, Hd2.
      repeat (rewrite append_String || rewrite append_EmptyString).
      intros [= -> -> Hrest].
      rewrite <- Hc2 in Hc1. rewrite <- Hd2 in Hd1.
      apply hex_digit_inj in Hc1; [|assumption..].
      apply hex_digit_inj in Hd1; [|assumption..].
      f_equal; [lia|]. apply (proj2 (IH src2 H2)), Hrest.
Qed.

(** ** The store loop and its bounds *)

Lemma PutUint32_length (b b' : bytes) (off : nat) (v : Z) :
  binary_BigEndian_PutUint32 b off v = Returns b' -> length b' = length b.
Proof.
  unfold binary_BigEndian_PutUint32. repeat case_decide; try discriminate.
  intros [= <-]. rewrite !length_insert. reflexivity.
Qed.

Lemma put_attributes_in_place (done mid rest : bytes) (i : nat)
    (attributeID : list Z) :
  length done = (4 * i)%nat ->
  length mid = (4 * length attributeID)%nat ->
  put_attributes (done ++ mid ++ rest) i attributeID
  = Returns (done ++ concat (big_endian_4 <$> attributeID) ++ rest).
Proof.
  revert done mid i.
  induction attributeID as [|attr ids IH]; intros done mid i Hdone Hmid.
  - destruct mid; [reflexivity|discriminate].
  - destruct mid as [|x0 [|x1 [|x2 [|x3 mid]]]]; try (simpl in Hmid; lia).
    cbn [put_attributes app].
    change (x0 :: x1 :: x2 :: x3 :: mid ++ rest)
      with (x0 :: x1 :: x2 :: x3 :: (mid ++ rest)).
    rewrite PutUint32_in_place by (rewrite Nat.shiftl_mul_pow2; simpl; lia).
    rewrite stored_bytes_big_endian, (app_assoc done).
    rewrite IH; [|rewrite length_app, big_endian_4_length; lia | simpl in Hmid; lia].
    cbn [fmap list_fmap concat]. rewrite <- !app_assoc. reflexivity.
Qed.

Lemma put_attributes_short (buf : bytes) (i : nat) (attributeID : list Z) :
  attributeID <> [] ->
  (length buf < 4 * (i + length attributeID))%nat ->
  exists v, put_attributes buf i attributeID = Panics v.
Proof.
  revert buf i. induction attributeID as [|attr ids IH]; intros buf i Hne Hlen;
    [contradiction|].
  cbn [put_attributes].
  destruct (binary_BigEndian_PutUint32 buf (Nat.shiftl i 2) (uint32 attr))
    as [buf'|v] eqn:Hput; [|eexists; reflexivity].
  pose proof (PutUint32_length _ _ _ _ Hput) as Hlen'.
  unfold binary_BigEndian_PutUint32 in Hput.
  rewrite Nat.shiftl_mul_pow2 in Hput. change (2 ^ 2)%nat with 4%nat in Hput.
  repeat case_decide; try discriminate.
  destruct ids as [|attr' ids]; [simpl in Hlen; lia|].
  apply IH; [discriminate|]. rewrite Hlen'. simpl in *. lia.
Qed.

(** X4: the loop that stores the AttributeIDs writes the big-endian bytes of
    the [n] AttributeIDs over the [4n] bytes that start at offset [4i] and
    leaves every other byte of the buffer as it was; when the buffer is too
    short for them it panics instead of writing past the end. *)
Theorem put_attributes_room (i : nat) (attributeID : list Z) :
  (forall done mid rest,
      length done = (4 * i)%nat ->
      length mid = (4 * length attributeID)%nat ->
      put_attributes (done ++ mid ++ rest) i attributeID
      = Returns (done ++ concat (big_endian_4 <$> attributeID) ++ rest))
  /\ (forall buf,
         attributeID <> [] ->
         (length buf < 4 * (i + length attributeID))%nat ->
         exists v, put_attributes buf i attributeID = Panics v).
Proof.
  split.
  - intros done mid rest. apply put_attributes_in_place.
  - intros buf. apply put_attributes_short.
Qed.

(** ** More on signer resolution *)

Section signer_resolution_more.
Context {K CryptoSigner Signer Policy : Type}.
Context `{!bccsp_Key K}.
Variable ext : Externals K CryptoSigner Signer Policy.

(** X5: [GetSignerFromCert] returns all or nothing: either a private key
    with the signer [cspsigner.New] built for it and a nil error, or an
    error with a nil key and a nil signer. *)
Theorem GetSignerFromCert_all_or_nothing (cert : x509_Certificate)
    (csp : option (bccsp_BCCSP K)) (key : option K)
    (signer : option CryptoSigner) (err : option error) :
  value (GetSignerFromCert ext cert csp) = Returns (key, signer, err) ->
  (err = None
   /\ exists k s,
       key = Some k /\ signer = Some s /\ Private k = true
       /\ cspsigner_New ext csp k = Ok s)
  \/ (key = None /\ signer = None /\ exists e, err = Some e).
Proof.
  unfold GetSignerFromCert, csp_KeyImport, csp_GetKey. run;
    intros [= <- <- <-];
    try (right; repeat split; eexists; reflexivity).
  left. split; [reflexivity|].
  match goal with H : negb _ = false |- _ => apply negb_false_iff in H end.
  eexists _, _. repeat split; eassumption.
Qed.

(** X6: the only import [GetSignerFromCert] asks of the key store is that
    of the certificate's public key, marked temporary; the only key it
    fetches is the one named by the identifier of that imported key; and
    it makes each of the two calls at most once. *)
Theorem GetSignerFromCert_store_calls (cert : x509_Certificate)
    (csp : option (bccsp_BCCSP K)) :
  (forall raw opts,
      ev_KeyImport raw opts ∈ trace (GetSignerFromCert ext cert csp) ->
      raw = raw_Certificate cert /\ opts = X509PublicKeyImportOpts true)
  /\ (forall ski,
         ev_GetKey ski ∈ trace (GetSignerFromCert ext cert csp) ->
         exists c certPubK,
           csp = Some c
           /\ KeyImport c (raw_Certificate cert) (X509PublicKeyImportOpts true)
              = Ok certPubK
           /\ SKI certPubK = Returns ski)
  /\ (length (filter (fun e => is_KeyImport e)
                (trace (GetSignerFromCert ext cert csp))) <= 1)%nat
  /\ (length (filter (fun e => is_GetKey e)
                (trace (GetSignerFromCert ext cert csp))) <= 1)%nat.
Proof.
  unfold GetSignerFromCert, csp_KeyImport, csp_GetKey.
  split; [|split; [|split]].
  - intros raw opts. run; intros Hin;
      repeat (apply elem_of_cons in Hin as [Hin|Hin]; [try discriminate|]);
      try (inversion Hin; fail);
      injection Hin as -> ->; split; reflexivity.
  - intros ski. run; intros Hin;
      repeat (apply elem_of_cons in Hin as [Hin|Hin]; [try discriminate|]);
      try (inversion Hin; fail);
      injection Hin as ->; eexists _, _; repeat split; eassumption.
  - run; vm_compute; lia.
  - run; vm_compute; lia.
Qed.

(** X7: [GetSignerFromCertFile] hands back the parsed certificate whenever
    the file was read and parsed, whether or not a signer could be found
    for it; it hands back none only when reading or parsing failed, and
    then it reports an error and has not called the key store. *)
Theorem GetSignerFromCertFile_certificate (certFile : string)
    (csp : option (bccsp_BCCSP K)) (key : option K)
    (signer : option CryptoSigner) (ca : option x509_Certificate)
    (err : option error) :
  value (GetSignerFromCertFile ext certFile csp) = Returns (key, signer, ca, err) ->
  match ca with
  | Some parsedCa =>
      exists certBytes,
        ioutil_ReadFile ext certFile = Ok certBytes
        /\ helpers_ParseCertificatePEM ext certBytes = Ok parsedCa
  | None =>
      err <> None
      /\ trace (GetSignerFromCertFile ext certFile csp) = [ev_ReadFile certFile]
      /\ ((exists e, ioutil_ReadFile ext certFile = Err e)
          \/ (exists certBytes e,
                 ioutil_ReadFile ext certFile = Ok certBytes
                 /\ helpers_ParseCertificatePEM ext certBytes = Err e))
  end.
Proof.
  unfold GetSignerFromCertFile. rewrite bind_call.
  destruct (ioutil_ReadFile ext certFile) as [certBytes|e] eqn:Hread.
  - destruct (helpers_ParseCertificatePEM ext certBytes) as [parsedCa|e] eqn:Hparse.
    + rewrite (M_eta (GetSignerFromCert ext parsedCa csp)).
      destruct (value (GetSignerFromCert ext parsedCa csp)) as [[[k s] e]|v];
        [|discriminate].
      rewrite bind_Returns. cbn [value fst mret M_ret].
      intros [= <- <- <- <-]. exists certBytes. split; [reflexivity|assumption].
    + cbn [value trace fst snd mret M_ret]. intros [= <- <- <- <-].
      split; [discriminate|]. split; [reflexivity|].
      right. exists certBytes, e. split; [reflexivity|assumption].
  - cbn [value trace fst snd mret M_ret]. intros [= <- <- <- <-].
    split; [discriminate|]. split; [reflexivity|].
    left. exists e. reflexivity.
Qed.

(** X8: when the CA certificate cannot be read or parsed, the fallback is
    still taken; if the key file imports and a signer can be built for the
    imported key, [local.NewSigner] is called with that signer and a nil
    certificate, and its answer is the result. *)
Theorem BccspBackedSigner_without_certificate (caFile keyFile : string)
    (policy : Policy) (csp : option (bccsp_BCCSP K)) (sk : K)
    (signer : CryptoSigner) :
  (exists e, ioutil_ReadFile ext caFile = Err e)
  \/ (exists certBytes e,
         ioutil_ReadFile ext caFile = Ok certBytes
         /\ helpers_ParseCertificatePEM ext certBytes = Err e) ->
  value (ImportBCCSPKeyFromPEM ext keyFile csp false) = Returns (Ok sk) ->
  cspsigner_New ext csp sk = Ok signer ->
  BccspBackedSigner ext caFile keyFile policy csp
  = (Returns (match local_NewSigner ext (Some signer) None policy with
              | Ok s => Ok s
              | Err err => Err (errors_Wrap err "Failed to create new signer")
              end),
     ev_ReadFile caFile
       :: ev_Debugf fallback_notice
       :: trace (ImportBCCSPKeyFromPEM ext keyFile csp false)
       ++ [ev_cspsigner_New sk; ev_local_NewSigner]).
Proof.
  intros Hca Himport Hsigner.
  unfold BccspBackedSigner, BccspBackedSigner_finish, GetSignerFromCertFile,
    log_Debugf.
  rewrite (M_eta (ImportBCCSPKeyFromPEM ext keyFile csp false)), Himport.
  assert (Hprimary :
            (call (ev_ReadFile caFile) (ioutil_ReadFile ext caFile) ≫= fun r =>
             match r with
             | Ok certBytes =>
                 match helpers_ParseCertificatePEM ext certBytes with
                 | Ok parsedCa =>
                     GetSignerFromCert ext parsedCa csp ≫= fun '(key, cspSigner, err) =>
                     mret (key, cspSigner, Some parsedCa, err)
                 | Err err => mret (None, None, None, Some err)
                 end
             | Err err =>
                 mret (None, None, None,
                       Some (errors_Wrap err
                               ("Could not read certFile '" +:+ caFile +:+ "'")))
             end)
            = (Returns (None, None, None,
                        Some (match ioutil_ReadFile ext caFile with
                              | Ok certBytes =>
                                  match helpers_ParseCertificatePEM ext certBytes with
                                  | Ok _ => errors_New EmptyString
                                  | Err err => err
                                  end
                              | Err err =>
                                  errors_Wrap err
                                    ("Could not read certFile '" +:+ caFile +:+ "'")
                              end)),
               [ev_ReadFile caFile])).
  { rewrite bind_call.
    destruct Hca as [[e ->]|(certBytes & e & -> & ->)]; reflexivity. }
  rewrite Hprimary, bind_Returns. cbn [value trace fst snd].
  rewrite bind_call, bind_Returns. cbn [value trace fst snd].
  rewrite bind_call, Hsigner. cbn [value trace fst snd].
  rewrite bind_call.
  destruct (local_NewSigner ext (Some signer) None policy); reflexivity.
Qed.

(** X9: every signer [BccspBackedSigner] returns is the one
    [local.NewSigner] answered with for a signer of the key store; that
    call is the last of the run and is made once. *)
Theorem BccspBackedSigner_success (caFile keyFile : string) (policy : Policy)
    (csp : option (bccsp_BCCSP K)) (s : Signer) :
  value (BccspBackedSigner ext caFile keyFile policy csp) = Returns (Ok s) ->
  (exists cspSigner parsedCa,
      local_NewSigner ext (Some cspSigner) parsedCa policy = Ok s)
  /\ last (trace (BccspBackedSigner ext caFile keyFile policy csp))
     = Some ev_local_NewSigner
  /\ length (filter (fun e => is_local_NewSigner e)
               (trace (BccspBackedSigner ext caFile keyFile policy csp))) = 1%nat.
Proof.
  unfold BccspBackedSigner, BccspBackedSigner_finish, GetSignerFromCertFile,
    GetSignerFromCert, ImportBCCSPKeyFromPEM, csp_KeyImport, csp_GetKey.
  run; intros [= <-];
    (split; [eexists _, _; eassumption|]);
    split; vm_compute; reflexivity.
Qed.

(** X10: the imports [BccspBackedSigner] asks of the key store are the
    temporary import of the certificate's public key and, in the fallback
    only, the import of the key file's ECDSA key, which is not marked
    temporary. *)
Theorem BccspBackedSigner_imports (caFile keyFile : string) (policy : Policy)
    (csp : option (bccsp_BCCSP K)) (raw : import_raw)
    (opts : bccsp_KeyImportOpts) :
  ev_KeyImport raw opts ∈ trace (BccspBackedSigner ext caFile keyFile policy csp) ->
  (opts = X509PublicKeyImportOpts true /\ exists cert, raw = raw_Certificate cert)
  \/ (opts = ECDSAPrivateKeyImportOpts false
      /\ (exists priv, raw = raw_bytes priv)
      /\ fallback_attempts
           (trace (BccspBackedSigner ext caFile keyFile policy csp)) = 1%nat).
Proof.
  unfold BccspBackedSigner, BccspBackedSigner_finish, GetSignerFromCertFile,
    GetSignerFromCert, ImportBCCSPKeyFromPEM, csp_KeyImport, csp_GetKey.
  run; intros Hin;
    repeat (apply elem_of_cons in Hin as [Hin|Hin]; [try discriminate|]);
    try (inversion Hin; fail);
    injection Hin as -> ->;
    first [ left; split; [reflexivity|eexists; reflexivity]
          | right; split; [reflexivity|]; split;
            [eexists; reflexivity | vm_compute; reflexivity] ].
Qed.

(** X11: [ImportBCCSPKeyFromPEM] returns a key exactly when the key file is
    read, decodes to an ECDSA private key that converts to DER, and the key
    store imports these DER bytes with the caller's temporary flag; it
    calls the key store for nothing else. *)
Theorem ImportBCCSPKeyFromPEM_success (keyFile : string)
    (myCSP : option (bccsp_BCCSP K)) (temporary : bool) (sk : K) :
  (value (ImportBCCSPKeyFromPEM ext keyFile myCSP temporary) = Returns (Ok sk)
   <-> exists csp keyBuff key priv,
       myCSP = Some csp
       /\ ioutil_ReadFile ext keyFile = Ok keyBuff
       /\ utils_PEMtoPrivateKey ext keyBuff = Ok (key_ecdsa key)
       /\ utils_PrivateKeyToDER ext key = Ok priv
       /\ KeyImport csp (raw_bytes priv) (ECDSAPrivateKeyImportOpts temporary)
          = Ok sk)
  /\ (forall e,
         e ∈ trace (ImportBCCSPKeyFromPEM ext keyFile myCSP temporary) ->
         e = ev_ReadFile keyFile
         \/ exists keyBuff key priv,
             ioutil_ReadFile ext keyFile = Ok keyBuff
             /\ utils_PEMtoPrivateKey ext keyBuff = Ok (key_ecdsa key)
             /\ utils_PrivateKeyToDER ext key = Ok priv
             /\ e = ev_KeyImport (raw_bytes priv)
                      (ECDSAPrivateKeyImportOpts temporary)).
Proof.
  split; [split|].
  - unfold ImportBCCSPKeyFromPEM, csp_KeyImport. run; intros [= <-].
    eexists _, _, _, _. repeat split; eassumption.
  - intros (csp & keyBuff & key & priv & -> & Hread & Hpem & Hder & Himport).
    unfold ImportBCCSPKeyFromPEM, csp_KeyImport.
    rewrite bind_call, Hread, Hpem, Hder, bind_call, Himport. reflexivity.
  - intros e. unfold ImportBCCSPKeyFromPEM, csp_KeyImport. run; intros Hin;
      repeat (apply elem_of_cons in Hin as [->|Hin]; [|]);
      try (inversion Hin; fail);
      first [ left; reflexivity
            | right; eexists _, _, _; repeat split; eassumption ].
Qed.
End signer_resolution_more.

(** ** More on attribute-key lookup *)

Section attribute_key_lookup_more.
Context {K CryptoSigner Signer Policy : Type}.
Context `{!bccsp_Key K, !crypto_sha256}.
Variable ext : Externals K CryptoSigner Signer Policy.

(** Of several Params extensions the last one counts. *)
Lemma scan_params_last (pre post : list pkix_Extension) (pe : pkix_Extension)
    (paramsBytes : option bytes) :
  is_params_extension pe ->
  Forall (fun e => ~ is_params_extension e) post ->
  scan_params (pre ++ pe :: post) paramsBytes = Some (Value pe).
Proof.
  intros Hpe Hpost. revert paramsBytes.
  induction pre as [|e pre IH]; intros pb; cbn [app scan_params].
  - rewrite decide_True by exact Hpe. apply scan_params_absent, Hpost.
  - apply IH.
Qed.

(** X12: [BccspBackedCPABEParams] imports the value of the last Params
    extension of the certificate, marked temporary, in a single call to
    the key store, and returns the imported key, or the import error
    behind its own prefix. *)
Theorem BccspBackedCPABEParams_last_extension (certFile : string)
    (csp : bccsp_BCCSP K) (certBytes : bytes) (parsedCert : x509_Certificate)
    (pre post : list pkix_Extension) (pe : pkix_Extension) :
  ioutil_ReadFile ext certFile = Ok certBytes ->
  helpers_ParseCertificatePEM ext certBytes = Ok parsedCert ->
  Extensions parsedCert = pre ++ pe :: post ->
  is_params_extension pe ->
  Forall (fun e => ~ is_params_extension e) post ->
  BccspBackedCPABEParams ext certFile (Some csp)
  = (Returns
       (match KeyImport csp (raw_bytes (Value pe)) (CPABEParamsImportOpts true) with
        | Ok params => (Some params, None)
        | Err err =>
            (None, Some (errors_New ("import params error, " +:+ Error err)))
        end),
     [ev_ReadFile certFile;
      ev_KeyImport (raw_bytes (Value pe)) (CPABEParamsImportOpts true)]).
Proof.
  intros Hread Hparse Hexts Hpe Hpost.
  unfold BccspBackedCPABEParams, csp_KeyImport.
  rewrite bind_call, Hread, Hparse, Hexts, (scan_params_last pre post pe)
    by assumption.
  rewrite bind_call.
  destruct (KeyImport csp (raw_bytes (Value pe)) (CPABEParamsImportOpts true));
    reflexivity.
Qed.

(** X13: with any number of extensions, provided every attribute payload
    decodes: [BccspBackedCPABEPrivateKey] takes the Params bytes of the
    last Params extension, hashes the attributes of all attribute
    extensions in the order of the certificate, and queries the key store
    once, with the digest of the Params bytes followed by the low 32 bits
    of each hash, most significant byte first. *)
Theorem BccspBackedCPABEPrivateKey_all_extensions (certFile : string)
    (csp : bccsp_BCCSP K) (certBytes : bytes) (parsedCert : x509_Certificate)
    (pre post : list pkix_Extension) (pe : pkix_Extension) :
  ioutil_ReadFile ext certFile = Ok certBytes ->
  helpers_ParseCertificatePEM ext certBytes = Ok parsedCert ->
  Extensions parsedCert = pre ++ pe :: post ->
  is_params_extension pe ->
  Forall (fun e => ~ is_params_extension e) post ->
  Forall (fun e => ~ is_malformed ext e) (Extensions parsedCert) ->
  BccspBackedCPABEPrivateKey ext certFile (Some csp)
  = (Returns
       (go_pair
          (GetKey csp
             (Sum256
                (Value pe
                 ++ concat (big_endian_4
                              <$> (abeutils_Hash ext
                                     <$> concat (extension_strings ext
                                                   <$> Extensions parsedCert))))))),
     ev_ReadFile certFile
       :: (ev_Hash <$> concat (extension_strings ext <$> Extensions parsedCert))
       ++ [ev_GetKey
             (Sum256
                (Value pe
                 ++ concat (big_endian_4
                              <$> (abeutils_Hash ext
                                     <$> concat (extension_strings ext
                                                   <$> Extensions parsedCert)))))]).
Proof.
  intros Hread Hparse Hexts Hpe Hpost Hwf.
  rewrite (BccspBackedCPABEPrivateKey_parsed ext certFile _ certBytes parsedCert)
    by assumption.
  rewrite bind_call, scan_extensions_decoded by exact Hwf.
  assert (Hscan : scan_params (Extensions parsedCert) None = Some (Value pe))
    by (rewrite Hexts; apply scan_params_last; assumption).
  rewrite bind_Returns, Hscan.
  cbn [app]. rewrite put_attributes_all. unfold lift. rewrite bind_Returns.
  unfold csp_GetKey. rewrite bind_call.
  unfold value, trace; cbn [fst snd mret M_ret app].
  assert (Hbytes : forall l : list string,
             big_endian_4 <$> ((fun s => int32 (abeutils_Hash ext s)) <$> l)
             = big_endian_4 <$> (abeutils_Hash ext <$> l)).
  { intros l. rewrite <- !list_fmap_compose. apply list_fmap_ext.
    intros i s _. apply big_endian_4_int32. }
  rewrite Hbytes. reflexivity.
Qed.

(** X14: a certificate with a Params extension and no attribute extension
    has the empty attribute set: nothing is hashed, and the identifier
    queried is the digest of the Params bytes alone. *)
Theorem BccspBackedCPABEPrivateKey_without_attributes (certFile : string)
    (csp : bccsp_BCCSP K) (certBytes : bytes) (parsedCert : x509_Certificate)
    (pre post : list pkix_Extension) (pe : pkix_Extension) :
  ioutil_ReadFile ext certFile = Ok certBytes ->
  helpers_ParseCertificatePEM ext certBytes = Ok parsedCert ->
  Extensions parsedCert = pre ++ pe :: post ->
  is_params_extension pe ->
  Forall (fun e => ~ is_params_extension e) post ->
  Forall (fun e => ~ is_attribute_extension ext e) (Extensions parsedCert) ->
  BccspBackedCPABEPrivateKey ext certFile (Some csp)
  = (Returns (go_pair (GetKey csp (Sum256 (Value pe)))),
     [ev_ReadFile certFile; ev_GetKey (Sum256 (Value pe))]).
Proof.
  intros Hread Hparse Hexts Hpe Hpost Hnone.
  assert (Hwf : Forall (fun e => ~ is_malformed ext e) (Extensions parsedCert)).
  { eapply Forall_impl; [exact Hnone|]. intros e He [Ha _]. exact (He Ha). }
  assert (Hstr : concat (extension_strings ext <$> Extensions parsedCert) = []).
  { clear -Hnone. induction Hnone as [|e exts He _ IH]; [reflexivity|].
    cbn [fmap list_fmap concat]. rewrite IH.
    unfold extension_strings. rewrite decide_False by exact He. reflexivity. }
  rewrite (BccspBackedCPABEPrivateKey_parsed ext certFile _ certBytes parsedCert)
    by assumption.
  rewrite bind_call, scan_extensions_decoded by exact Hwf.
  assert (Hscan : scan_params (Extensions parsedCert) None = Some (Value pe))
    by (rewrite Hexts; apply scan_params_last; assumption).
  rewrite bind_Returns, Hstr, Hscan.
  cbn [app fmap list_fmap length put_attributes].
  unfold lift, csp_GetKey. rewrite bind_Returns, bind_call.
  change (replicate (Nat.shiftl 0 2) 0) with (@nil Z).
  unfold value, trace; cbn [fst snd mret M_ret app].
  rewrite app_nil_r. reflexivity.
Qed.

(** The run of [BccspBackedCPABEPrivateKey] when every attribute payload
    decodes and the extension loop finds Params bytes. *)
Lemma BccspBackedCPABEPrivateKey_decoded (certFile : string)
    (csp : bccsp_BCCSP K) (certBytes : bytes) (parsedCert : x509_Certificate)
    (paramsBytes : bytes) :
  ioutil_ReadFile ext certFile = Ok certBytes ->
  helpers_ParseCertificatePEM ext certBytes = Ok parsedCert ->
  Forall (fun e => ~ is_malformed ext e) (Extensions parsedCert) ->
  scan_params (Extensions parsedCert) None = Some paramsBytes ->
  BccspBackedCPABEPrivateKey ext certFile (Some csp)
  = (Returns
       (go_pair
          (GetKey csp
             (Sum256
                (paramsBytes
                 ++ concat (big_endian_4
                              <$> (abeutils_Hash ext
                                     <$> concat (extension_strings ext
                                                   <$> Extensions parsedCert))))))),
     ev_ReadFile certFile
       :: (ev_Hash <$> concat (extension_strings ext <$> Extensions parsedCert))
       ++ [ev_GetKey
             (Sum256
                (paramsBytes
                 ++ concat (big_endian_4
                              <$> (abeutils_Hash ext
                                     <$> concat (extension_strings ext
                                                   <$> Extensions parsedCert)))))]).
Proof.
  intros Hread Hparse Hwf Hscan.
  rewrite (BccspBackedCPABEPrivateKey_parsed ext certFile _ certBytes parsedCert)
    by assumption.
  rewrite bind_call, scan_extensions_decoded by exact Hwf.
  rewrite bind_Returns, Hscan.
  cbn [app]. rewrite put_attributes_all. unfold lift. rewrite bind_Returns.
  unfold csp_GetKey. rewrite bind_call.
  unfold value, trace; cbn [fst snd mret M_ret app].
  assert (Hbytes : forall l : list string,
             big_endian_4 <$> ((fun s => int32 (abeutils_Hash ext s)) <$> l)
             = big_endian_4 <$> (abeutils_Hash ext <$> l)).
  { intros l. rewrite <- !list_fmap_compose. apply list_fmap_ext.
    intros i s _. apply big_endian_4_int32. }
  rewrite Hbytes. reflexivity.
Qed.

(** X15: nothing marks where the Params bytes end and the AttributeIDs
    begin.  A certificate whose Params value ends in the four bytes of an
    AttributeID, and that has no attributes, is looked up under the same
    identifier as a certificate with the shorter Params value and the one
    attribute that hashes to that AttributeID. *)
Theorem BccspBackedCPABEPrivateKey_boundary (certFile1 certFile2 : string)
    (csp : bccsp_BCCSP K) (certBytes1 certBytes2 : bytes)
    (pe1 pe2 ae : pkix_Extension) (name val : string) :
  ioutil_ReadFile ext certFile1 = Ok certBytes1 ->
  helpers_ParseCertificatePEM ext certBytes1
  = Ok {| Raw := certBytes1; Extensions := [pe1] |} ->
  ioutil_ReadFile ext certFile2 = Ok certBytes2 ->
  helpers_ParseCertificatePEM ext certBytes2
  = Ok {| Raw := certBytes2; Extensions := [pe2; ae] |} ->
  is_params_extension pe1 -> ~ is_attribute_extension ext pe1 ->
  is_params_extension pe2 -> ~ is_attribute_extension ext pe2 ->
  ~ is_params_extension ae -> is_attribute_extension ext ae ->
  json_Unmarshal ext (Value ae) = Ok {| Attrs := [(name, val)] |} ->
  Value pe1
  = Value pe2 ++ big_endian_4 (abeutils_Hash ext (name +:+ "." +:+ val)) ->
  BccspBackedCPABEPrivateKey ext certFile1 (Some csp)
  = (Returns (go_pair (GetKey csp (Sum256 (Value pe1)))),
     [ev_ReadFile certFile1; ev_GetKey (Sum256 (Value pe1))])
  /\ BccspBackedCPABEPrivateKey ext certFile2 (Some csp)
     = (Returns (go_pair (GetKey csp (Sum256 (Value pe1)))),
        [ev_ReadFile certFile2; ev_Hash (name +:+ "." +:+ val);
         ev_GetKey (Sum256 (Value pe1))]).
Proof.
  intros Hread1 Hparse1 Hread2 Hparse2 Hp1 Ha1 Hp2 Ha2 Hpa Haa Hjson Hvalue.
  assert (Hs1 : extension_strings ext pe1 = [])
    by (unfold extension_strings; rewrite decide_False by exact Ha1; reflexivity).
  assert (Hs2 : extension_strings ext pe2 = [])
    by (unfold extension_strings; rewrite decide_False by exact Ha2; reflexivity).
  assert (Hsa : extension_strings ext ae = [name +:+ "." +:+ val]).
  { unfold extension_strings. rewrite decide_True by exact Haa. rewrite Hjson.
    unfold attribute_strings. cbn [Attrs fmap list_fmap fst].
    change (sort_Strings [name]) with [name].
    cbn [fmap list_fmap map_index]. rewrite decide_True by reflexivity.
    reflexivity. }
  split.
  - rewrite (BccspBackedCPABEPrivateKey_decoded certFile1 csp certBytes1
               {| Raw := certBytes1; Extensions := [pe1] |} (Value pe1));
      try assumption.
    + cbn [Extensions fmap list_fmap concat]. rewrite Hs1.
      cbn [app fmap list_fmap concat]. rewrite app_nil_r. reflexivity.
    + cbn [Extensions]. apply Forall_cons_2; [|apply Forall_nil_2].
      intros [Ha _]. exact (Ha1 Ha).
    + cbn [Extensions scan_params]. rewrite decide_True by exact Hp1. reflexivity.
  - rewrite (BccspBackedCPABEPrivateKey_decoded certFile2 csp certBytes2
               {| Raw := certBytes2; Extensions := [pe2; ae] |} (Value pe2));
      try assumption.
    + cbn [Extensions fmap list_fmap concat]. rewrite Hs2, Hsa.
      cbn [app fmap list_fmap concat]. rewrite app_nil_r, Hvalue. reflexivity.
    + cbn [Extensions]. repeat apply Forall_cons_2; try apply Forall_nil_2.
      * intros [Ha _]. exact (Ha2 Ha).
      * intros [_ [err Herr]]. congruence.
    + cbn [Extensions scan_params].
      rewrite (decide_False (P := ObjectIdentifier_String (Id ae) = ParamsOIDString))
        by exact Hpa.
      rewrite decide_True by exact Hp2. reflexivity.
Qed.

(** X16: whatever the certificate, an identifier that
    [BccspBackedCPABEPrivateKey] queries the key store with is the digest
    of the Params bytes that [BccspBackedCPABEParams] imports for the same
    file, followed by whole 4-byte words, one per AttributeID. *)
Theorem lookups_agree_on_params (certFile : string) (csp : bccsp_BCCSP K)
    (ski : bytes) :
  ev_GetKey ski ∈ trace (BccspBackedCPABEPrivateKey ext certFile (Some csp)) ->
  exists paramsBytes attributeID,
    ev_KeyImport (raw_bytes paramsBytes) (CPABEParamsImportOpts true)
      ∈ trace (BccspBackedCPABEParams ext certFile (Some csp))
    /\ ski = Sum256 (paramsBytes ++ concat (big_endian_4 <$> attributeID)).
Proof.
  unfold BccspBackedCPABEPrivateKey, BccspBackedCPABEParams, csp_KeyImport.
  rewrite !bind_call.
  destruct (ioutil_ReadFile ext certFile) as [certBytes|e];
    [|cbn; intros Hin; apply list_elem_of_singleton in Hin; discriminate].
  destruct (helpers_ParseCertificatePEM ext certBytes) as [parsedCert|e];
    [|cbn; intros Hin; apply list_elem_of_singleton in Hin; discriminate].
  destruct (scan_extensions_shape ext (Extensions parsedCert) None [])
    as [Ht [[err Hv]|[ids Hv]]];
    rewrite (M_eta (scan_extensions _ _ _ _)), Hv, bind_Returns;
    set (ts := trace (scan_extensions ext (Extensions parsedCert) None [])) in *.
  - unfold value, trace; cbn [fst snd mret M_ret]. rewrite app_nil_r.
    intros Hin. apply elem_of_cons in Hin as [Hin|Hin]; [discriminate|].
    exfalso. rewrite Forall_forall in Ht. apply Ht in Hin. exact Hin.
  - destruct (scan_params (Extensions parsedCert) None) as [paramsBytes|].
    + rewrite put_attributes_all. unfold lift, csp_GetKey.
      rewrite bind_Returns, bind_call.
      unfold value, trace; cbn [fst snd mret M_ret app].
      intros Hin. apply elem_of_cons in Hin as [Hin|Hin]; [discriminate|].
      apply elem_of_app in Hin as [Hin|Hin].
      * exfalso. rewrite Forall_forall in Ht. apply Ht in Hin. exact Hin.
      * apply list_elem_of_singleton in Hin. injection Hin as ->.
        exists paramsBytes, ids. split; [|reflexivity].
        rewrite bind_call.
        destruct (KeyImport csp (raw_bytes paramsBytes) (CPABEParamsImportOpts true));
          cbn; apply elem_of_cons; right; apply elem_of_cons; left; reflexivity.
    + unfold log_Warningf. rewrite bind_call.
      unfold value, trace; cbn [fst snd mret M_ret app].
      intros Hin. apply elem_of_cons in Hin as [Hin|Hin]; [discriminate|].
      apply elem_of_app in Hin as [Hin|Hin].
      * exfalso. rewrite Forall_forall in Ht. apply Ht in Hin. exact Hin.
      * apply list_elem_of_singleton in Hin. discriminate.
Qed.
End attribute_key_lookup_more.

Section master_key_lookup_more.
Context {cpabe_Params CryptoSigner Signer Policy : Type}.
Context `{!proto_Message cpabe_Params}.
Variable ext : Externals (sw.cpabeParams cpabe_Params) CryptoSigner Signer Policy.

(** X17: over the [cpabeParams] of package [sw], [BccspBackedCPABEMasterKey]
    never asks the key store for a key named by a digest: the only
    identifier it can query is the empty one, for imported Params that are
    unset. *)
Theorem BccspBackedCPABEMasterKey_never_digest (certFile : string)
    (csp : option (bccsp_BCCSP (sw.cpabeParams cpabe_Params))) (ski : bytes) :
  ev_GetKey ski ∈ trace (BccspBackedCPABEMasterKey ext certFile csp) ->
  ski = [].
Proof.
  unfold BccspBackedCPABEMasterKey, BccspBackedCPABEParams, csp_KeyImport,
    csp_GetKey, log_Warningf.
  cbn [SKI cpabeParams_Key]. unfold sw.cpabeParams_SKI.
  run; intros Hin;
    repeat (apply elem_of_cons in Hin as [Hin|Hin]; [try discriminate|]);
    try (inversion Hin; fail);
    injection Hin as ->; reflexivity.
Qed.
End master_key_lookup_more.

(** ** More on loading a key pair *)

Section key_pair_more.
Context {K CryptoSigner Signer Policy : Type}.
Context `{!bccsp_Key K}.
Variable ext : Externals K CryptoSigner Signer Policy.

Lemma filter_partition_length {A} (P : A -> Prop) `{!forall x, Decision (P x)}
    (l : list A) :
  (length (filter P l) + length (filter (fun x => ~ P x) l))%nat = length l.
Proof.
  induction l as [|x l IH]; [reflexivity|].
  rewrite !filter_cons. destruct (decide (P x)) as [Hx|Hx].
  - rewrite decide_False by (intros Hn; exact (Hn Hx)). simpl. lia.
  - rewrite decide_True by exact Hx. simpl. lia.
Qed.

Lemma decode_blocks_filter (data : bytes) :
  decode_blocks ext data [] []
  = (Bytes_ <$> filter is_certificate_block (pem_blocks ext data),
     Type_ <$> filter (fun b => ~ is_certificate_block b) (pem_blocks ext data)).
Proof. unfold decode_blocks. rewrite decode_loop_blocks. reflexivity. Qed.

(** X18: the decoding loop of [LoadX509KeyPair] files every block of the
    bundle once and keeps the order: the certificate chain is the content
    of the CERTIFICATE blocks, the skipped types are the types of the other
    blocks, and together they are as many as the blocks. *)
Theorem decode_blocks_partition (data : bytes) :
  decode_blocks ext data [] []
  = (Bytes_ <$> filter is_certificate_block (pem_blocks ext data),
     Type_ <$> filter (fun b => ~ is_certificate_block b) (pem_blocks ext data))
  /\ (length (fst (decode_blocks ext data [] []))
      + length (snd (decode_blocks ext data [] [])))%nat
     = length (pem_blocks ext data).
Proof.
  split; [apply decode_blocks_filter|].
  rewrite decode_blocks_filter. cbn [fst snd]. rewrite !length_fmap.
  apply filter_partition_length.
Qed.

(** X19: for a bundle without a CERTIFICATE block [LoadX509KeyPair] always
    returns an error right after reading the file: it calls neither the
    key store nor the fallback loader; for a bundle without any block the
    error is that no PEM block was found. *)
Theorem LoadX509KeyPair_without_certificate (certFile keyFile : string)
    (csp : option (bccsp_BCCSP K)) (certPEMBlock : bytes) :
  ioutil_ReadFile ext certFile = Ok certPEMBlock ->
  Forall (fun b => ~ is_certificate_block b) (pem_blocks ext certPEMBlock) ->
  (exists err,
      LoadX509KeyPair ext certFile keyFile csp
      = (Returns (Err err), [ev_ReadFile certFile]))
  /\ (pem_blocks ext certPEMBlock = [] ->
      LoadX509KeyPair ext certFile keyFile csp
      = (Returns (Err (errors_New
                         ("Failed to find PEM block in file " +:+ certFile))),
         [ev_ReadFile certFile])).
Proof.
  intros Hread Hno. unfold LoadX509KeyPair.
  rewrite bind_call, Hread, (decode_blocks_without_certificate _ _ Hno).
  cbn [length]. rewrite (decide_True (P := 0%nat = 0%nat)) by reflexivity.
  split.
  - destruct (decide (length (Type_ <$> pem_blocks ext certPEMBlock) = 0%nat));
      [eexists; reflexivity|].
    destruct (bool_decide (length (Type_ <$> pem_blocks ext certPEMBlock) = 1%nat)
              && strings_HasSuffix
                   (default EmptyString ((Type_ <$> pem_blocks ext certPEMBlock) !! 0%nat))
                   "PRIVATE KEY");
      eexists; reflexivity.
  - intros ->. reflexivity.
Qed.

(** The run of [LoadX509KeyPair] on a bundle that has a certificate. *)
Lemma LoadX509KeyPair_with_certificate (certFile keyFile : string)
    (csp : option (bccsp_BCCSP K)) (certPEMBlock : bytes)
    (leaf : pem_Block) (chain : list pem_Block) (x509Cert : x509_Certificate) :
  ioutil_ReadFile ext certFile = Ok certPEMBlock ->
  filter is_certificate_block (pem_blocks ext certPEMBlock) = leaf :: chain ->
  x509_ParseCertificate ext (Bytes_ leaf) = Ok x509Cert ->
  LoadX509KeyPair ext certFile keyFile csp
  = call (ev_ReadFile certFile) tt ≫= fun _ =>
    GetSignerFromCert ext x509Cert csp ≫= fun '(_, PrivateKey, err) =>
    match err with
    | Some err =>
        if decide (keyFile ≠ EmptyString) then
          log_Debugf ("Could not load TLS certificate with BCCSP: " +:+ Error err)
            ≫= fun _ =>
          log_Debugf ("Attempting fallback with certfile " +:+ certFile
                      +:+ " and keyfile " +:+ keyFile) ≫= fun _ =>
          call (ev_tls_LoadX509KeyPair certFile keyFile)
            (tls_LoadX509KeyPair ext certFile keyFile) ≫= fun r =>
          match r with
          | Err err =>
              mret (Err (errors_Wrap err
                           ("Could not get the private key " +:+ keyFile
                            +:+ " that matches " +:+ certFile)))
          | Ok fallbackCerts => mret (Ok fallbackCerts)
          end
        else
          mret (Err (errors_WithMessage err
                       "Could not load TLS certificate with BCCSP"))
    | None =>
        mret (Ok {| Certificate := Bytes_ <$> (leaf :: chain);
                    PrivateKey := PrivateKey |})
    end.
Proof.
  intros Hread Hblocks Hparse. unfold LoadX509KeyPair.
  rewrite !bind_call, Hread.
  rewrite decode_blocks_filter, Hblocks.
  cbn [fmap list_fmap length lookup list_lookup default from_option id].
  rewrite decide_False by discriminate. rewrite Hparse. reflexivity.
Qed.

(** X20: when the key store has the private key of the first certificate
    of the bundle, [LoadX509KeyPair] returns the whole chain, in the order
    of the bundle and without the other blocks, with the signer of that
    key; only the first certificate is parsed, and neither the key file
    nor the fallback loader is touched. *)
Theorem LoadX509KeyPair_chain (certFile keyFile : string)
    (csp : option (bccsp_BCCSP K)) (certPEMBlock : bytes)
    (leaf : pem_Block) (chain : list pem_Block) (x509Cert : x509_Certificate)
    (key : option K) (signer : option CryptoSigner) :
  ioutil_ReadFile ext certFile = Ok certPEMBlock ->
  filter is_certificate_block (pem_blocks ext certPEMBlock) = leaf :: chain ->
  x509_ParseCertificate ext (Bytes_ leaf) = Ok x509Cert ->
  value (GetSignerFromCert ext x509Cert csp) = Returns (key, signer, None) ->
  LoadX509KeyPair ext certFile keyFile csp
  = (Returns (Ok {| Certificate := Bytes_ leaf :: (Bytes_ <$> chain);
                    PrivateKey := signer |}),
     ev_ReadFile certFile :: trace (GetSignerFromCert ext x509Cert csp)).
Proof.
  intros Hread Hblocks Hparse Hsigner.
  rewrite (LoadX509KeyPair_with_certificate certFile keyFile csp certPEMBlock
             leaf chain x509Cert) by assumption.
  rewrite bind_call, (M_eta (GetSignerFromCert ext x509Cert csp)), Hsigner.
  rewrite bind_Returns. unfold value, trace; cbn [fst snd mret M_ret].
  rewrite app_nil_r. reflexivity.
Qed.

(** X21: when [GetSignerFromCert] fails for the first certificate of the
    bundle, an empty key-file name makes [LoadX509KeyPair] return that
    error behind its prefix without calling the fallback loader; with a
    key-file name, the fallback loader is called once on both files and
    its certificate replaces the decoded chain, or its error is returned
    with both file names. *)
Theorem LoadX509KeyPair_fallback (certFile keyFile : string)
    (csp : option (bccsp_BCCSP K)) (certPEMBlock : bytes)
    (leaf : pem_Block) (chain : list pem_Block) (x509Cert : x509_Certificate)
    (key : option K) (signer : option CryptoSigner) (err : error) :
  ioutil_ReadFile ext certFile = Ok certPEMBlock ->
  filter is_certificate_block (pem_blocks ext certPEMBlock) = leaf :: chain ->
  x509_ParseCertificate ext (Bytes_ leaf) = Ok x509Cert ->
  value (GetSignerFromCert ext x509Cert csp) = Returns (key, signer, Some err) ->
  (keyFile = EmptyString ->
   LoadX509KeyPair ext certFile keyFile csp
   = (Returns (Err (errors_WithMessage err
                      "Could not load TLS certificate with BCCSP")),
      ev_ReadFile certFile :: trace (GetSignerFromCert ext x509Cert csp)))
  /\ (keyFile <> EmptyString ->
      LoadX509KeyPair ext certFile keyFile csp
      = (Returns (match tls_LoadX509KeyPair ext certFile keyFile with
                  | Ok fallbackCerts => Ok fallbackCerts
                  | Err err' =>
                      Err (errors_Wrap err'
                             ("Could not get the private key " +:+ keyFile
                              +:+ " that matches " +:+ certFile))
                  end),
         ev_ReadFile certFile
           :: trace (GetSignerFromCert ext x509Cert csp)
           ++ [ev_Debugf ("Could not load TLS certificate with BCCSP: "
                          +:+ Error err);
               ev_Debugf ("Attempting fallback with certfile " +:+ certFile
                          +:+ " and keyfile " +:+ keyFile);
               ev_tls_LoadX509KeyPair certFile keyFile])).
Proof.
  intros Hread Hblocks Hparse Hsigner.
  rewrite (LoadX509KeyPair_with_certificate certFile keyFile csp certPEMBlock
             leaf chain x509Cert) by assumption.
  rewrite bind_call, (M_eta (GetSignerFromCert ext x509Cert csp)), Hsigner.
  rewrite bind_Returns. split; intros Hkey.
  - rewrite decide_False by (intros Hn; exact (Hn Hkey)).
    unfold value, trace; cbn [fst snd mret M_ret]. rewrite app_nil_r. reflexivity.
  - rewrite decide_True by exact Hkey.
    unfold log_Debugf. rewrite !bind_call.
    destruct (tls_LoadX509KeyPair ext certFile keyFile); reflexivity.
Qed.
End key_pair_more.

(** ** Key generation *)

Ltac run_gen :=
  repeat (cbn [G_bind G_ret G_call G_lift G_of_M G_value G_trace fmap list_fmap
               mbind M_bind mret M_ret call lift panic value trace fst snd app
               log_Debugf];
          try answer).

Section key_generation_properties.
Context {K CryptoSigner Signer Policy : Type}.
Context `{!bccsp_Key K, !bccsp_PublicKey K}.
Variable ext : Externals K CryptoSigner Signer Policy.
Variable fmt_KeyRequest : option csr_KeyRequest -> string.

(** X22: [BCCSPKeyRequestGenerate] asks the key store for at most one key,
    only for a request that [getBCCSPKeyOpts] accepts, with the options
    that function gives for the flag [false]: a generated key is never
    marked temporary. *)
Theorem BCCSPKeyRequestGenerate_persistent (req : option csr_CertificateRequest)
    (myCSP : option (bccsp_BCCSP K)) :
  (forall opts,
      ev_KeyGen opts ∈ G_trace (BCCSPKeyRequestGenerate ext fmt_KeyRequest req myCSP) ->
      KeyGenOpts_Temporary opts = false
      /\ exists r,
          req = Some r
          /\ value (getBCCSPKeyOpts (K:=K) (CertificateRequest.KeyRequest r) false)
             = Returns (Ok opts))
  /\ (length (filter (fun e => is_KeyGen e)
                (G_trace (BCCSPKeyRequestGenerate ext fmt_KeyRequest req myCSP)))
      <= 1)%nat.
Proof.
  unfold BCCSPKeyRequestGenerate, csp_KeyGen, getBCCSPKeyOpts. split.
  - intros opts. run_gen; intros Hin;
      repeat (apply elem_of_cons in Hin as [Hin|Hin]; [try discriminate|]);
      try (inversion Hin; fail);
      injection Hin as ->; (split; [reflexivity|]);
      eexists; (split; [reflexivity|]);
      match goal with
      | H : CertificateRequest.KeyRequest _ = _ |- _ => rewrite H
      end;
      cbn [mbind M_bind mret M_ret call value fst log_Debugf];
      repeat match goal with H : decide _ = _ |- _ => rewrite H end;
      reflexivity.
  - run_gen; vm_compute; lia.
Qed.

(** X23: [BCCSPKeyRequestGenerate] returns all or nothing: a generated key
    with the signer built for it and a nil error, or an error with a nil
    key and a nil signer.  In particular, when the signer cannot be built
    the key that was just generated is not returned. *)
Theorem BCCSPKeyRequestGenerate_all_or_nothing
    (req : option csr_CertificateRequest) (myCSP : option (bccsp_BCCSP K))
    (key : option K) (signer : option CryptoSigner) (err : option error) :
  G_value (BCCSPKeyRequestGenerate ext fmt_KeyRequest req myCSP)
  = Returns (key, signer, err) ->
  (err = None
   /\ exists csp opts k s,
       myCSP = Some csp /\ KeyGen csp opts = Ok k
       /\ cspsigner_New ext myCSP k = Ok s
       /\ key = Some k /\ signer = Some s)
  \/ (key = None /\ signer = None
      /\ exists e,
          err = Some e
          /\ forall csp opts k e',
              myCSP = Some csp ->
              ev_KeyGen opts
                ∈ G_trace (BCCSPKeyRequestGenerate ext fmt_KeyRequest req myCSP) ->
              KeyGen csp opts = Ok k ->
              cspsigner_New ext myCSP k = Err e' ->
              e = errors_WithMessage e' "Failed initializing CryptoSigner").
Proof.
  unfold BCCSPKeyRequestGenerate, csp_KeyGen, getBCCSPKeyOpts.
  run_gen; intros [= <- <- <-];
    first
      [ left; split; [reflexivity|]; eexists _, _, _, _;
        repeat split; eassumption
      | right; repeat split; eexists; split; [reflexivity|];
        intros csp' opts' k' e' Hcsp Hin Hgen Hnew;
        repeat (apply elem_of_cons in Hin as [Hin|Hin]; [try discriminate|]);
        try (inversion Hin; fail);
        injection Hin as ->; injection Hcsp as <-; congruence ].
Qed.

End key_generation_properties.

Section key_generation_over_sw.
Context {cpabe_Key cpabe_MasterKey cpabe_Params : Type}.
Context `{!proto_Message cpabe_Key, !proto_Message cpabe_MasterKey,
          !proto_Message cpabe_Params, !crypto_sha256,
          !cpabe_Param cpabe_Key cpabe_Params,
          !cpabe_Param cpabe_MasterKey cpabe_Params}.

(** X25: over the wrappers of package [sw], when the key store generates a
    master key that wraps a message, [CPABEMasterKeyGenerate] returns that
    key with the hexadecimal form of what [proto.Marshal] gives for the
    [Param] field of the message, or the marshalling error behind two
    prefixes; generation never asks the Params for their identifier.  A
    generated master key that wraps no message makes it panic. *)
Theorem CPABEMasterKeyGenerate_over_sw
    (csp : bccsp_BCCSP (sw_Key cpabe_Key cpabe_MasterKey cpabe_Params))
    (masterKey : option cpabe_MasterKey) :
  KeyGen csp (CPABEKeyGenOpts false)
  = Ok (sw_master {| sw.masterKey_key := masterKey |}) ->
  CPABEMasterKeyGenerate (Some csp)
  = (match masterKey with
     | None => Panics nil_dereference
     | Some m =>
         Returns
           (match proto_Marshal (Param m) with
            | Ok raw =>
                (Some (sw_master {| sw.masterKey_key := masterKey |}),
                 hex_EncodeToString raw, None)
            | Err err =>
                (None, EmptyString,
                 Some (errors_New
                         ("marshal cpabe params error, "
                          +:+ "Failed marshalling params ["
                          +:+ Error err +:+ "]")))
            end)
     end,
     [ev_KeyGen (CPABEKeyGenOpts false)]).
Proof.
  intros Hgen. unfold CPABEMasterKeyGenerate, csp_KeyGen.
  cbn [G_bind G_call]. rewrite Hgen.
  destruct masterKey as [m|]; [|reflexivity].
  cbn [G_lift PublicKey sw_Key_PublicKey sw.cpabeMasterKey_PublicKey
       sw.masterKey_key as_Key G_bind Bytes sw_Key_Key sw.cpabeParams_Bytes
       sw.params].
  unfold sw.cpabeParams_Bytes. cbn [sw.params].
  destruct (proto_Marshal (Param m)); reflexivity.
Qed.
End key_generation_over_sw.

(** ** Identifier and bytes of a wrapper *)

Section public_counterparts_more.
Context {cpabe_Key cpabe_MasterKey cpabe_Params : Type}.
Context `{!proto_Message cpabe_Key, !proto_Message cpabe_MasterKey,
          !proto_Message cpabe_Params, !crypto_sha256,
          !cpabe_Param cpabe_Key cpabe_Params,
          !cpabe_Param cpabe_MasterKey cpabe_Params}.

(** X27: [SKI] and [Bytes] agree.  An identifier that a wrapper returns is
    either the empty one of an unset value, or the SHA-256 digest of the
    very bytes that [Bytes] returns, and then the wrapper is a private
    one. *)
Theorem SKI_digest_of_Bytes (k : sw_Key cpabe_Key cpabe_MasterKey cpabe_Params)
    (ski : bytes) :
  SKI k = Returns ski ->
  (ski = []
   /\ (k = sw_private {| sw.privateKey_key := None |}
       \/ k = sw_master {| sw.masterKey_key := None |}
       \/ k = sw_params {| sw.params := None |}))
  \/ (Private k = true
      /\ exists raw, Bytes k = Ok raw /\ ski = Sum256 raw).
Proof.
  destruct k as [[[key|]]|[[key|]]|[[p|]]];
    cbn [SKI Bytes Private sw_Key_Key];
    unfold sw.cpabePrivateKey_SKI, sw.cpabeMasterKey_SKI, sw.cpabeParams_SKI,
      sw.cpabePrivateKey_Bytes, sw.cpabeMasterKey_Bytes,
      sw.cpabePrivateKey_Private, sw.cpabeMasterKey_Private;
    cbn [sw.privateKey_key sw.masterKey_key sw.params].
  - destruct (proto_Marshal (Some key)) as [raw|err]; [|discriminate].
    intros [= <-]. right. split; [reflexivity|].
    exists raw. split; [reflexivity | apply hash_Sum_Write].
  - intros [= <-]. left. auto.
  - destruct (proto_Marshal (Some key)) as [raw|err]; [|discriminate].
    intros [= <-]. right. split; [reflexivity|].
    exists raw. split; [reflexivity | apply hash_Sum_Write].
  - intros [= <-]. left. auto.
  - destruct (proto_Marshal (Some p)); discriminate.
  - intros [= <-]. left. auto.
Qed.
End public_counterparts_more.

(** ** The further properties in the small world *)

Ltac among :=
  vm_compute; repeat first [apply list_elem_of_here | apply list_elem_of_further].

Section further_in_the_world.
Local Existing Instance World.key_interface.
Local Existing Instance World.digest.
Local Existing Instance World.message.
Local Existing Instance Annex.param_field.
Local Existing Instance Annex.public_key.

(** X1 at a master key whose message is [1; 2; 3]: its public counterpart
    holds the Params [1; 2]. *)
Lemma PublicKey_of_wrapper_witness :
  (exists q, (sw_params {| sw.params := Some [1; 2] |} : Annex.wrapper) = sw_params q)
  /\ PublicKey (sw_params {| sw.params := Some [1; 2] |} : Annex.wrapper)
     = Returns (Ok (sw_params {| sw.params := Some [1; 2] |}))
  /\ Private (sw_params {| sw.params := Some [1; 2] |} : Annex.wrapper) = false
  /\ Symmetric (sw_params {| sw.params := Some [1; 2] |} : Annex.wrapper) = false.
Proof.
  exact (PublicKey_of_wrapper
           (sw_master {| sw.masterKey_key := Some [1; 2; 3] |} : Annex.wrapper)
           (sw_params {| sw.params := Some [1; 2] |}) eq_refl).
Defined.

(** X2 at the wrapper of unset Params, which is its own counterpart. *)
Lemma public_counterpart_has_no_digest_witness :
  exists (p : Annex.wrapper) (ski : bytes),
    PublicKey (sw_params {| sw.params := None |} : Annex.wrapper) = Returns (Ok p)
    /\ SKI p = Returns ski
    /\ ski = [].
Proof.
  exists (sw_params {| sw.params := None |}), [].
  split; [reflexivity|]. split; [reflexivity|].
  exact (public_counterpart_has_no_digest
           (sw_params {| sw.params := None |} : Annex.wrapper)
           (sw_params {| sw.params := None |}) [] eq_refl eq_refl).
Defined.

(** X3 at the bytes 0 and 255, in both orders. *)
Lemma hex_EncodeToString_faithful_witness :
  String.length (hex_EncodeToString [0; 255]) = 4%nat
  /\ (hex_EncodeToString [0; 255] = hex_EncodeToString [255; 0] ->
      [0; 255] = [255; 0]).
Proof.
  apply (hex_EncodeToString_faithful [0; 255] [255; 0]);
    repeat first [apply List.Forall_nil | apply List.Forall_cons];
    unfold is_byte; lia.
Defined.

(** X4 at the second and third slots of a buffer of thirteen bytes, and
    at a buffer of three bytes. *)
Lemma put_attributes_room_witness :
  put_attributes ([9; 9; 9; 9] ++ [0; 0; 0; 0; 0; 0; 0; 0] ++ [7]) 1 [1; 258]
  = Returns [9; 9; 9; 9; 0; 0; 0; 1; 0; 0; 1; 2; 7]
  /\ exists v, put_attributes [0; 0; 0] 1 [1; 258] = Panics v.
Proof.
  destruct (put_attributes_room 1 [1; 258]) as [Hroom Hshort].
  split.
  - exact (Hroom [9; 9; 9; 9] [0; 0; 0; 0; 0; 0; 0; 0] [7] eq_refl eq_refl).
  - apply Hshort; [discriminate | simpl; lia].
Defined.

(** X5 at the certificate of [ca.pem]: key and signer, and the key is
    private. *)
Lemma GetSignerFromCert_all_or_nothing_witness :
  value (GetSignerFromCert (World.externals true) (World.certificate 1 [])
           (Some World.store))
  = Returns (Some {| World.key_ski := [1]; World.key_private := true |},
             Some {| World.key_ski := [1]; World.key_private := true |}, None)
  /\ exists k s,
      Some {| World.key_ski := [1]; World.key_private := true |} = Some k
      /\ Some {| World.key_ski := [1]; World.key_private := true |} = Some s
      /\ Private k = true
      /\ cspsigner_New (World.externals true) (Some World.store) k = Ok s.
Proof.
  assert (Hrun : value (GetSignerFromCert (World.externals true)
                          (World.certificate 1 []) (Some World.store))
                 = Returns (Some {| World.key_ski := [1]; World.key_private := true |},
                            Some {| World.key_ski := [1]; World.key_private := true |},
                            None))
    by (vm_compute; reflexivity).
  split; [exact Hrun|].
  destruct (GetSignerFromCert_all_or_nothing (World.externals true) _ _ _ _ _ Hrun)
    as [[_ H] | (H & _)]; [exact H | discriminate H].
Defined.

(** X6 at the certificate of [public.pem]: the one lookup is by the
    identifier of the imported public key. *)
Lemma GetSignerFromCert_store_calls_witness :
  ev_GetKey [2]
    ∈ trace (GetSignerFromCert (World.externals true) (World.certificate 2 [])
               (Some World.store))
  /\ exists c certPubK,
      Some World.store = Some c
      /\ KeyImport c (raw_Certificate (World.certificate 2 []))
           (X509PublicKeyImportOpts true) = Ok certPubK
      /\ SKI certPubK = Returns [2].
Proof.
  assert (Hin : ev_GetKey [2]
                  ∈ trace (GetSignerFromCert (World.externals true)
                             (World.certificate 2 []) (Some World.store)))
    by among.
  split; [exact Hin|].
  exact (proj1 (proj2 (GetSignerFromCert_store_calls (World.externals true)
                         (World.certificate 2 []) (Some World.store)))
           [2] Hin).
Defined.

(** X7 at [public.pem]: no key, but the certificate of the file. *)
Lemma GetSignerFromCertFile_certificate_witness :
  value (GetSignerFromCertFile (World.externals true) "public.pem"
           (Some World.store))
  = Returns (None, None, Some (World.certificate 2 []),
             Some (errors_New "The private key associated with the certificate with SKI '02' was not found"))
  /\ exists certBytes,
      ioutil_ReadFile (World.externals true) "public.pem" = Ok certBytes
      /\ helpers_ParseCertificatePEM (World.externals true) certBytes
         = Ok (World.certificate 2 []).
Proof.
  assert (Hrun : value (GetSignerFromCertFile (World.externals true) "public.pem"
                          (Some World.store))
                 = Returns (None, None, Some (World.certificate 2 []),
                            Some (errors_New "The private key associated with the certificate with SKI '02' was not found")))
    by (vm_compute; reflexivity).
  split; [exact Hrun|].
  exact (GetSignerFromCertFile_certificate (World.externals true) _ _ _ _ _ _ Hrun).
Defined.

(** X8 at a CA file that does not exist, with the key file [ec.key]. *)
Lemma BccspBackedSigner_without_certificate_witness :
  BccspBackedSigner (World.externals true) "missing.pem" "ec.key" tt
    (Some World.store)
  = (Returns (Ok tt),
     [ev_ReadFile "missing.pem";
      ev_Debugf "No key found in BCCSP keystore, attempting fallback";
      ev_ReadFile "ec.key";
      ev_KeyImport (raw_bytes [48; 5]) (ECDSAPrivateKeyImportOpts false);
      ev_cspsigner_New {| World.key_ski := [48; 5]; World.key_private := true |};
      ev_local_NewSigner]).
Proof.
  apply (BccspBackedSigner_without_certificate (World.externals true)
           "missing.pem" "ec.key" tt (Some World.store)
           {| World.key_ski := [48; 5]; World.key_private := true |}
           {| World.key_ski := [48; 5]; World.key_private := true |}).
  - left. eexists. vm_compute. reflexivity.
  - vm_compute. reflexivity.
  - reflexivity.
Defined.

(** X9 at [ca.pem], whose private key is in the store. *)
Lemma BccspBackedSigner_success_witness :
  (exists cspSigner parsedCa,
      local_NewSigner (World.externals true) (Some cspSigner) parsedCa tt = Ok tt)
  /\ last (trace (BccspBackedSigner (World.externals true) "ca.pem" "rsa.key" tt
                    (Some World.store)))
     = Some ev_local_NewSigner
  /\ length (filter (fun e => is_local_NewSigner e)
               (trace (BccspBackedSigner (World.externals true) "ca.pem" "rsa.key"
                         tt (Some World.store)))) = 1%nat.
Proof.
  apply (BccspBackedSigner_success (World.externals true) "ca.pem" "rsa.key" tt
           (Some World.store) tt).
  vm_compute. reflexivity.
Defined.

(** X10 at [public.pem] with the key file [ec.key]: the ECDSA import
    belongs to the one fallback. *)
Lemma BccspBackedSigner_imports_witness :
  ev_KeyImport (raw_bytes [48; 5]) (ECDSAPrivateKeyImportOpts false)
    ∈ trace (BccspBackedSigner (World.externals true) "public.pem" "ec.key" tt
               (Some World.store))
  /\ fallback_attempts
       (trace (BccspBackedSigner (World.externals true) "public.pem" "ec.key" tt
                 (Some World.store))) = 1%nat.
Proof.
  assert (Hin : ev_KeyImport (raw_bytes [48; 5]) (ECDSAPrivateKeyImportOpts false)
                  ∈ trace (BccspBackedSigner (World.externals true) "public.pem"
                             "ec.key" tt (Some World.store)))
    by among.
  split; [exact Hin|].
  destruct (BccspBackedSigner_imports (World.externals true) "public.pem" "ec.key"
              tt (Some World.store) _ _ Hin) as [[H _] | (_ & _ & H)];
    [discriminate H | exact H].
Defined.

(** X11 at [ec.key]: the chain of successes gives the imported key. *)
Lemma ImportBCCSPKeyFromPEM_success_witness :
  value (ImportBCCSPKeyFromPEM (World.externals true) "ec.key" (Some World.store)
           false)
  = Returns (Ok {| World.key_ski := [48; 5]; World.key_private := true |}).
Proof.
  apply (proj1 (ImportBCCSPKeyFromPEM_success (World.externals true) "ec.key"
                  (Some World.store) false
                  {| World.key_ski := [48; 5]; World.key_private := true |})).
  exists World.store, [20],
    {| ecdsa_Curve := "P-256"; ecdsa_X := 2; ecdsa_Y := 3; ecdsa_D := 5 |},
    [48; 5].
  repeat split; vm_compute; reflexivity.
Defined.

(** X12 at [renewed.pem], which has an older Params extension before the
    current one. *)
Lemma BccspBackedCPABEParams_last_extension_witness :
  BccspBackedCPABEParams Annex.externals "renewed.pem" (Some World.store)
  = (Returns (Some {| World.key_ski := [7; 7]; World.key_private := true |}, None),
     [ev_ReadFile "renewed.pem";
      ev_KeyImport (raw_bytes [7; 7]) (CPABEParamsImportOpts true)]).
Proof.
  apply (BccspBackedCPABEParams_last_extension Annex.externals "renewed.pem"
           World.store [6]
           (World.certificate 6
              [Annex.older_params_extension; World.attribute_extension;
               World.params_extension])
           [Annex.older_params_extension; World.attribute_extension] []
           World.params_extension).
  - vm_compute. reflexivity.
  - reflexivity.
  - reflexivity.
  - vm_compute. reflexivity.
  - apply List.Forall_nil.
Defined.

(** X13 at [renewed.pem]: the last Params bytes, then the identifiers of
    the attributes in the order of their names. *)
Lemma BccspBackedCPABEPrivateKey_all_extensions_witness :
  BccspBackedCPABEPrivateKey Annex.externals "renewed.pem" (Some World.store)
  = (Returns
       (go_pair
          (GetKey World.store
             (Sum256 ([7; 7] ++ big_endian_4 (World.hash "dept.eng")
                      ++ big_endian_4 (World.hash "role.admin"))))),
     [ev_ReadFile "renewed.pem"; ev_Hash "dept.eng"; ev_Hash "role.admin";
      ev_GetKey (Sum256 ([7; 7] ++ big_endian_4 (World.hash "dept.eng")
                         ++ big_endian_4 (World.hash "role.admin")))]).
Proof.
  rewrite (BccspBackedCPABEPrivateKey_all_extensions Annex.externals "renewed.pem"
             World.store [6]
             (World.certificate 6
                [Annex.older_params_extension; World.attribute_extension;
                 World.params_extension])
             [Annex.older_params_extension; World.attribute_extension] []
             World.params_extension).
  - vm_compute. reflexivity.
  - vm_compute. reflexivity.
  - reflexivity.
  - reflexivity.
  - vm_compute. reflexivity.
  - apply List.Forall_nil.
  - repeat first [apply List.Forall_nil | apply List.Forall_cons];
      intros [Hattr [err Herr]]; vm_compute in Hattr, Herr;
      first [discriminate Hattr | discriminate Herr].
Defined.

(** X14 at [params.pem], whose only extension is the Params extension. *)
Lemma BccspBackedCPABEPrivateKey_without_attributes_witness :
  BccspBackedCPABEPrivateKey Annex.externals "params.pem" (Some World.store)
  = (Returns (go_pair (GetKey World.store (Sum256 [7; 7]))),
     [ev_ReadFile "params.pem"; ev_GetKey (Sum256 [7; 7])]).
Proof.
  apply (BccspBackedCPABEPrivateKey_without_attributes Annex.externals
           "params.pem" World.store [7]
           (World.certificate 7 [World.params_extension])
           [] [] World.params_extension).
  - vm_compute. reflexivity.
  - reflexivity.
  - reflexivity.
  - vm_compute. reflexivity.
  - apply List.Forall_nil.
  - repeat first [apply List.Forall_nil | apply List.Forall_cons].
    intros H. vm_compute in H. discriminate H.
Defined.

(** X15 at [longer.pem] and [single.pem]: Params bytes that end like an
    AttributeID, and shorter Params bytes with that attribute. *)
Lemma BccspBackedCPABEPrivateKey_boundary_witness :
  BccspBackedCPABEPrivateKey Annex.externals "longer.pem" (Some World.store)
  = (Returns (go_pair (GetKey World.store
                         (Sum256 (Value Annex.longer_params_extension)))),
     [ev_ReadFile "longer.pem";
      ev_GetKey (Sum256 (Value Annex.longer_params_extension))])
  /\ BccspBackedCPABEPrivateKey Annex.externals "single.pem" (Some World.store)
     = (Returns (go_pair (GetKey World.store
                            (Sum256 (Value Annex.longer_params_extension)))),
        [ev_ReadFile "single.pem"; ev_Hash ("dept" +:+ "." +:+ "eng");
         ev_GetKey (Sum256 (Value Annex.longer_params_extension))]).
Proof.
  apply (BccspBackedCPABEPrivateKey_boundary Annex.externals "longer.pem"
           "single.pem" World.store [8] [9] Annex.longer_params_extension
           World.params_extension Annex.single_attribute_extension "dept" "eng").
  - vm_compute. reflexivity.
  - reflexivity.
  - vm_compute. reflexivity.
  - reflexivity.
  - vm_compute. reflexivity.
  - intros H. vm_compute in H. discriminate H.
  - vm_compute. reflexivity.
  - intros H. vm_compute in H. discriminate H.
  - intros H. vm_compute in H. discriminate H.
  - vm_compute. reflexivity.
  - vm_compute. reflexivity.
  - vm_compute. reflexivity.
Defined.

(** X16 at [abe.pem]: the identifier looked up starts from the Params
    bytes that the Params lookup imports. *)
Lemma lookups_agree_on_params_witness :
  exists ski paramsBytes attributeID,
    ev_GetKey ski
      ∈ trace (BccspBackedCPABEPrivateKey (World.externals true) "abe.pem"
                 (Some World.store))
    /\ ev_KeyImport (raw_bytes paramsBytes) (CPABEParamsImportOpts true)
         ∈ trace (BccspBackedCPABEParams (World.externals true) "abe.pem"
                    (Some World.store))
    /\ ski = Sum256 (paramsBytes ++ concat (big_endian_4 <$> attributeID)).
Proof.
  assert (Hin : ev_GetKey
                  (Sum256 ([7; 7] ++ big_endian_4 (World.hash "dept.eng")
                           ++ big_endian_4 (World.hash "role.admin")))
                  ∈ trace (BccspBackedCPABEPrivateKey (World.externals true)
                             "abe.pem" (Some World.store)))
    by among.
  destruct (lookups_agree_on_params (World.externals true) "abe.pem" World.store
              _ Hin) as (paramsBytes & attributeID & Himport & Hski).
  exists (Sum256 ([7; 7] ++ big_endian_4 (World.hash "dept.eng")
                  ++ big_endian_4 (World.hash "role.admin"))),
    paramsBytes, attributeID.
  split; [exact Hin|]. split; [exact Himport | exact Hski].
Defined.

(** X19 at [empty.pem], a bundle with no block at all. *)
Lemma LoadX509KeyPair_without_certificate_witness :
  LoadX509KeyPair Annex.externals "empty.pem" "ec.key" (Some World.store)
  = (Returns (Err (errors_New ("Failed to find PEM block in file " +:+ "empty.pem"))),
     [ev_ReadFile "empty.pem"]).
Proof.
  apply (proj2 (LoadX509KeyPair_without_certificate Annex.externals "empty.pem"
                  "ec.key" (Some World.store) [] eq_refl (List.Forall_nil _))).
  reflexivity.
Defined.

(** X20 at [chain.pem]: a certificate, a revocation list, and the
    certificate again. *)
Lemma LoadX509KeyPair_chain_witness :
  LoadX509KeyPair Annex.externals "chain.pem" "ec.key" (Some World.store)
  = (Returns (Ok {| Certificate := [[1]; [1]];
                    PrivateKey :=
                      Some {| World.key_ski := [1]; World.key_private := true |} |}),
     ev_ReadFile "chain.pem"
       :: trace (GetSignerFromCert Annex.externals (World.certificate 1 [])
                   (Some World.store))).
Proof.
  apply (LoadX509KeyPair_chain Annex.externals "chain.pem" "ec.key"
           (Some World.store) [1; 30; 1]
           {| Type_ := "CERTIFICATE"; Bytes_ := [1] |}
           [{| Type_ := "CERTIFICATE"; Bytes_ := [1] |}]
           (World.certificate 1 [])
           (Some {| World.key_ski := [1]; World.key_private := true |})
           (Some {| World.key_ski := [1]; World.key_private := true |})).
  - vm_compute. reflexivity.
  - vm_compute. reflexivity.
  - reflexivity.
  - vm_compute. reflexivity.
Defined.

(** X21 at [ca.pem] without a key store, with the key file [ec.key]:
    the standard loader is tried, and its error names both files. *)
Lemma LoadX509KeyPair_fallback_witness :
  LoadX509KeyPair (World.externals true) "ca.pem" "ec.key" None
  = (Returns (Err (errors_Wrap
                     (errors_New "tls: failed to find any PEM data in key input")
                     ("Could not get the private key " +:+ "ec.key"
                      +:+ " that matches " +:+ "ca.pem"))),
     [ev_ReadFile "ca.pem";
      ev_Debugf ("Could not load TLS certificate with BCCSP: "
                 +:+ "CSP was not initialized");
      ev_Debugf ("Attempting fallback with certfile " +:+ "ca.pem"
                 +:+ " and keyfile " +:+ "ec.key");
      ev_tls_LoadX509KeyPair "ca.pem" "ec.key"]).
Proof.
  rewrite (proj2 (LoadX509KeyPair_fallback (World.externals true) "ca.pem" "ec.key"
                    None [1] {| Type_ := "CERTIFICATE"; Bytes_ := [1] |} []
                    (World.certificate 1 []) None None
                    (errors_New "CSP was not initialized")
                    ltac:(vm_compute; reflexivity) ltac:(vm_compute; reflexivity)
                    ltac:(reflexivity) ltac:(vm_compute; reflexivity))).
  - vm_compute. reflexivity.
  - discriminate.
Defined.

(** X22 at a request for an RSA key of 2048 bits. *)
Lemma BCCSPKeyRequestGenerate_persistent_witness :
  exists opts,
    ev_KeyGen opts
      ∈ G_trace (BCCSPKeyRequestGenerate (World.externals true) Annex.describe
                   (Some {| CertificateRequest.KeyRequest :=
                              Some {| KeyRequest.A := "rsa";
                                      KeyRequest.S := 2048 |} |})
                   (Some World.store))
    /\ KeyGenOpts_Temporary opts = false.
Proof.
  assert (Hin : ev_KeyGen (RSA2048KeyGenOpts false)
                  ∈ G_trace (BCCSPKeyRequestGenerate (World.externals true)
                               Annex.describe
                               (Some {| CertificateRequest.KeyRequest :=
                                          Some {| KeyRequest.A := "rsa";
                                                  KeyRequest.S := 2048 |} |})
                               (Some World.store)))
    by among.
  exists (RSA2048KeyGenOpts false). split; [exact Hin|].
  exact (proj1 (proj1 (BCCSPKeyRequestGenerate_persistent (World.externals true)
                         Annex.describe _ _) _ Hin)).
Defined.

(** X23 at the same request: the generated key and its signer. *)
Lemma BCCSPKeyRequestGenerate_all_or_nothing_witness :
  exists csp opts k s,
    Some World.store = Some csp /\ KeyGen csp opts = Ok k
    /\ cspsigner_New (World.externals true) (Some World.store) k = Ok s
    /\ Some {| World.key_ski := [0]; World.key_private := true |} = Some k
    /\ Some {| World.key_ski := [0]; World.key_private := true |} = Some s.
Proof.
  destruct (BCCSPKeyRequestGenerate_all_or_nothing (World.externals true)
              Annex.describe
              (Some {| CertificateRequest.KeyRequest :=
                         Some {| KeyRequest.A := "rsa"; KeyRequest.S := 2048 |} |})
              (Some World.store)
              (Some {| World.key_ski := [0]; World.key_private := true |})
              (Some {| World.key_ski := [0]; World.key_private := true |})
              None ltac:(vm_compute; reflexivity))
    as [[_ H] | (H & _)]; [exact H | discriminate H].
Defined.


(** X25 at a store of wrappers whose master key is the message
    [1; 2; 3], with the Params [1; 2]. *)
Lemma CPABEMasterKeyGenerate_over_sw_witness :
  CPABEMasterKeyGenerate (Some Annex.wrapper_store)
  = (Returns (Some (sw_master {| sw.masterKey_key := Some [1; 2; 3] |}),
              "0102", None),
     [ev_KeyGen (CPABEKeyGenOpts false)]).
Proof.
  rewrite (CPABEMasterKeyGenerate_over_sw Annex.wrapper_store (Some [1; 2; 3])).
  - vm_compute. reflexivity.
  - reflexivity.
Defined.

(** X27 at a master key whose message is [1; 2; 3]. *)
Lemma SKI_digest_of_Bytes_witness :
  Private (sw_master {| sw.masterKey_key := Some [1; 2; 3] |} : Annex.wrapper) = true
  /\ exists raw,
      Bytes (sw_master {| sw.masterKey_key := Some [1; 2; 3] |} : Annex.wrapper)
      = Ok raw
      /\ [3; 6] = Sum256 raw.
Proof.
  assert (Hski : SKI (sw_master {| sw.masterKey_key := Some [1; 2; 3] |}
                      : Annex.wrapper) = Returns [3; 6])
    by (vm_compute; reflexivity).
  destruct (SKI_digest_of_Bytes _ _ Hski) as [[H _] | H];
    [discriminate H | exact H].
Defined.
End further_in_the_world.

Section master_key_in_the_world.
Local Existing Instance World.message.

(** X17 at [abe.pem] and a store that imports Params bytes as unset
    Params: the lookup is by the empty identifier. *)
Lemma BccspBackedCPABEMasterKey_never_digest_witness :
  exists ski,
    ev_GetKey ski
      ∈ trace (BccspBackedCPABEMasterKey Annex.params_externals "abe.pem"
                 (Some (Annex.params_store false)))
    /\ ski = [].
Proof.
  assert (Hin : ev_GetKey []
                  ∈ trace (BccspBackedCPABEMasterKey Annex.params_externals
                             "abe.pem" (Some (Annex.params_store false))))
    by among.
  exists []. split; [exact Hin|].
  exact (BccspBackedCPABEMasterKey_never_digest Annex.params_externals "abe.pem"
           (Some (Annex.params_store false)) [] Hin).
Defined.

(** X26 at [abe.pem] and a store that imports Params bytes as set Params:
    marshalling succeeds, and the panic carries nil. *)
Lemma BccspBackedCPABEMasterKey_panics_witness :
  BccspBackedCPABEMasterKey Annex.params_externals "abe.pem"
    (Some (Annex.params_store true))
  = (Panics None,
     [ev_ReadFile "abe.pem";
      ev_KeyImport (raw_bytes [7; 7]) (CPABEParamsImportOpts true)]).
Proof.
  rewrite (BccspBackedCPABEMasterKey_panics Annex.params_externals "abe.pem"
             (Annex.params_store true) [3]
             (World.certificate 3 [World.attribute_extension; World.params_extension])
             World.params_extension [7; 7]).
  - vm_compute. reflexivity.
  - vm_compute. reflexivity.
  - reflexivity.
  - vm_compute. reflexivity.
  - reflexivity.
Defined.
End master_key_in_the_world.
